(** * pendulum.date: a shallow embedding of [Date] and its navigation algebra

  The development follows [src/pendulum/date.py].  [Date] subclasses the
  Python standard [datetime.date]; the arithmetic it relies on
  ([calendar.isleap], [calendar.monthrange], [calendar.monthcalendar],
  [date.toordinal], [date.fromordinal], [date + timedelta] and
  [dateutil.relativedelta]) is modelled first, then the methods of
  [Date] in the order of the source file. *)

From Stdlib Require Import ZArith List Bool String Lia.
Import ListNotations.
Local Open Scope Z_scope.

(** ** Outcomes of a call

  A Python call returns a value or raises.  [OutOfFuel] is the outcome of
  a [while] loop of the model that was cut before its exit test passed;
  the theorems show it is never reached with a fuel of six or more. *)

Inductive exn : Type :=
| ValueError
| OverflowError
| KeyError
| DateTimeException.

Inductive outcome (A : Type) : Type :=
| Ok (a : A)
| Raise (e : exn)
| OutOfFuel.

Arguments Ok {A} a.
Arguments Raise {A} e.
Arguments OutOfFuel {A}.

Definition bind {A B : Type} (c : outcome A) (k : A -> outcome B) : outcome B :=
match c with
| Ok a => k a
| Raise e => Raise e
| OutOfFuel => OutOfFuel
end.

Notation "x <- c ;; k" := (bind c (fun x => k))
(at level 61, c at next level, right associativity).

Definition raises {A : Type} (c : outcome A) : Prop := exists e, c = Raise e.

(** ** pendulum.constants *)

(** Modelled from the spec: the module [pendulum/constants.py] is not part of
  the sources at hand; the weekday numbering (Sunday = 0 .. Saturday = 6)
  and the unit sizes are the ones the specification gives. *)
Module Constants.
Definition SUNDAY : Z := 0.
Definition MONDAY : Z := 1.
Definition TUESDAY : Z := 2.
Definition WEDNESDAY : Z := 3.
Definition THURSDAY : Z := 4.
Definition FRIDAY : Z := 5.
Definition SATURDAY : Z := 6.
Definition DAYS_PER_WEEK : Z := 7.
Definition YEARS_PER_DECADE : Z := 10.
Definition YEARS_PER_CENTURY : Z := 100.
Definition MONTHS_PER_YEAR : Z := 12.
End Constants.
Import Constants.

(** ** [datetime.date] *)

Record Date : Type := mkDate { year : Z; month : Z; day : Z }.

Module Datetime.

Definition MINYEAR : Z := 1.
Definition MAXYEAR : Z := 9999.

(** [_is_leap] *)
Definition is_leap (y : Z) : bool :=
  (y mod 4 =? 0) && (negb (y mod 100 =? 0) || (y mod 400 =? 0)).

(** [_DAYS_IN_MONTH], indexed by the month number (index 0 is unused). *)
Definition DAYS_IN_MONTH : list Z :=
  [0; 31; 28; 31; 30; 31; 30; 31; 31; 30; 31; 30; 31].

(** [_days_in_month], for a month in 1..12. *)
Definition days_in_month (y m : Z) : Z :=
  if (m =? 2) && is_leap y then 29 else nth (Z.to_nat m) DAYS_IN_MONTH 0.

(** The constructor's range check. *)
Definition valid_ymd (y m d : Z) : bool :=
  (MINYEAR <=? y) && (y <=? MAXYEAR)
  && (1 <=? m) && (m <=? 12)
  && (1 <=? d) && (d <=? days_in_month y m).

Definition valid (dt : Date) : bool := valid_ymd (year dt) (month dt) (day dt).

(** The arguments of the constructor are read as C [int]s. *)
Definition C_INT_MIN : Z := - 2 ^ 31.
Definition C_INT_MAX : Z := 2 ^ 31 - 1.

Definition fits_c_int (z : Z) : bool := (C_INT_MIN <=? z) && (z <=? C_INT_MAX).

(** [date(year, month, day)], and [date.replace] with the three fields: an
    [OverflowError] for an argument that is no C [int], a [ValueError]
    outside the range of the calendar. *)
Definition date (y m d : Z) : outcome Date :=
  if negb (fits_c_int y && fits_c_int m && fits_c_int d) then Raise OverflowError
  else if valid_ymd y m d then Ok (mkDate y m d)
  else Raise ValueError.

(** [_days_before_year]: days before January 1 of [y]. *)
Definition days_before_year (y : Z) : Z :=
  let y' := y - 1 in y' * 365 + y' / 4 - y' / 100 + y' / 400.

(** [_DAYS_BEFORE_MONTH], indexed by the month number. *)
Definition DAYS_BEFORE_MONTH : list Z :=
  [0; 0; 31; 59; 90; 120; 151; 181; 212; 243; 273; 304; 334].

(** [_days_before_month]: days of the year before the first of [m]. *)
Definition days_before_month (y m : Z) : Z :=
  nth (Z.to_nat m) DAYS_BEFORE_MONTH 0
  + (if (2 <? m) && is_leap y then 1 else 0).

(** [date.toordinal] ([_ymd2ord]): January 1 of year 1 is day 1. *)
Definition toordinal (dt : Date) : Z :=
  days_before_year (year dt) + days_before_month (year dt) (month dt) + day dt.

Definition DI400Y : Z := 146097.
Definition DI100Y : Z := 36524.
Definition DI4Y : Z := 1461.
Definition MAXORDINAL : Z := 3652059.

(** The end of [_ord2ymd]: the month and the day of the day numbered [n]
    (from 0) of a year; the month is estimated, and corrected when the
    estimate is too high. *)
Definition ord2md (leapyear : bool) (n : Z) : Z * Z :=
  let m := Z.shiftr (n + 50) 5 in
  let preceding :=
    nth (Z.to_nat m) DAYS_BEFORE_MONTH 0
    + (if (2 <? m) && leapyear then 1 else 0) in
  if n <? preceding then
    let m' := m - 1 in
    let preceding' :=
      preceding
      - (nth (Z.to_nat m') DAYS_IN_MONTH 0
         + (if (m' =? 2) && leapyear then 1 else 0)) in
    (m', n - preceding' + 1)
  else (m, n - preceding + 1).

(** [_ord2ymd], the inverse of [_ymd2ord]: the 400-year, 100-year, 4-year
    and 1-year cycles before day [n0] are counted first. *)
Definition ord2ymd (n0 : Z) : Date :=
  let n := n0 - 1 in
  let n400 := n / DI400Y in
  let n := n mod DI400Y in
  let n100 := n / DI100Y in
  let n := n mod DI100Y in
  let n4 := n / DI4Y in
  let n := n mod DI4Y in
  let n1 := n / 365 in
  let n := n mod 365 in
  let y := n400 * 400 + 1 + (n100 * 100 + n4 * 4 + n1) in
  if (n1 =? 4) || (n100 =? 4) then mkDate (y - 1) 12 31
  else
    let leapyear := (n1 =? 3) && (negb (n4 =? 24) || (n100 =? 3)) in
    let '(m, d) := ord2md leapyear n in
    mkDate y m d.

(** [date.fromordinal]: a [ValueError] outside 1..[MAXORDINAL]. *)
Definition fromordinal (n : Z) : outcome Date :=
  if (1 <=? n) && (n <=? MAXORDINAL) then Ok (ord2ymd n) else Raise ValueError.

(** [date + timedelta(days=k)]: an [OverflowError] when the result leaves
    the supported range. *)
Definition add_days (dt : Date) (k : Z) : outcome Date :=
  let o := toordinal dt + k in
  if (0 <? o) && (o <=? MAXORDINAL) then Ok (ord2ymd o) else Raise OverflowError.

(** [date.isoweekday]: Monday = 1 .. Sunday = 7. *)
Definition isoweekday (dt : Date) : Z :=
  let w := toordinal dt mod 7 in if w =? 0 then 7 else w.

(** [date.weekday]: Monday = 0 .. Sunday = 6. *)
Definition weekday (dt : Date) : Z := (toordinal dt + 6) mod 7.

(** The rich comparisons of [date]: lexicographic on (year, month, day). *)
Definition ltb (a b : Date) : bool :=
  (year a <? year b)
  || ((year a =? year b)
      && ((month a <? month b)
          || ((month a =? month b) && (day a <? day b)))).

Definition eqb (a b : Date) : bool :=
  (year a =? year b) && (month a =? month b) && (day a =? day b).

Definition leb (a b : Date) : bool := ltb a b || eqb a b.

End Datetime.


(** ** The [calendar] module *)

Module Calendar.

(** [calendar.isleap] *)
Definition isleap (year : Z) : bool :=
  (year mod 4 =? 0) && (negb (year mod 100 =? 0) || (year mod 400 =? 0)).

(** [calendar.mdays] *)
Definition mdays : list Z := [0; 31; 28; 31; 30; 31; 30; 31; 31; 30; 31; 30; 31].

(** [calendar.weekday]: Monday = 0; a year outside the range of [date] is
    replaced by one of the same 400-year cycle. *)
Definition weekday (year month day : Z) : outcome Z :=
  let year :=
    if (Datetime.MINYEAR <=? year) && (year <=? Datetime.MAXYEAR) then year
    else 2000 + year mod 400 in
  dt <- Datetime.date year month day ;;
  Ok (Datetime.weekday dt).

(** [calendar.monthrange]: the weekday of the first day of the month and the
    number of days of the month; [IllegalMonthError] is a [ValueError]. *)
Definition monthrange (year month : Z) : outcome (Z * Z) :=
  if negb ((1 <=? month) && (month <=? 12)) then Raise ValueError
  else
    day1 <- weekday year month 1 ;;
    let ndays :=
      nth (Z.to_nat month) mdays 0
      + (if (month =? 2) && isleap year then 1 else 0) in
    Ok (day1, ndays).

(** [range(1, n + 1)] *)
Definition days_1_to (n : Z) : list Z :=
  map (fun i => Z.of_nat i + 1) (seq 0 (Z.to_nat n)).

(** [Calendar.itermonthdays] with [firstweekday = 0]: the days of the month
    padded with zeros to whole weeks. *)
Definition itermonthdays (year month : Z) : outcome (list Z) :=
  r <- monthrange year month ;;
  let '(day1, ndays) := r in
  let days_before := (day1 - 0) mod 7 in
  let days_after := (0 - day1 - ndays) mod 7 in
  Ok (repeat 0 (Z.to_nat days_before) ++ days_1_to ndays
      ++ repeat 0 (Z.to_nat days_after)).

(** [[days[i:i+7] for i in range(0, len(days), 7)]]; [n] bounds the number
    of rows by the length of the list. *)
Fixpoint weeks_of (n : nat) (days : list Z) : list (list Z) :=
  match n, days with
  | O, _ => []
  | _, [] => []
  | S n', _ => firstn 7 days :: weeks_of n' (skipn 7 days)
  end.

(** [calendar.monthcalendar]: the weeks of the month, Monday first, with 0
    for the days outside the month. *)
Definition monthcalendar (year month : Z) : outcome (list (list Z)) :=
  days <- itermonthdays year month ;;
  Ok (weeks_of (List.length days) days).

End Calendar.

(** ** [dateutil.relativedelta] *)

Module Relativedelta.

(** The fields [Date.add] and [Date.subtract] set: [days] holds
    [days + weeks * 7]. *)
Record t : Type := mk { years : Z; months : Z; days : Z }.

(** The least magnitude of an integer that [float] does not hold: the
    midpoint between the largest double, [2^1024 - 2^971], and [2^1024]. *)
Definition FLOAT_LIMIT : Z := 2 ^ 1024 - 2 ^ 970.

(** [_sign]: [int(copysign(1, x))]; the integer is converted to a float
    first, an [OverflowError] when it is too large. *)
Definition sign (x : Z) : outcome Z :=
  if FLOAT_LIMIT <=? Z.abs x then Raise OverflowError
  else Ok (if x <? 0 then -1 else 1).

(** [relativedelta._fix], for the fields above: months beyond 11 are
    carried into the years, sign and magnitude apart. *)
Definition fix_ (r : t) : outcome t :=
  if 11 <? Z.abs (months r) then
    s <- sign (months r) ;;
    let div := (months r * s) / 12 in
    let mod_ := (months r * s) mod 12 in
    Ok (mk (years r + div * s) (mod_ * s) (days r))
  else Ok r.

(** [relativedelta(years=, months=, weeks=, days=)] *)
Definition make (years months weeks days : Z) : outcome t :=
  fix_ (mk years months (days + weeks * 7)).

(** [relativedelta.__neg__] builds the opposite delta with the constructor. *)
Definition neg (r : t) : outcome t :=
  fix_ (mk (- years r) (- months r) (- days r)).

(** [relativedelta.__radd__], [date + delta]: the year and the month are
    shifted, the day is cut to the length of the month reached, and the days
    are added last. *)
Definition radd (r : t) (other : Date) : outcome Date :=
  let year0 := year other + years r in
  let month0 := month other in
  let '(year1, month1) :=
    if negb (months r =? 0) then
      let month' := month0 + months r in
      if 12 <? month' then (year0 + 1, month' - 12)
      else if month' <? 1 then (year0 - 1, month' + 12)
      else (year0, month')
    else (year0, month0) in
  mr <- Calendar.monthrange year1 month1 ;;
  let day1 := Z.min (snd mr) (day other) in
  repl <- Datetime.date year1 month1 day1 ;;
  Datetime.add_days repl (days r).

(** [relativedelta.__rsub__], [date - delta] *)
Definition rsub (r : t) (other : Date) : outcome Date :=
  nr <- neg r ;;
  radd nr other.

End Relativedelta.

(** ** [pendulum.period.Period] *)

(** Modelled from the spec: the class [Period] of [pendulum/period.py] is not
    part of the sources at hand.  It is the elapsed-time collaborator of the
    specification: built from two dates and an absolute/relative flag, it
    gives the signed elapsed time from the first to the second, or its
    magnitude when absolute (the ends are swapped when the start is after
    the end), read in whole days or in seconds. *)
Module Period.

Record t : Type := mk { start : Date; end_ : Date; absolute : bool }.

Definition make (start end_ : Date) (absolute : bool) : t :=
  if absolute && Datetime.ltb end_ start then mk end_ start absolute
  else mk start end_ absolute.

Definition in_days (p : t) : Z :=
  Datetime.toordinal (end_ p) - Datetime.toordinal (start p).

Definition in_seconds (p : t) : Z := in_days p * 86400.

End Period.

(** ** [pendulum.date.Date] *)

Definition _days : list Z :=
  [SUNDAY; MONDAY; TUESDAY; WEDNESDAY; THURSDAY; FRIDAY; SATURDAY].

Definition _MODIFIERS_VALID_UNITS : list string :=
  ["day"; "week"; "month"; "year"; "decade"; "century"]%string.

(** [unit in units] *)
Definition unit_in (unit : string) (units : list string) : bool :=
  existsb (String.eqb unit) units.

(** [x if x is not None else dflt] *)
Definition or_else (x : option Z) (dflt : Z) : Z :=
  match x with Some v => v | None => dflt end.

(** [Date.instance] *)
Definition instance (dt : Date) : outcome Date :=
  Datetime.date (year dt) (month dt) (day dt).

(** [Date.replace] *)
Definition replace (self : Date) (y m d : option Z) : outcome Date :=
  Datetime.date (or_else y (year self)) (or_else m (month self))
                (or_else d (day self)).

(** [Date.set] *)
Definition set (self : Date) (y m d : option Z) : outcome Date :=
  replace self y m d.

(** [Date.day_of_week] *)
Definition day_of_week (self : Date) : Z := Datetime.isoweekday self mod 7.

(** [Date.is_leap_year] *)
Definition is_leap_year (self : Date) : bool := Calendar.isleap (year self).

(** [Date.day_of_year] *)
Definition day_of_year (self : Date) : Z :=
  let k := if is_leap_year self then 1 else 2 in
  (275 * month self) / 9 - k * ((month self + 9) / 12) + day self - 30.

(** [Date.days_in_month] *)
Definition days_in_month (self : Date) : outcome Z :=
  mr <- Calendar.monthrange (year self) (month self) ;;
  Ok (snd mr).

(** [Date.quarter]: [int(math.ceil(self.month / 3))]; the quotient of a
    month number by 3 is exact enough in floating point for its ceiling to
    be the integer one. *)
Definition quarter (self : Date) : Z := (month self + 2) / 3.

(** [Date.diff] with both arguments given *)
Definition diff (self dt : Date) (abs : bool) : outcome Period.t :=
  dt' <- instance dt ;;
  Ok (Period.make self dt' abs).

(** [Date.closest] *)
Definition closest (self dt1 dt2 : Date) : outcome Date :=
  dt1 <- instance dt1 ;;
  dt2 <- instance dt2 ;;
  p1 <- diff self dt1 true ;;
  p2 <- diff self dt2 true ;;
  if Period.in_seconds p1 <? Period.in_seconds p2 then Ok dt1 else Ok dt2.

(** [Date.farthest] *)
Definition farthest (self dt1 dt2 : Date) : outcome Date :=
  dt1 <- instance dt1 ;;
  dt2 <- instance dt2 ;;
  p1 <- diff self dt1 true ;;
  p2 <- diff self dt2 true ;;
  if Period.in_seconds p1 >? Period.in_seconds p2 then Ok dt1 else Ok dt2.

(** [Date.add] *)
Definition add (self : Date) (years months weeks days : Z) : outcome Date :=
  delta <- Relativedelta.make years months weeks days ;;
  d0 <- Datetime.date (year self) (month self) (day self) ;;
  r <- Relativedelta.radd delta d0 ;;
  instance r.

(** [Date.subtract] *)
Definition subtract (self : Date) (years months weeks days : Z) : outcome Date :=
  delta <- Relativedelta.make years months weeks days ;;
  d0 <- Datetime.date (year self) (month self) (day self) ;;
  r <- Relativedelta.rsub delta d0 ;;
  instance r.

(** [Date.average] with its argument given; [int(x / 2)] cuts the half of
    the whole number [x] toward zero. *)
Definition average (self dt : Date) : outcome Date :=
  p <- diff self dt false ;;
  add self 0 0 0 (Z.quot (Period.in_days p) 2).

(** [Date._start_of_day] *)
Definition _start_of_day (self : Date) : outcome Date := Ok self.

(** [Date._end_of_day] *)
Definition _end_of_day (self : Date) : outcome Date := Ok self.

(** [Date._start_of_month] *)
Definition _start_of_month (self : Date) : outcome Date :=
  set self (Some (year self)) (Some (month self)) (Some 1).

(** [Date._end_of_month] *)
Definition _end_of_month (self : Date) : outcome Date :=
  n <- days_in_month self ;;
  set self (Some (year self)) (Some (month self)) (Some n).

(** [Date._start_of_year] *)
Definition _start_of_year (self : Date) : outcome Date :=
  set self (Some (year self)) (Some 1) (Some 1).

(** [Date._end_of_year] *)
Definition _end_of_year (self : Date) : outcome Date :=
  set self (Some (year self)) (Some 12) (Some 31).

(** [Date._start_of_decade] *)
Definition _start_of_decade (self : Date) : outcome Date :=
  let y := year self - year self mod YEARS_PER_DECADE in
  set self (Some y) (Some 1) (Some 1).

(** [Date._end_of_decade] *)
Definition _end_of_decade (self : Date) : outcome Date :=
  let y := year self - year self mod YEARS_PER_DECADE + YEARS_PER_DECADE - 1 in
  set self (Some y) (Some 12) (Some 31).

(** [Date._start_of_century] *)
Definition _start_of_century (self : Date) : outcome Date :=
  let y := year self - 1 - (year self - 1) mod YEARS_PER_CENTURY + 1 in
  set self (Some y) (Some 1) (Some 1).

(** [Date._end_of_century] *)
Definition _end_of_century (self : Date) : outcome Date :=
  let y :=
    year self - 1 - (year self - 1) mod YEARS_PER_CENTURY + YEARS_PER_CENTURY in
  set self (Some y) (Some 12) (Some 31).

Section Navigation.

(** The number of iterations granted to the [while] loops of [next] and
    [previous]. *)
Variable fuel : nat.

(** [pendulum._WEEK_STARTS_AT] and [pendulum._WEEK_ENDS_AT], the configured
    week anchors; they are set outside this file. *)
Variables (_WEEK_STARTS_AT _WEEK_ENDS_AT : Z).

(** [while dt.day_of_week != day_of_week: dt = dt.add(days=1)] *)
Fixpoint next_loop (n : nat) (dt : Date) (dow : Z) : outcome Date :=
  if negb (day_of_week dt =? dow) then
    match n with
    | O => OutOfFuel
    | S n' => dt' <- add dt 0 0 0 1 ;; next_loop n' dt' dow
    end
  else Ok dt.

(** [Date.next] *)
Definition next (self : Date) (dow : option Z) : outcome Date :=
  let dow := or_else dow (day_of_week self) in
  if (dow <? SUNDAY) || (dow >? SATURDAY) then Raise ValueError
  else
    dt <- add self 0 0 0 1 ;;
    next_loop fuel dt dow.

(** [while dt.day_of_week != day_of_week: dt = dt.subtract(days=1)] *)
Fixpoint previous_loop (n : nat) (dt : Date) (dow : Z) : outcome Date :=
  if negb (day_of_week dt =? dow) then
    match n with
    | O => OutOfFuel
    | S n' => dt' <- subtract dt 0 0 0 1 ;; previous_loop n' dt' dow
    end
  else Ok dt.

(** [Date.previous] *)
Definition previous (self : Date) (dow : option Z) : outcome Date :=
  let dow := or_else dow (day_of_week self) in
  if (dow <? SUNDAY) || (dow >? SATURDAY) then Raise ValueError
  else
    dt <- subtract self 0 0 0 1 ;;
    previous_loop fuel dt dow.

(** [Date._start_of_week]; its last call, [dt.start_of('day')], reaches
    [_start_of_day]. *)
Definition _start_of_week (self : Date) : outcome Date :=
  dt <- (if negb (day_of_week self =? _WEEK_STARTS_AT)
         then previous self (Some _WEEK_STARTS_AT) else Ok self) ;;
  _start_of_day dt.

(** [Date._end_of_week]; its last call, [dt.end_of('day')], reaches
    [_end_of_day]. *)
Definition _end_of_week (self : Date) : outcome Date :=
  dt <- (if negb (day_of_week self =? _WEEK_ENDS_AT)
         then next self (Some _WEEK_ENDS_AT) else Ok self) ;;
  _end_of_day dt.

(** [Date.start_of]: the method [_start_of_<unit>] is looked up by name. *)
Definition start_of (self : Date) (unit : string) : outcome Date :=
  if negb (unit_in unit _MODIFIERS_VALID_UNITS) then Raise ValueError
  else if String.eqb unit "day" then _start_of_day self
  else if String.eqb unit "week" then _start_of_week self
  else if String.eqb unit "month" then _start_of_month self
  else if String.eqb unit "year" then _start_of_year self
  else if String.eqb unit "decade" then _start_of_decade self
  else _start_of_century self.

(** [Date.end_of]: the method [_end_of_<unit>] is looked up by name. *)
Definition end_of (self : Date) (unit : string) : outcome Date :=
  if negb (unit_in unit _MODIFIERS_VALID_UNITS) then Raise ValueError
  else if String.eqb unit "day" then _end_of_day self
  else if String.eqb unit "week" then _end_of_week self
  else if String.eqb unit "month" then _end_of_month self
  else if String.eqb unit "year" then _end_of_year self
  else if String.eqb unit "decade" then _end_of_decade self
  else _end_of_century self.

(** [Date._first_of_month] *)
Definition _first_of_month (self : Date) (dow : option Z) : outcome Date :=
  match dow with
  | None => set self None None (Some 1)
  | Some w =>
      cal <- Calendar.monthcalendar (year self) (month self) ;;
      let calendar_day := Z.to_nat ((w - 1) mod 7) in
      let day_of_month :=
        if nth calendar_day (nth 0%nat cal []) 0 >? 0
        then nth calendar_day (nth 0%nat cal []) 0
        else nth calendar_day (nth 1%nat cal []) 0 in
      set self None None (Some day_of_month)
  end.

(** [Date._first_of_quarter]; [first_of('month', day_of_week)] reaches
    [_first_of_month]. *)
Definition _first_of_quarter (self : Date) (dow : option Z) : outcome Date :=
  dt <- set self (Some (year self)) (Some (quarter self * 3 - 2)) (Some 1) ;;
  _first_of_month dt dow.

(** [Date._first_of_year]; [first_of('month', day_of_week)] reaches
    [_first_of_month]. *)
Definition _first_of_year (self : Date) (dow : option Z) : outcome Date :=
  dt <- set self None (Some 1) None ;;
  _first_of_month dt dow.

(** [Date.first_of] *)
Definition first_of (self : Date) (unit : string) (dow : option Z)
  : outcome Date :=
  if negb (unit_in unit ["month"; "quarter"; "year"]%string) then Raise ValueError
  else if String.eqb unit "month" then _first_of_month self dow
  else if String.eqb unit "quarter" then _first_of_quarter self dow
  else _first_of_year self dow.

(** [for i in range(n): dt = dt.next(day_of_week)] *)
Fixpoint next_times (n : nat) (dt : Date) (dow : option Z) : outcome Date :=
  match n with
  | O => Ok dt
  | S n' => dt' <- next dt dow ;; next_times n' dt' dow
  end.

(** [dt.day_of_week == day_of_week] *)
Definition dow_matches (dt : Date) (dow : option Z) : bool :=
  match dow with Some w => day_of_week dt =? w | None => false end.

(** [range(nth - (1 if dt.day_of_week == day_of_week else 0))]: its number
    of rounds, none when the bound is not positive. *)
Definition rounds (nth : Z) (dt : Date) (dow : option Z) : nat :=
  Z.to_nat (nth - (if dow_matches dt dow then 1 else 0)).

(** Modelled from the spec: [format] belongs to the mixin
    [FormattableMixing], which is not part of the sources at hand;
    [format('YYYY-MM')] is the (year, month) label of a date. *)
Definition format_YYYY_MM (dt : Date) : Z * Z := (year dt, month dt).

Definition label_eqb (a b : Z * Z) : bool :=
  (fst a =? fst b) && (snd a =? snd b).

(** [Date._nth_of_month]; [None] stands for the [False] it returns when the
    occurrence falls outside the month. *)
Definition _nth_of_month (self : Date) (nth : Z) (dow : option Z)
  : outcome (option Date) :=
  if nth =? 1 then
    dt <- first_of self "month" dow ;; Ok (Some dt)
  else
    dt <- first_of self "month" None ;;
    let check := format_YYYY_MM dt in
    dt <- next_times (rounds nth dt dow) dt dow ;;
    if label_eqb (format_YYYY_MM dt) check then
      r <- set self None None (Some (day dt)) ;; Ok (Some r)
    else Ok None.

(** [Date._nth_of_quarter] *)
Definition _nth_of_quarter (self : Date) (nth : Z) (dow : option Z)
  : outcome (option Date) :=
  if nth =? 1 then
    dt <- first_of self "quarter" dow ;; Ok (Some dt)
  else
    dt <- replace self (Some (year self)) (Some (quarter self * 3)) (Some 1) ;;
    let last_month := month dt in
    let y := year dt in
    dt <- first_of dt "quarter" None ;;
    dt <- next_times (rounds nth dt dow) dt dow ;;
    if (last_month <? month dt) || negb (y =? year dt) then Ok None
    else
      r <- set self (Some (year self)) (Some (month dt)) (Some (day dt)) ;;
      Ok (Some r).

(** [Date._nth_of_year] *)
Definition _nth_of_year (self : Date) (nth : Z) (dow : option Z)
  : outcome (option Date) :=
  if nth =? 1 then
    dt <- first_of self "year" dow ;; Ok (Some dt)
  else
    dt <- first_of self "year" None ;;
    let y := year dt in
    dt <- next_times (rounds nth dt dow) dt dow ;;
    if negb (y =? year dt) then Ok None
    else
      r <- set self (Some (year self)) (Some (month dt)) (Some (day dt)) ;;
      Ok (Some r).

(** [Date.nth_of]: a missing occurrence is reported by a
    [DateTimeException], whose message names the weekday through
    [self._days[day_of_week]]. *)
Definition nth_of (self : Date) (unit : string) (nth : Z) (dow : option Z)
  : outcome Date :=
  if negb (unit_in unit ["month"; "quarter"; "year"]%string) then Raise ValueError
  else
    r <- (if String.eqb unit "month" then _nth_of_month self nth dow
          else if String.eqb unit "quarter" then _nth_of_quarter self nth dow
          else _nth_of_year self nth dow) ;;
    match r with
    | Some dt => Ok dt
    | None =>
        match dow with
        | Some w =>
            if existsb (Z.eqb w) _days then Raise DateTimeException
            else Raise KeyError
        | None => Raise KeyError
        end
    end.

End Navigation.

(** ** More of [datetime.date]: the ISO calendar *)

Module Isocalendar.

(** [_isoweek1monday]: the ordinal of the Monday that starts ISO week 1 of
    [year]; the ordinal of January 1 is computed without a range check. *)
Definition isoweek1monday (y : Z) : Z :=
  let firstday := Datetime.toordinal (mkDate y 1 1) in
  let firstweekday := (firstday + 6) mod 7 in
  let week1monday := firstday - firstweekday in
  if firstweekday >? 3 then week1monday + 7 else week1monday.

(** [date.isocalendar]: the ISO year, week number and weekday. *)
Definition isocalendar (dt : Date) : Z * Z * Z :=
  let y := year dt in
  let week1monday := isoweek1monday y in
  let today := Datetime.toordinal dt in
  let week := (today - week1monday) / 7 in
  let wday := (today - week1monday) mod 7 in
  if week <? 0 then
    let y' := y - 1 in
    let week1monday' := isoweek1monday y' in
    (y', (today - week1monday') / 7 + 1, (today - week1monday') mod 7 + 1)
  else if (week >=? 52) && (today >=? isoweek1monday (y + 1)) then
    (y + 1, 0 + 1, wday + 1)
  else (y, week + 1, wday + 1).

End Isocalendar.

(** ** More of [pendulum.date.Date] *)

(** [Date.week_of_year] *)
Definition week_of_year (self : Date) : Z :=
  snd (fst (Isocalendar.isocalendar self)).

(** [Date.week_of_month]: [int(math.ceil(self.day / DAYS_PER_WEEK))]; the
    quotient of a day number by 7 is exact enough in floating point for its
    ceiling to be the integer one. *)
Definition week_of_month (self : Date) : Z :=
  (day self + (DAYS_PER_WEEK - 1)) / DAYS_PER_WEEK.

(** [Date.is_long_year] *)
Definition is_long_year (self : Date) : outcome bool :=
  dt <- Datetime.date (year self) 12 28 ;;
  Ok (snd (fst (Isocalendar.isocalendar dt)) =? 53).

(** [Date.is_same_day] *)
Definition is_same_day (self dt : Date) : bool := Datetime.eqb self dt.

(** [Date.is_birthday] with its argument given *)
Definition is_birthday (self dt : Date) : outcome bool :=
  inst <- instance dt ;;
  Ok ((month self =? month inst) && (day self =? day inst)).

(** [month[-k]] for a calendar of at least [k] weeks (a month has four weeks
    or more). *)
Definition week_from_end (k : nat) (cal : list (list Z)) : list Z :=
  nth (List.length cal - k) cal [].

(** [Date._last_of_month] *)
Definition _last_of_month (self : Date) (dow : option Z) : outcome Date :=
  match dow with
  | None =>
      n <- days_in_month self ;;
      set self None None (Some n)
  | Some w =>
      cal <- Calendar.monthcalendar (year self) (month self) ;;
      let calendar_day := Z.to_nat ((w - 1) mod 7) in
      let day_of_month :=
        if nth calendar_day (week_from_end 1 cal) 0 >? 0
        then nth calendar_day (week_from_end 1 cal) 0
        else nth calendar_day (week_from_end 2 cal) 0 in
      set self None None (Some day_of_month)
  end.

(** [Date._last_of_quarter]; [last_of('month', day_of_week)] reaches
    [_last_of_month]. *)
Definition _last_of_quarter (self : Date) (dow : option Z) : outcome Date :=
  dt <- set self (Some (year self)) (Some (quarter self * 3)) (Some 1) ;;
  _last_of_month dt dow.

(** [Date._last_of_year]; [last_of('month', day_of_week)] reaches
    [_last_of_month]. *)
Definition _last_of_year (self : Date) (dow : option Z) : outcome Date :=
  dt <- set self None (Some MONTHS_PER_YEAR) None ;;
  _last_of_month dt dow.

(** [Date.last_of] *)
Definition last_of (self : Date) (unit : string) (dow : option Z)
  : outcome Date :=
  if negb (unit_in unit ["month"; "quarter"; "year"]%string) then Raise ValueError
  else if String.eqb unit "month" then _last_of_month self dow
  else if String.eqb unit "quarter" then _last_of_quarter self dow
  else _last_of_year self dow.

(** ** Decidable checks used by the proofs *)

(** The month and day found by [ord2md] for day [n] of a year lie in the
    calendar and count back to [n]. *)
Definition ord2md_ok (leapyear : bool) (n : Z) : bool :=
  let '(m, d) := Datetime.ord2md leapyear n in
  (1 <=? m) && (m <=? 12) && (1 <=? d)
  && (d <=? nth (Z.to_nat m) Datetime.DAYS_IN_MONTH 0
            + (if (m =? 2) && leapyear then 1 else 0))
  && (nth (Z.to_nat m) Datetime.DAYS_BEFORE_MONTH 0
      + (if (2 <? m) && leapyear then 1 else 0) + d =? n + 1).

(** The weeks of a month whose first day has weekday [day1] (Monday = 0)
    and which has [ndays] days, as [calendar.monthcalendar] lays them out. *)
Definition month_grid (day1 ndays : Z) : list (list Z) :=
  let days :=
    repeat 0 (Z.to_nat ((day1 - 0) mod 7)) ++ Calendar.days_1_to ndays
    ++ repeat 0 (Z.to_nat ((0 - day1 - ndays) mod 7)) in
  Calendar.weeks_of (List.length days) days.

(** The day [_first_of_month] reads in column [c] of a calendar. *)
Definition first_pick (cal : list (list Z)) (c : Z) : Z :=
  if nth (Z.to_nat c) (nth 0%nat cal []) 0 >? 0
  then nth (Z.to_nat c) (nth 0%nat cal []) 0
  else nth (Z.to_nat c) (nth 1%nat cal []) 0.

(** The day [_last_of_month] reads in column [c] of a calendar. *)
Definition last_pick (cal : list (list Z)) (c : Z) : Z :=
  if nth (Z.to_nat c) (week_from_end 1 cal) 0 >? 0
  then nth (Z.to_nat c) (week_from_end 1 cal) 0
  else nth (Z.to_nat c) (week_from_end 2 cal) 0.

(** For the month shape and the column coded by [n] (first weekday
    [n mod 7], length [28 + (n / 7) mod 4], column [n / 28]): the day read
    in the first weeks is the one of the first seven days that falls in the
    column, and the day read in the last weeks the one of the last seven
    days. *)
Definition picks_ok (n : Z) : bool :=
  let day1 := n mod 7 in
  let ndays := 28 + (n / 7) mod 4 in
  let c := n / 28 in
  let f := first_pick (month_grid day1 ndays) c in
  let l := last_pick (month_grid day1 ndays) c in
  (1 <=? f) && (f <=? 7) && ((day1 + f - 1) mod 7 =? c)
  && (ndays - 6 <=? l) && (l <=? ndays) && ((day1 + l - 1) mod 7 =? c).

(** ** The delta applier as the specification words it *)

(** The (year, month) reached from the month of [d] by [shift] months, through
    the linear month index [year * 12 + (month - 1)]. *)
Definition target_year_month (d : Date) (shift : Z) : Z * Z :=
  let idx := year d * 12 + (month d - 1) + shift in
  (idx / 12, idx mod 12 + 1).

(** The date of the target month with the day of [d] cut to the length of
    that month. *)
Definition clamped_target (d : Date) (shift : Z) : Date :=
  let '(ty, tm) := target_year_month d shift in
  mkDate ty tm (Z.min (day d) (Datetime.days_in_month ty tm)).

(** The outcome of a delta of [shift] months and [flat] days on [d], once
    the delta is built: the cut target moved by the days, or the error of a
    target year that is no year of a [date]. *)
Definition delta_outcome (d : Date) (shift flat : Z) : outcome Date :=
  let ty := fst (target_year_month d shift) in
  if (1 <=? ty) && (ty <=? 9999)
  then Datetime.add_days (clamped_target d shift) flat
  else if Datetime.fits_c_int ty then Raise ValueError
  else Raise OverflowError.

(** ** The units whose boundary is a [date] *)

(** Whether the start of the unit [u] of [d] is a date from 0001-01-01 on:
    the decade of the years 1 to 9 would start in year 0, and the week may
    start before the first date. *)
Definition start_representable (ws : Z) (d : Date) (u : string) : bool :=
  if String.eqb u "decade" then 10 <=? year d
  else if String.eqb u "week"
  then 1 <=? Datetime.toordinal d - (day_of_week d - ws) mod 7
  else true.

(** Whether the end of the unit [u] of [d] is a date up to 9999-12-31: the
    century of the years 9901 to 9999 would end in year 10000, and the week
    may end after the last date. *)
Definition end_representable (we : Z) (d : Date) (u : string) : bool :=
  if String.eqb u "century" then year d <=? 9900
  else if String.eqb u "week"
  then Datetime.toordinal d + (we - day_of_week d) mod 7 <=? Datetime.MAXORDINAL
  else true.

(** ** Day counting by enumeration *)

(** The 12 x 31 candidate dates of a year, in calendar order. *)
Definition year_dates (y : Z) : list Date :=
  flat_map (fun m => map (mkDate y m) (Calendar.days_1_to 31))
           (Calendar.days_1_to 12).

(** The days from January 1 of the year of [d] to [d] inclusive, counted one
    by one: the candidates that are dates of the calendar and not after
    [d]. *)
Definition count_days_from_jan1 (d : Date) : Z :=
  Z.of_nat
    (List.length
       (filter (fun x => Datetime.valid x && Datetime.leb x d)
               (year_dates (year d)))).

(** The same test on a candidate of the year of [d], read from the leap flag
    of the year only. *)
Definition counted (leap : bool) (m dd : Z) (x : Date) : bool :=
  (1 <=? month x) && (month x <=? 12) && (1 <=? day x)
  && (day x <=? nth (Z.to_nat (month x)) Datetime.DAYS_IN_MONTH 0
                + (if (month x =? 2) && leap then 1 else 0))
  && ((month x <? m) || ((month x =? m) && (day x <=? dd))).

(** The closed form of [day_of_year] agrees with the count on day [dd] of
    month [m], when that day exists. *)
Definition day_of_year_ok (leap : bool) (y m dd : Z) : bool :=
  negb ((1 <=? dd)
        && (dd <=? nth (Z.to_nat m) Datetime.DAYS_IN_MONTH 0
                   + (if (m =? 2) && leap then 1 else 0)))
  || (Z.of_nat (List.length (filter (counted leap m dd) (year_dates y)))
      =? 275 * m / 9 - (if leap then 1 else 2) * ((m + 9) / 12) + dd - 30).

(** ** Distances as the specification words them *)

(** The absolute elapsed time between [d] and [x], in seconds. *)
Definition distance (d x : Date) : Z :=
  Z.abs (Datetime.toordinal x - Datetime.toordinal d) * 86400.

(** The signed difference in days from [d] to [x]. *)
Definition signed_days (d x : Date) : Z :=
  Datetime.toordinal x - Datetime.toordinal d.

(** * Properties *)

(** ** Arithmetic of the calendar *)

Ltac zdiv := Z.to_euclidean_division_equations; lia.

(** Case analysis on a month number known to lie in 1..12. *)
Ltac month_cases m :=
  let H := fresh "Hm" in
  assert (H : m = 1 \/ m = 2 \/ m = 3 \/ m = 4 \/ m = 5 \/ m = 6 \/ m = 7
              \/ m = 8 \/ m = 9 \/ m = 10 \/ m = 11 \/ m = 12) by lia;
  repeat (destruct H as [H | H]; [subst m | ]); [ .. | subst m].

(** Evaluation of the month tables at a known month. *)
Ltac lookups :=
  repeat match goal with
  | |- context [nth (Z.to_nat ?k) ?l 0] =>
      let v := eval vm_compute in (nth (Z.to_nat k) l 0) in
      change (nth (Z.to_nat k) l 0) with v
  end.

Ltac tables := lookups; cbn.

(** The same, leaving the arithmetic on variables as it is written. *)
Ltac month_tests :=
  lookups;
  repeat match goal with
  | |- context [2 <? ?k] =>
      let v := eval vm_compute in (2 <? k) in change (2 <? k) with v
  | |- context [?k =? 2] =>
      let v := eval vm_compute in (k =? 2) in change (k =? 2) with v
  end;
  cbn [andb].

Ltac bool_to_prop :=
  repeat match goal with
  | H : _ && _ = true |- _ => apply andb_true_iff in H; destruct H
  | H : _ || _ = false |- _ => apply orb_false_iff in H; destruct H
  | H : negb _ = true |- _ => apply negb_true_iff in H
  | H : negb _ = false |- _ => apply negb_false_iff in H
  | H : (_ <=? _) = true |- _ => apply Z.leb_le in H
  | H : (_ <=? _) = false |- _ => apply Z.leb_gt in H
  | H : (_ <? _) = true |- _ => apply Z.ltb_lt in H
  | H : (_ <? _) = false |- _ => apply Z.ltb_ge in H
  | H : (_ =? _) = true |- _ => apply Z.eqb_eq in H
  | H : (_ =? _) = false |- _ => apply Z.eqb_neq in H
  | H : (_ >? _) = true |- _ => rewrite Z.gtb_ltb in H
  | H : (_ >? _) = false |- _ => rewrite Z.gtb_ltb in H
  end.

Lemma valid_ymd_iff y m d :
  Datetime.valid_ymd y m d = true <->
  1 <= y <= 9999 /\ 1 <= m <= 12 /\ 1 <= d <= Datetime.days_in_month y m.
Proof.
  unfold Datetime.valid_ymd, Datetime.MINYEAR, Datetime.MAXYEAR.
  rewrite !andb_true_iff, !Z.leb_le. lia.
Qed.

Lemma valid_iff dt :
  Datetime.valid dt = true <->
  1 <= year dt <= 9999 /\ 1 <= month dt <= 12
  /\ 1 <= day dt <= Datetime.days_in_month (year dt) (month dt).
Proof. apply valid_ymd_iff. Qed.

Lemma fits_c_int_iff z :
  Datetime.fits_c_int z = true <-> - 2147483648 <= z <= 2147483647.
Proof.
  unfold Datetime.fits_c_int, Datetime.C_INT_MIN, Datetime.C_INT_MAX.
  rewrite andb_true_iff, !Z.leb_le.
  change (- 2 ^ 31) with (- 2147483648). change (2 ^ 31 - 1) with 2147483647.
  tauto.
Qed.

Lemma fits_c_int_small z : - 100000 <= z <= 100000 -> Datetime.fits_c_int z = true.
Proof. intros H. apply fits_c_int_iff. lia. Qed.

Lemma valid_ymd_days y m d :
  Datetime.valid_ymd y m d = true -> 1 <= y <= 9999 /\ 1 <= m <= 12 /\ 1 <= d <= 31.
Proof.
  unfold Datetime.valid_ymd, Datetime.MINYEAR, Datetime.MAXYEAR.
  rewrite !andb_true_iff, !Z.leb_le. intros (((((H1 & H2) & H3) & H4) & H5) & H6).
  assert (Datetime.days_in_month y m <= 31); [ | lia].
  unfold Datetime.days_in_month.
  destruct ((m =? 2) && Datetime.is_leap y); [lia | ].
  assert (Hm : m = 1 \/ m = 2 \/ m = 3 \/ m = 4 \/ m = 5 \/ m = 6 \/ m = 7
               \/ m = 8 \/ m = 9 \/ m = 10 \/ m = 11 \/ m = 12) by lia.
  repeat (destruct Hm as [-> | Hm]; [vm_compute; discriminate | ]).
  subst m. vm_compute. discriminate.
Qed.

Lemma date_valid y m d :
  Datetime.valid_ymd y m d = true -> Datetime.date y m d = Ok (mkDate y m d).
Proof.
  intros H. unfold Datetime.date. rewrite H.
  apply valid_ymd_days in H. destruct H as (Hy & Hm & Hd).
  now rewrite !fits_c_int_small by lia.
Qed.

Lemma date_invalid y m d :
  Datetime.fits_c_int y = true -> 1 <= m <= 12 -> 1 <= d <= 31 ->
  Datetime.valid_ymd y m d = false -> Datetime.date y m d = Raise ValueError.
Proof.
  intros Hy Hm Hd H. unfold Datetime.date.
  now rewrite Hy, H, !fits_c_int_small by lia.
Qed.

Lemma date_overflow y m d :
  Datetime.fits_c_int y = false -> Datetime.date y m d = Raise OverflowError.
Proof. intros Hy. unfold Datetime.date. now rewrite Hy. Qed.

Lemma instance_valid dt : Datetime.valid dt = true -> instance dt = Ok dt.
Proof.
  intros H. unfold instance. destruct dt as [y m d]. now apply date_valid.
Qed.

Lemma isleap_is_leap y : Calendar.isleap y = Datetime.is_leap y.
Proof. reflexivity. Qed.

Lemma days_in_month_bounds y m :
  1 <= m <= 12 -> 28 <= Datetime.days_in_month y m <= 31.
Proof.
  intros Hm. unfold Datetime.days_in_month.
  month_cases m; destruct (Datetime.is_leap y); tables; lia.
Qed.

Lemma days_before_month_succ y m :
  1 <= m <= 11 ->
  Datetime.days_before_month y (m + 1)
  = Datetime.days_before_month y m + Datetime.days_in_month y m.
Proof.
  intros Hm. unfold Datetime.days_before_month, Datetime.days_in_month.
  month_cases m; destruct (Datetime.is_leap y); tables; lia.
Qed.

Lemma days_before_month_mono y m m' :
  1 <= m -> m < m' -> m' <= 12 ->
  Datetime.days_before_month y m + Datetime.days_in_month y m
  <= Datetime.days_before_month y m'.
Proof.
  intros H1 H2 H3. unfold Datetime.days_before_month, Datetime.days_in_month.
  month_cases m; month_cases m'; try lia; destruct (Datetime.is_leap y); tables; lia.
Qed.

Lemma days_in_year y m :
  1 <= m <= 12 ->
  Datetime.days_before_month y m + Datetime.days_in_month y m
  <= 365 + (if Datetime.is_leap y then 1 else 0).
Proof.
  intros Hm. unfold Datetime.days_before_month, Datetime.days_in_month.
  month_cases m; destruct (Datetime.is_leap y); tables; lia.
Qed.

Lemma days_before_month_nonneg y m :
  1 <= m <= 12 -> 0 <= Datetime.days_before_month y m.
Proof.
  intros Hm. unfold Datetime.days_before_month.
  month_cases m; destruct (Datetime.is_leap y); tables; lia.
Qed.

Lemma days_before_year_succ y :
  Datetime.days_before_year (y + 1)
  = Datetime.days_before_year y + 365 + (if Datetime.is_leap y then 1 else 0).
Proof.
  unfold Datetime.days_before_year, Datetime.is_leap. cbv zeta.
  replace (y + 1 - 1) with y by lia.
  destruct (y mod 4 =? 0) eqn:E4; destruct (y mod 100 =? 0) eqn:E100;
    destruct (y mod 400 =? 0) eqn:E400; cbn; bool_to_prop; zdiv.
Qed.

Lemma days_before_year_mono y y' :
  y <= y' -> Datetime.days_before_year y <= Datetime.days_before_year y'.
Proof.
  intros H. unfold Datetime.days_before_year. cbv zeta. zdiv.
Qed.

(** ** Ordinals *)

Lemma forallb_below (P : Z -> bool) (k : nat) :
  forallb P (map Z.of_nat (seq 0 k)) = true ->
  forall n, 0 <= n < Z.of_nat k -> P n = true.
Proof.
  rewrite forallb_forall. intros H n Hn. apply H.
  apply in_map_iff. exists (Z.to_nat n). split; [lia | apply in_seq; lia].
Qed.

Lemma ord2md_ok_all leapyear n :
  0 <= n < 365 -> ord2md_ok leapyear n = true.
Proof.
  intros Hn. apply (forallb_below (ord2md_ok leapyear) 365); [ | lia].
  destruct leapyear; vm_compute; reflexivity.
Qed.

Lemma days_in_month_table y m :
  Datetime.days_in_month y m
  = nth (Z.to_nat m) Datetime.DAYS_IN_MONTH 0
    + (if (m =? 2) && Datetime.is_leap y then 1 else 0).
Proof.
  unfold Datetime.days_in_month.
  destruct (m =? 2) eqn:E; [ | cbn; lia].
  apply Z.eqb_eq in E. subst m. destruct (Datetime.is_leap y); reflexivity.
Qed.

Lemma days_before_year_cycles n400 n100 n4 n1 :
  0 <= n100 <= 3 -> 0 <= n4 <= 24 -> 0 <= n1 <= 3 ->
  Datetime.days_before_year (n400 * 400 + 1 + (n100 * 100 + n4 * 4 + n1))
  = 146097 * n400 + 36524 * n100 + 1461 * n4 + 365 * n1.
Proof.
  intros H100 H4 H1. unfold Datetime.days_before_year. cbv zeta. zdiv.
Qed.

Lemma is_leap_cycles n400 n100 n4 n1 :
  0 <= n100 <= 3 -> 0 <= n4 <= 24 -> 0 <= n1 <= 3 ->
  Datetime.is_leap (n400 * 400 + 1 + (n100 * 100 + n4 * 4 + n1))
  = (n1 =? 3) && (negb (n4 =? 24) || (n100 =? 3)).
Proof.
  intros H100 H4 H1. unfold Datetime.is_leap.
  set (y := n400 * 400 + 1 + (n100 * 100 + n4 * 4 + n1)).
  assert (E4 : y mod 4 = 0 <-> n1 = 3) by (subst y; zdiv).
  assert (E100 : y mod 100 = 0 <-> (n1 = 3 /\ n4 = 24)) by (subst y; zdiv).
  assert (E400 : y mod 400 = 0 <-> (n1 = 3 /\ n4 = 24 /\ n100 = 3))
    by (subst y; zdiv).
  destruct (y mod 4 =? 0) eqn:B4; destruct (y mod 100 =? 0) eqn:B100;
    destruct (y mod 400 =? 0) eqn:B400;
    destruct (n1 =? 3) eqn:C1; destruct (n4 =? 24) eqn:C4;
    destruct (n100 =? 3) eqn:C100; cbn; bool_to_prop; try reflexivity; lia.
Qed.

Lemma ord2md_spec y n :
  0 <= n < 365 ->
  let '(m, d) := Datetime.ord2md (Datetime.is_leap y) n in
  1 <= m <= 12 /\ 1 <= d <= Datetime.days_in_month y m
  /\ Datetime.days_before_month y m + d = n + 1.
Proof.
  intros Hn. pose proof (ord2md_ok_all (Datetime.is_leap y) n Hn) as H.
  unfold ord2md_ok in H.
  destruct (Datetime.ord2md (Datetime.is_leap y) n) as [m d].
  rewrite days_in_month_table. unfold Datetime.days_before_month.
  bool_to_prop. lia.
Qed.

(** [_ord2ymd] gives a date of the calendar whose ordinal is its argument. *)
Lemma ord2ymd_spec n0 :
  1 <= n0 <= Datetime.MAXORDINAL ->
  Datetime.valid (Datetime.ord2ymd n0) = true
  /\ Datetime.toordinal (Datetime.ord2ymd n0) = n0.
Proof.
  unfold Datetime.MAXORDINAL. intros Hn0.
  unfold Datetime.ord2ymd, Datetime.DI400Y, Datetime.DI100Y, Datetime.DI4Y.
  cbv zeta.
  set (n := n0 - 1).
  set (n400 := n / 146097). set (r400 := n mod 146097).
  set (n100 := r400 / 36524). set (r100 := r400 mod 36524).
  set (n4 := r100 / 1461). set (r4 := r100 mod 1461).
  set (n1 := r4 / 365). set (r1 := r4 mod 365).
  assert (D400 : n = 146097 * n400 + r400 /\ 0 <= r400 < 146097)
    by (subst n400 r400; zdiv).
  assert (D100 : r400 = 36524 * n100 + r100 /\ 0 <= r100 < 36524)
    by (subst n100 r100; zdiv).
  assert (D4 : r100 = 1461 * n4 + r4 /\ 0 <= r4 < 1461)
    by (subst n4 r4; zdiv).
  assert (D1 : r4 = 365 * n1 + r1 /\ 0 <= r1 < 365)
    by (subst n1 r1; zdiv).
  clearbody n400 r400 n100 r100 n4 r4 n1 r1.
  assert (Hn : n = n0 - 1) by reflexivity. clearbody n.
  destruct ((n1 =? 4) || (n100 =? 4)) eqn:Elast.
  - (* the last day of a leap year or of a 400-year cycle *)
    apply orb_true_iff in Elast.
    assert (Hy : exists c100 c4,
               n400 * 400 + 1 + (n100 * 100 + n4 * 4 + n1) - 1
               = n400 * 400 + 1 + (c100 * 100 + c4 * 4 + 3)
               /\ 0 <= c100 <= 3 /\ 0 <= c4 <= 24
               /\ (c4 <> 24 \/ c100 = 3)
               /\ n0 = 146097 * n400 + 36524 * c100 + 1461 * c4 + 365 * 3 + 366).
    { destruct Elast as [E | E]; apply Z.eqb_eq in E.
      - exists n100, n4. lia.
      - exists 3, 24. lia. }
    destruct Hy as (c100 & c4 & -> & Hc100 & Hc4 & Hc & Hord).
    unfold Datetime.valid, Datetime.toordinal.
    cbn [year month day].
    rewrite valid_ymd_iff, days_in_month_table.
    unfold Datetime.days_before_month.
    rewrite days_before_year_cycles by lia.
    rewrite is_leap_cycles by lia.
    replace ((3 =? 3) && (negb (c4 =? 24) || (c100 =? 3))) with true.
    2:{ symmetry. apply andb_true_iff. split; [reflexivity | ].
        apply orb_true_iff. destruct Hc as [Hc | Hc];
          [left; apply negb_true_iff, Z.eqb_neq | right; apply Z.eqb_eq];
          assumption. }
    lookups. change (12 =? 2) with false. change (2 <? 12) with true.
    cbn [andb]. lia.
  - apply orb_false_iff in Elast. destruct Elast as [E1 E100].
    bool_to_prop.
    assert (B100 : 0 <= n100 <= 3) by lia.
    assert (B4 : 0 <= n4 <= 24) by lia.
    assert (B1 : 0 <= n1 <= 3) by lia.
    rewrite <- (is_leap_cycles n400 n100 n4 n1) by assumption.
    set (y := n400 * 400 + 1 + (n100 * 100 + n4 * 4 + n1)).
    pose proof (ord2md_spec y r1 (proj2 D1)) as Hmd.
    destruct (Datetime.ord2md (Datetime.is_leap y) r1) as [m d].
    destruct Hmd as (Hm & Hd & Hsum).
    unfold Datetime.valid, Datetime.toordinal. cbn [year month day].
    rewrite valid_ymd_iff.
    pose proof (days_before_year_cycles n400 n100 n4 n1 B100 B4 B1) as Hdby.
    fold y in Hdby.
    assert (Hy : 1 <= y <= 9999) by (subst y; lia).
    split; [ | lia]. repeat split; lia.
Qed.

Lemma days_before_year_nonneg y : 1 <= y -> 0 <= Datetime.days_before_year y.
Proof.
  intros H. pose proof (days_before_year_mono 1 y H) as M.
  change (Datetime.days_before_year 1) with 0 in M. exact M.
Qed.

Lemma toordinal_bounds dt :
  Datetime.valid dt = true ->
  Datetime.days_before_year (year dt) + 1 <= Datetime.toordinal dt
  /\ Datetime.toordinal dt <= Datetime.days_before_year (year dt + 1).
Proof.
  rewrite valid_iff. intros (Hy & Hm & Hd). unfold Datetime.toordinal.
  pose proof (days_before_month_nonneg (year dt) (month dt) Hm).
  pose proof (days_in_year (year dt) (month dt) Hm).
  rewrite days_before_year_succ. lia.
Qed.

Lemma toordinal_range dt :
  Datetime.valid dt = true -> 1 <= Datetime.toordinal dt <= Datetime.MAXORDINAL.
Proof.
  intros H. pose proof (toordinal_bounds dt H) as [Hlo Hhi].
  apply valid_iff in H. destruct H as (Hy & _).
  pose proof (days_before_year_nonneg (year dt) (proj1 Hy)).
  pose proof (days_before_year_mono (year dt + 1) 10000 ltac:(lia)) as M.
  change (Datetime.days_before_year 10000) with 3652059 in M.
  unfold Datetime.MAXORDINAL. lia.
Qed.

(** The ordinal grows with the (year, month, day) order. *)
Lemma toordinal_lt a b :
  Datetime.valid a = true -> Datetime.valid b = true ->
  Datetime.ltb a b = true -> Datetime.toordinal a < Datetime.toordinal b.
Proof.
  intros Ha Hb Hlt.
  pose proof (toordinal_bounds a Ha) as [_ Hahi].
  pose proof (toordinal_bounds b Hb) as [Hblo _].
  apply valid_iff in Ha. apply valid_iff in Hb.
  destruct Ha as (Hya & Hma & Hda), Hb as (Hyb & Hmb & Hdb).
  unfold Datetime.ltb in Hlt.
  apply orb_true_iff in Hlt. destruct Hlt as [Hy | Hlt].
  - apply Z.ltb_lt in Hy.
    pose proof (days_before_year_mono (year a + 1) (year b) ltac:(lia)). lia.
  - apply andb_true_iff in Hlt. destruct Hlt as [Hy Hlt].
    apply Z.eqb_eq in Hy. unfold Datetime.toordinal. rewrite Hy in *.
    apply orb_true_iff in Hlt. destruct Hlt as [Hm | Hlt].
    + apply Z.ltb_lt in Hm.
      pose proof (days_before_month_mono (year b) (month a) (month b)
                    ltac:(lia) Hm ltac:(lia)). lia.
    + apply andb_true_iff in Hlt. destruct Hlt as [Hm Hd].
      apply Z.eqb_eq in Hm. apply Z.ltb_lt in Hd. rewrite Hm. lia.
Qed.

Lemma eqb_eq a b : Datetime.eqb a b = true <-> a = b.
Proof.
  unfold Datetime.eqb. destruct a as [ya ma da], b as [yb mb db].
  cbn [year month day]. rewrite !andb_true_iff, !Z.eqb_eq.
  split; [intros [[-> ->] ->]; reflexivity | intros [= -> -> ->]; auto].
Qed.

Lemma ltb_trichotomy a b :
  Datetime.ltb a b = true \/ a = b \/ Datetime.ltb b a = true.
Proof.
  destruct a as [ya ma da], b as [yb mb db]. unfold Datetime.ltb.
  cbn [year month day].
  destruct (Z.lt_trichotomy ya yb) as [H | [H | H]].
  - left. apply orb_true_iff. left. now apply Z.ltb_lt.
  - subst yb. rewrite Z.ltb_irrefl, Z.eqb_refl. cbn [orb andb].
    destruct (Z.lt_trichotomy ma mb) as [H | [H | H]].
    + left. apply orb_true_iff. left. now apply Z.ltb_lt.
    + subst mb. rewrite Z.ltb_irrefl, Z.eqb_refl. cbn [orb andb].
      destruct (Z.lt_trichotomy da db) as [H | [H | H]].
      * left. now apply Z.ltb_lt.
      * right. left. now subst.
      * right. right. now apply Z.ltb_lt.
    + right. right. apply orb_true_iff. left. now apply Z.ltb_lt.
  - right. right. apply orb_true_iff. left. now apply Z.ltb_lt.
Qed.

Lemma toordinal_ltb_iff a b :
  Datetime.valid a = true -> Datetime.valid b = true ->
  (Datetime.ltb a b = true <-> Datetime.toordinal a < Datetime.toordinal b).
Proof.
  intros Ha Hb. split; [now apply toordinal_lt | ].
  intros Hlt. destruct (ltb_trichotomy a b) as [H | [H | H]]; [exact H | | ].
  - subst b. lia.
  - pose proof (toordinal_lt b a Hb Ha H). lia.
Qed.

Lemma toordinal_inj a b :
  Datetime.valid a = true -> Datetime.valid b = true ->
  Datetime.toordinal a = Datetime.toordinal b -> a = b.
Proof.
  intros Ha Hb E. destruct (ltb_trichotomy a b) as [H | [H | H]]; [ | exact H | ].
  - pose proof (toordinal_lt a b Ha Hb H). lia.
  - pose proof (toordinal_lt b a Hb Ha H). lia.
Qed.

Lemma toordinal_leb_iff a b :
  Datetime.valid a = true -> Datetime.valid b = true ->
  (Datetime.leb a b = true <-> Datetime.toordinal a <= Datetime.toordinal b).
Proof.
  intros Ha Hb. unfold Datetime.leb. rewrite orb_true_iff, eqb_eq.
  rewrite (toordinal_ltb_iff a b Ha Hb). split.
  - intros [H | ->]; lia.
  - intros H. destruct (Z.eq_dec (Datetime.toordinal a) (Datetime.toordinal b)).
    + right. now apply toordinal_inj.
    + left. lia.
Qed.

(** [fromordinal] undoes [toordinal]. *)
Lemma ord2ymd_toordinal dt :
  Datetime.valid dt = true -> Datetime.ord2ymd (Datetime.toordinal dt) = dt.
Proof.
  intros H. pose proof (toordinal_range dt H) as R.
  destruct (ord2ymd_spec _ R) as [V E]. now apply toordinal_inj.
Qed.

(** [date + timedelta(days=k)], when the sum stays in range. *)
Lemma add_days_ok dt k :
  1 <= Datetime.toordinal dt + k <= Datetime.MAXORDINAL ->
  exists r, Datetime.add_days dt k = Ok r /\ Datetime.valid r = true
            /\ Datetime.toordinal r = Datetime.toordinal dt + k.
Proof.
  intros R. unfold Datetime.add_days. cbv zeta.
  replace ((0 <? Datetime.toordinal dt + k)
           && (Datetime.toordinal dt + k <=? Datetime.MAXORDINAL)) with true.
  - destruct (ord2ymd_spec _ R) as [V E]. eauto.
  - symmetry. apply andb_true_iff. split; [apply Z.ltb_lt | apply Z.leb_le]; lia.
Qed.

Lemma add_days_overflow dt k :
  ~ (1 <= Datetime.toordinal dt + k <= Datetime.MAXORDINAL) ->
  Datetime.add_days dt k = Raise OverflowError.
Proof.
  intros R. unfold Datetime.add_days. cbv zeta.
  replace ((0 <? Datetime.toordinal dt + k)
           && (Datetime.toordinal dt + k <=? Datetime.MAXORDINAL)) with false;
    [reflexivity | ].
  symmetry. apply andb_false_iff.
  destruct (Z.lt_ge_cases (Datetime.toordinal dt + k) 1);
    [left; apply Z.ltb_ge | right; apply Z.leb_gt]; lia.
Qed.

Lemma add_days_zero dt :
  Datetime.valid dt = true -> Datetime.add_days dt 0 = Ok dt.
Proof.
  intros H. pose proof (toordinal_range dt H) as R.
  destruct (add_days_ok dt 0 ltac:(lia)) as (r & E & V & O).
  rewrite E. f_equal. apply toordinal_inj; [assumption .. | lia].
Qed.

Lemma add_days_inv dt k r :
  Datetime.add_days dt k = Ok r ->
  Datetime.valid r = true /\ Datetime.toordinal r = Datetime.toordinal dt + k.
Proof.
  intros E.
  destruct (Z.le_gt_cases 1 (Datetime.toordinal dt + k)) as [H1 | H1];
    [destruct (Z.le_gt_cases (Datetime.toordinal dt + k) Datetime.MAXORDINAL)
      as [H2 | H2] | ].
  - destruct (add_days_ok dt k ltac:(lia)) as (r' & E' & V & O).
    rewrite E in E'. injection E' as <-. auto.
  - rewrite add_days_overflow in E by lia. discriminate.
  - rewrite add_days_overflow in E by lia. discriminate.
Qed.

(** ** [calendar.monthrange] and [relativedelta] *)

Lemma monthrange_ok y m :
  1 <= m <= 12 ->
  exists w, Calendar.monthrange y m = Ok (w, Datetime.days_in_month y m).
Proof.
  intros Hm. unfold Calendar.monthrange.
  replace ((1 <=? m) && (m <=? 12)) with true
    by (symmetry; apply andb_true_iff; split; apply Z.leb_le; lia).
  cbn [negb]. unfold Calendar.weekday.
  set (y' := if (Datetime.MINYEAR <=? y) && (y <=? Datetime.MAXYEAR)
             then y else 2000 + y mod 400).
  assert (Hy' : 1 <= y' <= 9999).
  { subst y'. unfold Datetime.MINYEAR, Datetime.MAXYEAR.
    destruct ((1 <=? y) && (y <=? 9999)) eqn:E; [bool_to_prop; lia | zdiv]. }
  rewrite date_valid.
  - cbn [bind]. rewrite isleap_is_leap, days_in_month_table. eauto.
  - apply valid_ymd_iff. pose proof (days_in_month_bounds y' m Hm). lia.
Qed.

Lemma float_limit_large : 2 ^ 64 < Relativedelta.FLOAT_LIMIT.
Proof. vm_compute. reflexivity. Qed.

(** A delta whose months are below the float limit is built, with months
    within 11 and the same total of months. *)
Lemma make_norm ys ms ws ds :
  Z.abs ms < Relativedelta.FLOAT_LIMIT ->
  exists r,
    Relativedelta.make ys ms ws ds = Ok r
    /\ Z.abs (Relativedelta.months r) <= 11
    /\ 12 * Relativedelta.years r + Relativedelta.months r = 12 * ys + ms
    /\ Relativedelta.days r = ds + ws * 7.
Proof.
  intros Hlim.
  unfold Relativedelta.make, Relativedelta.fix_, Relativedelta.sign.
  cbn [Relativedelta.years Relativedelta.months Relativedelta.days].
  destruct (11 <? Z.abs ms) eqn:E.
  - replace (Relativedelta.FLOAT_LIMIT <=? Z.abs ms) with false
      by (symmetry; apply Z.leb_gt; exact Hlim).
    cbn [bind]. eexists. split; [reflexivity | ].
    cbn [Relativedelta.years Relativedelta.months Relativedelta.days].
    bool_to_prop. destruct (ms <? 0) eqn:S; bool_to_prop; zdiv.
  - eexists. split; [reflexivity | ].
    cbn [Relativedelta.years Relativedelta.months Relativedelta.days].
    bool_to_prop. lia.
Qed.

(** The constructor raises for months that no float holds. *)
Lemma make_overflow ys ms ws ds :
  Relativedelta.FLOAT_LIMIT <= Z.abs ms ->
  Relativedelta.make ys ms ws ds = Raise OverflowError.
Proof.
  intros Hlim. pose proof float_limit_large as L.
  unfold Relativedelta.make, Relativedelta.fix_, Relativedelta.sign.
  cbn [Relativedelta.months].
  replace (11 <? Z.abs ms) with true by (symmetry; apply Z.ltb_lt; lia).
  replace (Relativedelta.FLOAT_LIMIT <=? Z.abs ms) with true
    by (symmetry; apply Z.leb_le; exact Hlim).
  reflexivity.
Qed.

Lemma neg_norm r :
  Z.abs (Relativedelta.months r) <= 11 ->
  Relativedelta.neg r
  = Ok (Relativedelta.mk (- Relativedelta.years r) (- Relativedelta.months r)
                         (- Relativedelta.days r)).
Proof.
  intros H. unfold Relativedelta.neg, Relativedelta.fix_.
  cbn [Relativedelta.months].
  replace (11 <? Z.abs (- Relativedelta.months r)) with false; [reflexivity | ].
  symmetry. apply Z.ltb_ge. lia.
Qed.

Lemma target_month_range d shift :
  1 <= snd (target_year_month d shift) <= 12.
Proof. unfold target_year_month. cbn [snd]. zdiv. Qed.

(** [date + delta]: the month index is shifted, the day is cut, and the days
    are added; a target year outside the range of [date] is an error. *)
Lemma radd_spec r d :
  Datetime.valid d = true ->
  Z.abs (Relativedelta.months r) <= 11 ->
  Relativedelta.radd r d
  = delta_outcome d (12 * Relativedelta.years r + Relativedelta.months r)
                  (Relativedelta.days r).
Proof.
  intros Hv Hr. apply valid_iff in Hv. destruct Hv as (Hy & Hm & Hd).
  pose proof (days_in_month_bounds (year d) (month d) Hm) as Hbd.
  unfold Relativedelta.radd, delta_outcome. cbv zeta.
  set (shift := 12 * Relativedelta.years r + Relativedelta.months r).
  set (ym := if negb (Relativedelta.months r =? 0) then _ else _).
  assert (E : ym = target_year_month d shift).
  { subst ym shift. unfold target_year_month.
    destruct (Relativedelta.months r =? 0) eqn:E0; cbn [negb]; bool_to_prop.
    - f_equal; zdiv.
    - destruct (12 <? month d + Relativedelta.months r) eqn:E12;
        [ | destruct (month d + Relativedelta.months r <? 1) eqn:E1];
        bool_to_prop; f_equal; zdiv. }
  rewrite E. clear E ym.
  pose proof (target_month_range d shift) as Htm.
  unfold clamped_target.
  destruct (target_year_month d shift) as [ty tm]. cbn [fst snd] in *.
  destruct (monthrange_ok ty tm Htm) as [w ->]. cbn [bind snd].
  pose proof (days_in_month_bounds ty tm Htm) as Hdim.
  rewrite Z.min_comm.
  destruct ((1 <=? ty) && (ty <=? 9999)) eqn:Ety.
  - rewrite date_valid; [reflexivity | ].
    apply valid_ymd_iff. bool_to_prop. lia.
  - destruct (Datetime.fits_c_int ty) eqn:Ef.
    + rewrite date_invalid; [reflexivity | exact Ef | lia | lia | ].
      destruct (Datetime.valid_ymd ty tm _) eqn:V; [ | reflexivity].
      apply valid_ymd_iff in V. apply andb_false_iff in Ety.
      destruct Ety; bool_to_prop; lia.
    + rewrite date_overflow; [reflexivity | exact Ef].
Qed.

Lemma add_days_instance dt k :
  (r <- Datetime.add_days dt k ;; instance r) = Datetime.add_days dt k.
Proof.
  destruct (Z.le_gt_cases 1 (Datetime.toordinal dt + k)) as [H1 | H1];
    [destruct (Z.le_gt_cases (Datetime.toordinal dt + k) Datetime.MAXORDINAL)
      as [H2 | H2] | ].
  - destruct (add_days_ok dt k ltac:(lia)) as (r & -> & V & _).
    cbn [bind]. now apply instance_valid.
  - rewrite add_days_overflow by lia. reflexivity.
  - rewrite add_days_overflow by lia. reflexivity.
Qed.

Lemma delta_outcome_instance d shift flat :
  (r <- delta_outcome d shift flat ;; instance r) = delta_outcome d shift flat.
Proof.
  unfold delta_outcome. cbv zeta.
  destruct ((1 <=? _) && _); [apply add_days_instance | ].
  now destruct (Datetime.fits_c_int _).
Qed.

Lemma date_of_valid d :
  Datetime.valid d = true -> Datetime.date (year d) (month d) (day d) = Ok d.
Proof. intros H. destruct d as [y m dd]. now apply date_valid. Qed.

(** A month shift that no float holds reaches a year that is no C [int]. *)
Lemma delta_outcome_huge d shift flat :
  Datetime.valid d = true ->
  Relativedelta.FLOAT_LIMIT <= Z.abs shift ->
  delta_outcome d shift flat = Raise OverflowError.
Proof.
  intros Hv Hlim. pose proof float_limit_large as L.
  change (2 ^ 64) with 18446744073709551616 in L.
  apply valid_iff in Hv. destruct Hv as (Hy & Hm & _).
  unfold delta_outcome. cbv zeta.
  assert (Hty : ~ (- 2147483648 <= fst (target_year_month d shift)
                   <= 2147483647)).
  { unfold target_year_month. cbn [fst]. zdiv. }
  replace ((1 <=? fst (target_year_month d shift))
           && (fst (target_year_month d shift) <=? 9999)) with false.
  2:{ symmetry. apply andb_false_iff.
      destruct (Z.lt_ge_cases (fst (target_year_month d shift)) 1);
        [left; apply Z.leb_gt | right; apply Z.leb_gt]; lia. }
  destruct (Datetime.fits_c_int _) eqn:Ef; [ | reflexivity].
  apply fits_c_int_iff in Ef. contradiction.
Qed.

(** [Date.add] in closed form, when the delta is built. *)
Lemma add_spec d ys ms ws ds :
  Datetime.valid d = true ->
  Z.abs ms < Relativedelta.FLOAT_LIMIT ->
  add d ys ms ws ds = delta_outcome d (12 * ys + ms) (ds + ws * 7).
Proof.
  intros Hv Hlim. unfold add.
  destruct (make_norm ys ms ws ds Hlim) as (r & -> & Hn & Hs & Hd).
  cbn [bind]. rewrite (date_of_valid d Hv). cbn [bind].
  rewrite (radd_spec _ d Hv Hn), Hs, Hd.
  apply delta_outcome_instance.
Qed.

Lemma add_overflow d ys ms ws ds :
  Relativedelta.FLOAT_LIMIT <= Z.abs ms ->
  add d ys ms ws ds = Raise OverflowError.
Proof.
  intros Hlim. unfold add. now rewrite (make_overflow ys ms ws ds Hlim).
Qed.

(** With no years, the closed form holds for every number of months. *)
Lemma add_months_days d ms ws ds :
  Datetime.valid d = true ->
  add d 0 ms ws ds = delta_outcome d ms (ds + ws * 7).
Proof.
  intros Hv.
  destruct (Z.lt_ge_cases (Z.abs ms) Relativedelta.FLOAT_LIMIT) as [H | H].
  - rewrite (add_spec d 0 ms ws ds Hv H).
    replace (12 * 0 + ms) with ms by lia. reflexivity.
  - rewrite (add_overflow d 0 ms ws ds H).
    symmetry. now apply delta_outcome_huge.
Qed.

(** [Date.subtract] in closed form: the opposite delta is added. *)
Lemma subtract_spec d ys ms ws ds :
  Datetime.valid d = true ->
  Z.abs ms < Relativedelta.FLOAT_LIMIT ->
  subtract d ys ms ws ds
  = delta_outcome d (- (12 * ys + ms)) (- (ds + ws * 7)).
Proof.
  intros Hv Hlim. unfold subtract.
  destruct (make_norm ys ms ws ds Hlim) as (r & -> & Hn & Hs & Hd).
  cbn [bind]. rewrite (date_of_valid d Hv). cbn [bind].
  unfold Relativedelta.rsub. rewrite (neg_norm _ Hn). cbn [bind].
  rewrite (radd_spec _ d Hv) by (cbn [Relativedelta.months]; lia).
  cbn [Relativedelta.years Relativedelta.months Relativedelta.days].
  replace (12 * - Relativedelta.years r + - Relativedelta.months r)
    with (- (12 * ys + ms)) by lia.
  rewrite Hd. apply delta_outcome_instance.
Qed.

Lemma subtract_overflow d ys ms ws ds :
  Relativedelta.FLOAT_LIMIT <= Z.abs ms ->
  subtract d ys ms ws ds = Raise OverflowError.
Proof.
  intros Hlim. unfold subtract. now rewrite (make_overflow ys ms ws ds Hlim).
Qed.

Lemma delta_outcome_in_range d shift flat :
  1 <= fst (target_year_month d shift) <= 9999 ->
  delta_outcome d shift flat
  = Datetime.add_days (clamped_target d shift) flat.
Proof.
  intros H. unfold delta_outcome. cbv zeta.
  replace ((1 <=? fst (target_year_month d shift))
           && (fst (target_year_month d shift) <=? 9999)) with true;
    [reflexivity | ].
  symmetry. apply andb_true_iff. split; apply Z.leb_le; lia.
Qed.

Lemma delta_outcome_out_of_range d shift flat :
  ~ (1 <= fst (target_year_month d shift) <= 9999) ->
  delta_outcome d shift flat
  = if Datetime.fits_c_int (fst (target_year_month d shift))
    then Raise ValueError else Raise OverflowError.
Proof.
  intros H. unfold delta_outcome. cbv zeta.
  replace ((1 <=? fst (target_year_month d shift))
           && (fst (target_year_month d shift) <=? 9999)) with false;
    [reflexivity | ].
  symmetry. apply andb_false_iff.
  destruct (Z.lt_ge_cases (fst (target_year_month d shift)) 1);
    [left; apply Z.leb_gt | right; apply Z.leb_gt]; lia.
Qed.

(** ** C1: [day_of_year] *)

Lemma year_dates_year y x : In x (year_dates y) -> year x = y.
Proof.
  unfold year_dates. rewrite in_flat_map. intros (m & _ & Hx).
  apply in_map_iff in Hx. destruct Hx as (dd & <- & _). reflexivity.
Qed.

Lemma count_days_counted d :
  Datetime.valid d = true ->
  count_days_from_jan1 d
  = Z.of_nat (List.length
                (filter (counted (Datetime.is_leap (year d)) (month d) (day d))
                        (year_dates (year d)))).
Proof.
  intros Hv. unfold count_days_from_jan1. do 2 f_equal.
  apply filter_ext_in. intros x Hx. apply year_dates_year in Hx.
  apply valid_iff in Hv. destruct Hv as (Hy & _).
  unfold counted, Datetime.valid, Datetime.valid_ymd, Datetime.leb,
    Datetime.ltb, Datetime.eqb, Datetime.MINYEAR, Datetime.MAXYEAR.
  rewrite Hx, days_in_month_table, Z.ltb_irrefl, Z.eqb_refl.
  replace (1 <=? year d) with true by (symmetry; apply Z.leb_le; lia).
  replace (year d <=? 9999) with true by (symmetry; apply Z.leb_le; lia).
  cbn [andb orb]. f_equal.
  destruct (month x <? month d) eqn:E1; cbn [orb]; [reflexivity | ].
  destruct (month x =? month d) eqn:E2; cbn [andb]; [ | reflexivity].
  destruct (day x <? day d) eqn:E3, (day x =? day d) eqn:E4,
    (day x <=? day d) eqn:E5; cbn [orb]; bool_to_prop; try reflexivity; lia.
Qed.

Lemma day_of_year_ok_all leap y m dd :
  1 <= m <= 12 -> 0 <= dd < 32 -> day_of_year_ok leap y m dd = true.
Proof.
  intros Hm Hdd.
  apply (forallb_below (day_of_year_ok leap y m) 32); [ | exact Hdd].
  month_cases m; destruct leap; vm_compute; reflexivity.
Qed.

(** C1: on every date of the calendar the closed form of [day_of_year] is
    the number of days counted one by one from January 1 of the year up to
    the date, which is also the difference of the ordinals plus one. *)
Theorem day_of_year_counts (d : Date) :
  Datetime.valid d = true ->
  day_of_year d = count_days_from_jan1 d
  /\ day_of_year d
     = Datetime.toordinal d - Datetime.toordinal (mkDate (year d) 1 1) + 1.
Proof.
  intros Hv. pose proof Hv as Hv'. apply valid_iff in Hv'.
  destruct Hv' as (Hy & Hm & Hd).
  pose proof (days_in_month_bounds (year d) (month d) Hm) as Hb.
  split.
  - rewrite (count_days_counted d Hv).
    pose proof (day_of_year_ok_all (Datetime.is_leap (year d)) (year d)
                  (month d) (day d) Hm ltac:(lia)) as H.
    unfold day_of_year_ok in H. rewrite <- days_in_month_table in H.
    replace ((1 <=? day d) && (day d <=? Datetime.days_in_month (year d) (month d)))
      with true in H
      by (symmetry; apply andb_true_iff; split; apply Z.leb_le; lia).
    cbn [negb orb] in H. apply Z.eqb_eq in H. rewrite H.
    unfold day_of_year, is_leap_year. now rewrite isleap_is_leap.
  - unfold day_of_year, is_leap_year, Datetime.toordinal,
      Datetime.days_before_month.
    rewrite isleap_is_leap. destruct d as [y m dd]. cbn [year month day] in *.
    month_cases m; destruct (Datetime.is_leap y); month_tests; zdiv.
Qed.

Lemma day_of_year_counts_witness :
  day_of_year (mkDate 2024 2 29) = count_days_from_jan1 (mkDate 2024 2 29)
  /\ day_of_year (mkDate 2024 2 29)
     = Datetime.toordinal (mkDate 2024 2 29)
       - Datetime.toordinal (mkDate 2024 1 1) + 1.
Proof. apply (day_of_year_counts (mkDate 2024 2 29)). reflexivity. Defined.

(** ** C2: [add] with years and months *)

Lemma clamped_target_valid d shift :
  Datetime.valid d = true ->
  1 <= fst (target_year_month d shift) <= 9999 ->
  Datetime.valid (clamped_target d shift) = true.
Proof.
  intros Hv Hy. apply valid_iff in Hv. destruct Hv as (_ & _ & Hd).
  pose proof (target_month_range d shift) as Hm.
  unfold clamped_target. destruct (target_year_month d shift) as [ty tm].
  cbn [fst snd] in *. apply valid_iff. cbn [year month day].
  pose proof (days_in_month_bounds ty tm Hm). lia.
Qed.

Lemma clamped_target_zero d :
  Datetime.valid d = true -> clamped_target d 0 = d.
Proof.
  intros Hv. apply valid_iff in Hv. destruct Hv as (_ & Hm & Hd).
  unfold clamped_target, target_year_month. destruct d as [y m dd].
  cbn [year month day] in *.
  replace ((y * 12 + (m - 1) + 0) / 12) with y by zdiv.
  replace ((y * 12 + (m - 1) + 0) mod 12 + 1) with m by zdiv.
  f_equal. lia.
Qed.

Lemma in_range_true ty :
  1 <= ty <= 9999 -> (1 <=? ty) && (ty <=? 9999) = true.
Proof. intros H. apply andb_true_iff. split; apply Z.leb_le; lia. Qed.

Lemma in_range_false ty :
  ~ (1 <= ty <= 9999) -> (1 <=? ty) && (ty <=? 9999) = false.
Proof.
  intros H. apply andb_false_iff.
  destruct (Z.lt_ge_cases ty 1); [left; apply Z.leb_gt | right; apply Z.leb_gt];
    lia.
Qed.

(** C2, amended for the range of [date] and of the delta: with no weeks and
    no days, and months that a float holds (below [FLOAT_LIMIT], so that the
    delta is built), [add] lands on the (year, month) reached by shifting the
    linear month index by [years * 12 + months], the day cut to the length of
    that month, whenever the target year lies in 1..9999; outside 1..9999 it
    raises a [ValueError] when the target year is a C [int] and an
    [OverflowError] when it is not; with months that no float holds the
    delta is not built and [add] raises an [OverflowError]. *)
Theorem add_months_clamps (d : Date) (years months : Z) :
  Datetime.valid d = true ->
  let ty := fst (target_year_month d (12 * years + months)) in
  let tm := snd (target_year_month d (12 * years + months)) in
  (Z.abs months < Relativedelta.FLOAT_LIMIT ->
   (1 <= ty <= 9999 ->
    add d years months 0 0
    = Ok (mkDate ty tm (Z.min (day d) (Datetime.days_in_month ty tm))))
   /\ (~ (1 <= ty <= 9999) ->
       Datetime.C_INT_MIN <= ty <= Datetime.C_INT_MAX ->
       add d years months 0 0 = Raise ValueError)
   /\ (~ (Datetime.C_INT_MIN <= ty <= Datetime.C_INT_MAX) ->
       add d years months 0 0 = Raise OverflowError))
  /\ (Relativedelta.FLOAT_LIMIT <= Z.abs months ->
      add d years months 0 0 = Raise OverflowError).
Proof.
  intros Hv ty tm. split; [ | apply add_overflow].
  intros Hlim. rewrite (add_spec d years months 0 0 Hv Hlim).
  change (0 + 0 * 7) with 0.
  assert (Hfit : Datetime.fits_c_int ty = true
                 <-> Datetime.C_INT_MIN <= ty <= Datetime.C_INT_MAX).
  { unfold Datetime.fits_c_int. rewrite andb_true_iff, !Z.leb_le. tauto. }
  split; [ | split].
  - intros Hy. rewrite (delta_outcome_in_range d _ 0 Hy).
    pose proof (clamped_target_valid d _ Hv Hy) as Hc.
    rewrite (add_days_zero _ Hc).
    unfold clamped_target. subst ty tm.
    now destruct (target_year_month d (12 * years + months)).
  - intros Hy Hc. rewrite (delta_outcome_out_of_range d _ 0 Hy). fold ty.
    now rewrite (proj2 Hfit Hc).
  - intros Hc. assert (Hy : ~ (1 <= ty <= 9999)).
    { intros Hy. apply Hc. unfold Datetime.C_INT_MIN, Datetime.C_INT_MAX.
      change (- 2 ^ 31) with (- 2147483648).
      change (2 ^ 31 - 1) with 2147483647. lia. }
    rewrite (delta_outcome_out_of_range d _ 0 Hy). fold ty.
    destruct (Datetime.fits_c_int ty) eqn:Ef; [ | reflexivity].
    exfalso. apply Hc, Hfit. reflexivity.
Qed.

Lemma add_months_clamps_witness :
  add (mkDate 2024 1 31) 0 1 0 0 = Ok (mkDate 2024 2 29).
Proof.
  apply (proj1 (proj1 (add_months_clamps (mkDate 2024 1 31) 0 1 eq_refl)
                  ltac:(vm_compute; reflexivity))).
  vm_compute. split; discriminate.
Defined.

(** C2 as stated fails at the end of the range: one month after
    December 31, 9999 is not a [date], and [add] raises. *)
Lemma add_raises_past_last_year :
  Datetime.valid (mkDate 9999 12 31) = true
  /\ add (mkDate 9999 12 31) 0 1 0 0 = Raise ValueError.
Proof. split; reflexivity. Qed.

(** ** C4: [add] then [subtract] *)

Lemma target_back d shift k :
  1 <= month d <= 12 ->
  target_year_month
    (mkDate (fst (target_year_month d shift)) (snd (target_year_month d shift))
            k) (- shift)
  = (year d, month d).
Proof.
  intros Hm. unfold target_year_month. cbn [fst snd year month day].
  f_equal; zdiv.
Qed.

Lemma delta_outcome_inv d shift flat r :
  delta_outcome d shift flat = Ok r ->
  1 <= fst (target_year_month d shift) <= 9999
  /\ Datetime.add_days (clamped_target d shift) flat = Ok r.
Proof.
  unfold delta_outcome. cbv zeta.
  destruct ((1 <=? _) && _) eqn:E.
  - intros H. bool_to_prop. split; [lia | exact H].
  - destruct (Datetime.fits_c_int _); discriminate.
Qed.

Lemma same_month_ordinal y m a b :
  Datetime.toordinal (mkDate y m a) + (b - a) = Datetime.toordinal (mkDate y m b).
Proof. unfold Datetime.toordinal. cbn [year month day]. lia. Qed.

(** C4, amended: with months that a float holds, the round trip returns [d]
    exactly when taking the years and months alone off the forward result
    gives the date that the weeks and days alone add to [d].  This is so when
    no day is cut on either way and the day shift stays inside the target
    month (for every delta without days when [d.day <= 28] and the target
    year is in 1..9999, and for mixed deltas such as one month and five days
    from January 10), and for every delta of days only whose result is a
    date. *)
Theorem add_subtract_round_trip (d : Date) (years months weeks days : Z) :
  Datetime.valid d = true ->
  Z.abs months < Relativedelta.FLOAT_LIMIT ->
  let ty := fst (target_year_month d (12 * years + months)) in
  let tm := snd (target_year_month d (12 * years + months)) in
  let flat := days + weeks * 7 in
  (forall r,
     add d years months weeks days = Ok r ->
     (subtract r years months weeks days = Ok d
      <-> exists x, subtract r years months 0 0 = Ok x
                    /\ add d 0 0 weeks days = Ok x))
  /\ (1 <= ty <= 9999 ->
      day d <= Datetime.days_in_month ty tm ->
      1 <= day d + flat <= Datetime.days_in_month ty tm ->
      day d + flat <= Datetime.days_in_month (year d) (month d) ->
      add d years months weeks days = Ok (mkDate ty tm (day d + flat))
      /\ subtract (mkDate ty tm (day d + flat)) years months weeks days = Ok d)
  /\ (12 * years + months = 0 ->
      1 <= Datetime.toordinal d + flat <= Datetime.MAXORDINAL ->
      exists r, add d years months weeks days = Ok r
                /\ Datetime.toordinal r = Datetime.toordinal d + flat
                /\ subtract r years months weeks days = Ok d).
Proof.
  intros Hv Hlim ty tm flat. pose proof Hv as Hv'. apply valid_iff in Hv'.
  destruct Hv' as (Hy & Hm & Hd).
  pose proof (toordinal_range d Hv) as Rd.
  assert (Edays : add d 0 0 weeks days = Datetime.add_days d flat).
  { rewrite (add_months_days d 0 weeks days Hv).
    rewrite (delta_outcome_in_range d 0 _).
    - now rewrite (clamped_target_zero d Hv).
    - replace (fst (target_year_month d 0)) with (year d); [exact Hy | ].
      rewrite <- (clamped_target_zero d Hv) at 1.
      unfold clamped_target. now destruct (target_year_month d 0). }
  split; [ | split].
  - (* the exact condition *)
    intros r Er. rewrite (add_spec d _ _ _ _ Hv Hlim) in Er.
    apply delta_outcome_inv in Er. destruct Er as [_ Er].
    apply add_days_inv in Er. destruct Er as [Vr _].
    rewrite (subtract_spec r _ _ _ _ Vr Hlim).
    rewrite (subtract_spec r _ _ 0 0 Vr Hlim). change (- (0 + 0 * 7)) with 0.
    rewrite Edays. fold flat.
    set (shift := - (12 * years + months)).
    split.
    + intros E. apply delta_outcome_inv in E. destruct E as [Hin E].
      pose proof (clamped_target_valid r shift Vr Hin) as Vc.
      apply add_days_inv in E. destruct E as [_ Oc].
      exists (clamped_target r shift). split.
      * rewrite (delta_outcome_in_range r shift 0 Hin).
        now apply add_days_zero.
      * pose proof (toordinal_range _ Vc) as Rc.
        destruct (add_days_ok d flat ltac:(lia)) as (x & -> & Vx & Ox).
        f_equal. apply toordinal_inj; [assumption .. | lia].
    + intros (x & E1 & E2).
      apply delta_outcome_inv in E1. destruct E1 as [Hin E1].
      pose proof (clamped_target_valid r shift Vr Hin) as Vc.
      rewrite (add_days_zero _ Vc) in E1. injection E1 as <-.
      apply add_days_inv in E2. destruct E2 as [_ Oc].
      rewrite (delta_outcome_in_range r shift _ Hin).
      destruct (add_days_ok (clamped_target r shift) (- flat) ltac:(lia))
        as (y & -> & Vy & Oy).
      f_equal. apply toordinal_inj; [assumption .. | lia].
  - (* inside the target month, no day cut *)
    intros Hty Hclamp Hin Hback.
    pose proof (clamped_target_valid d _ Hv Hty) as Hc.
    assert (Ec : clamped_target d (12 * years + months) = mkDate ty tm (day d)).
    { unfold clamped_target. subst ty tm.
      destruct (target_year_month d (12 * years + months)) as [a b].
      cbn [fst snd] in *. f_equal. lia. }
    rewrite Ec in Hc.
    pose proof (target_month_range d (12 * years + months)) as Htm. fold tm in Htm.
    assert (Vr : Datetime.valid (mkDate ty tm (day d + flat)) = true)
      by (apply valid_iff; cbn [year month day]; lia).
    pose proof (toordinal_range _ Vr) as Rr.
    split.
    + rewrite (add_spec d _ _ _ _ Hv Hlim). fold flat.
      rewrite (delta_outcome_in_range d _ _ Hty), Ec.
      pose proof (same_month_ordinal ty tm (day d) (day d + flat)) as So.
      destruct (add_days_ok (mkDate ty tm (day d)) flat ltac:(lia))
        as (x & -> & Vx & Ox).
      f_equal. apply toordinal_inj; [assumption .. | lia].
    + rewrite (subtract_spec _ _ _ _ _ Vr Hlim). fold flat.
      assert (Eb : target_year_month (mkDate ty tm (day d + flat))
                     (- (12 * years + months)) = (year d, month d))
        by (apply target_back; exact Hm).
      rewrite (delta_outcome_in_range _ _ _)
        by (rewrite Eb; cbn [fst]; exact Hy).
      unfold clamped_target. rewrite Eb. cbn [day].
      replace (Z.min (day d + flat) (Datetime.days_in_month (year d) (month d)))
        with (day d + flat) by lia.
      pose proof (same_month_ordinal (year d) (month d) (day d + flat) (day d))
        as So.
      assert (Vb : Datetime.valid (mkDate (year d) (month d) (day d + flat))
                   = true) by (apply valid_iff; cbn [year month day]; lia).
      destruct d as [y m dd]. cbn [year month day] in *.
      destruct (add_days_ok (mkDate y m (dd + flat)) (- flat) ltac:(lia))
        as (x & -> & Vx & Ox).
      f_equal. apply toordinal_inj; [assumption .. | lia].
  - (* days only *)
    intros Hshift Hrange.
    assert (E0 : forall x, Datetime.valid x = true ->
                           fst (target_year_month x 0) = year x).
    { intros x Hx. rewrite <- (clamped_target_zero x Hx) at 2.
      unfold clamped_target. now destruct (target_year_month x 0). }
    rewrite (add_spec d _ _ _ _ Hv Hlim), Hshift. fold flat.
    rewrite (delta_outcome_in_range d 0 _) by (rewrite (E0 d Hv); exact Hy).
    rewrite (clamped_target_zero d Hv).
    destruct (add_days_ok d _ Hrange) as (r & Er & Vr & Or).
    exists r. split; [exact Er | ]. split; [exact Or | ].
    rewrite (subtract_spec r _ _ _ _ Vr Hlim), Hshift. change (- 0) with 0.
    fold flat. pose proof Vr as Vr'. apply valid_iff in Vr'.
    rewrite (delta_outcome_in_range r 0 _)
      by (rewrite (E0 r Vr); exact (proj1 Vr')).
    rewrite (clamped_target_zero r Vr).
    destruct (add_days_ok r (- flat) ltac:(lia)) as (x & Ex & Vx & Ox).
    rewrite Ex. f_equal. apply toordinal_inj; [assumption .. | lia].
Qed.

Lemma add_subtract_round_trip_witness :
  (add (mkDate 2024 1 10) 0 1 0 5 = Ok (mkDate 2024 2 15)
   /\ subtract (mkDate 2024 2 15) 0 1 0 5 = Ok (mkDate 2024 1 10))
  /\ (add (mkDate 2024 1 28) 1 1 0 0 = Ok (mkDate 2025 2 28)
      /\ subtract (mkDate 2025 2 28) 1 1 0 0 = Ok (mkDate 2024 1 28))
  /\ exists r, add (mkDate 2024 1 31) 0 0 2 30 = Ok r
               /\ Datetime.toordinal r
                  = Datetime.toordinal (mkDate 2024 1 31) + (30 + 2 * 7)
               /\ subtract r 0 0 2 30 = Ok (mkDate 2024 1 31).
Proof.
  split; [ | split].
  - apply (proj1 (proj2 (add_subtract_round_trip (mkDate 2024 1 10) 0 1 0 5
                           eq_refl ltac:(vm_compute; reflexivity))));
      vm_compute; try split; discriminate.
  - apply (proj1 (proj2 (add_subtract_round_trip (mkDate 2024 1 28) 1 1 0 0
                           eq_refl ltac:(vm_compute; reflexivity))));
      vm_compute; try split; discriminate.
  - apply (proj2 (proj2 (add_subtract_round_trip (mkDate 2024 1 31) 0 0 2 30
                           eq_refl ltac:(vm_compute; reflexivity)))).
    + reflexivity.
    + vm_compute. split; discriminate.
Defined.

(** C4 as stated fails: from January 1, 2024 (day <= 28) one month and 30
    days forward cuts no day and reaches March 2, and the way back ends on
    January 3; and January 31, 2023 plus then minus one month ends on
    January 28, not February 28. *)
Lemma round_trip_fails_without_clamping :
  Datetime.valid (mkDate 2024 1 1) = true
  /\ day (mkDate 2024 1 1) <= 28
  /\ clamped_target (mkDate 2024 1 1) (12 * 0 + 1) = mkDate 2024 2 1
  /\ add (mkDate 2024 1 1) 0 1 0 30 = Ok (mkDate 2024 3 2)
  /\ subtract (mkDate 2024 3 2) 0 1 0 30 = Ok (mkDate 2024 1 3)
  /\ mkDate 2024 1 3 <> mkDate 2024 1 1
  /\ add (mkDate 2023 1 31) 0 1 0 0 = Ok (mkDate 2023 2 28)
  /\ subtract (mkDate 2023 2 28) 0 1 0 0 = Ok (mkDate 2023 1 28).
Proof.
  repeat split; try reflexivity; try discriminate.
Qed.

(** ** [next] and [previous] *)

Lemma day_of_week_ordinal dt : day_of_week dt = Datetime.toordinal dt mod 7.
Proof.
  unfold day_of_week, Datetime.isoweekday. cbv zeta.
  destruct (Datetime.toordinal dt mod 7 =? 0) eqn:E; bool_to_prop.
  - now rewrite E.
  - apply Z.mod_mod. lia.
Qed.

Lemma day_of_week_range dt : 0 <= day_of_week dt <= 6.
Proof. rewrite day_of_week_ordinal. zdiv. Qed.

Lemma target_year_zero d :
  Datetime.valid d = true -> fst (target_year_month d 0) = year d.
Proof.
  intros Hv. rewrite <- (clamped_target_zero d Hv) at 2.
  unfold clamped_target. now destruct (target_year_month d 0).
Qed.

Lemma delta_outcome_days d k :
  Datetime.valid d = true -> delta_outcome d 0 k = Datetime.add_days d k.
Proof.
  intros Hv. rewrite (delta_outcome_in_range d 0 k).
  - now rewrite (clamped_target_zero d Hv).
  - rewrite (target_year_zero d Hv). apply valid_iff in Hv. exact (proj1 Hv).
Qed.

Lemma add_days_only d k :
  Datetime.valid d = true -> add d 0 0 0 k = Datetime.add_days d k.
Proof.
  intros Hv. rewrite (add_months_days d 0 0 k Hv).
  rewrite (delta_outcome_days d _ Hv). f_equal. lia.
Qed.

Lemma float_limit_pos : Z.abs 0 < Relativedelta.FLOAT_LIMIT.
Proof. pose proof float_limit_large. cbn [Z.abs]. lia. Qed.

Lemma subtract_days_only d k :
  Datetime.valid d = true -> subtract d 0 0 0 k = Datetime.add_days d (- k).
Proof.
  intros Hv. rewrite (subtract_spec d 0 0 0 k Hv float_limit_pos).
  change (- (12 * 0 + 0)) with 0.
  rewrite (delta_outcome_days d _ Hv). f_equal. lia.
Qed.

Lemma add_days_ext a j b k :
  Datetime.toordinal a + j = Datetime.toordinal b + k ->
  Datetime.add_days a j = Datetime.add_days b k.
Proof. intros E. unfold Datetime.add_days. now rewrite E. Qed.

(** The loop of [next] stops on the first date of weekday [w] from [dt] on,
    or raises when that date is past the last [date]. *)
Lemma next_loop_spec n :
  forall dt w,
    Datetime.valid dt = true -> 0 <= w <= 6 ->
    (Z.to_nat ((w - day_of_week dt) mod 7) <= n)%nat ->
    next_loop n dt w = Datetime.add_days dt ((w - day_of_week dt) mod 7).
Proof.
  induction n as [ | n IH]; intros dt w Hv Hw Hn;
    pose proof (day_of_week_range dt) as Hdow;
    pose proof (toordinal_range dt Hv) as Hr;
    cbn [next_loop]; destruct (day_of_week dt =? w) eqn:E; cbn [negb];
    bool_to_prop.
  - rewrite E, Z.sub_diag. change (0 mod 7) with 0.
    symmetry. now apply add_days_zero.
  - exfalso. zdiv.
  - rewrite E, Z.sub_diag. change (0 mod 7) with 0.
    symmetry. now apply add_days_zero.
  - rewrite (add_days_only dt 1 Hv).
    assert (Hj : 1 <= (w - day_of_week dt) mod 7 <= 6) by zdiv.
    destruct (Z.le_gt_cases (Datetime.toordinal dt + 1) Datetime.MAXORDINAL)
      as [Hin | Hout].
    + destruct (add_days_ok dt 1 ltac:(lia)) as (dt' & -> & V' & O').
      cbn [bind].
      assert (Ej : (w - day_of_week dt') mod 7 = (w - day_of_week dt) mod 7 - 1).
      { rewrite !day_of_week_ordinal in *. rewrite O'. zdiv. }
      rewrite IH by (try assumption; lia).
      apply add_days_ext. lia.
    + rewrite (add_days_overflow dt 1) by lia. cbn [bind].
      symmetry. apply add_days_overflow. lia.
Qed.

(** [Date.next] in closed form. *)
Lemma next_closed fuel d w :
  Datetime.valid d = true -> 0 <= w <= 6 -> (6 <= fuel)%nat ->
  next fuel d (Some w)
  = Datetime.add_days d ((w - day_of_week d - 1) mod 7 + 1).
Proof.
  intros Hv Hw Hf. unfold next, SUNDAY, SATURDAY. cbn [or_else].
  replace ((w <? 0) || (w >? 6)) with false.
  2:{ symmetry. apply orb_false_iff. rewrite Z.gtb_ltb.
      split; apply Z.ltb_ge; lia. }
  rewrite (add_days_only d 1 Hv).
  pose proof (toordinal_range d Hv) as Hr.
  destruct (Z.le_gt_cases (Datetime.toordinal d + 1) Datetime.MAXORDINAL)
    as [Hin | Hout].
  - destruct (add_days_ok d 1 ltac:(lia)) as (dt & -> & V & O). cbn [bind].
    assert (Ej : (w - day_of_week dt) mod 7 = (w - day_of_week d - 1) mod 7).
    { rewrite !day_of_week_ordinal. rewrite O. zdiv. }
    rewrite next_loop_spec; try assumption.
    + apply add_days_ext. lia.
    + rewrite Ej. assert ((w - day_of_week d - 1) mod 7 <= 6) by zdiv. lia.
  - rewrite (add_days_overflow d 1) by lia. cbn [bind].
    symmetry. apply add_days_overflow.
    assert (0 <= (w - day_of_week d - 1) mod 7) by zdiv. lia.
Qed.

Lemma previous_loop_spec n :
  forall dt w,
    Datetime.valid dt = true -> 0 <= w <= 6 ->
    (Z.to_nat ((day_of_week dt - w) mod 7) <= n)%nat ->
    previous_loop n dt w
    = Datetime.add_days dt (- ((day_of_week dt - w) mod 7)).
Proof.
  induction n as [ | n IH]; intros dt w Hv Hw Hn;
    pose proof (day_of_week_range dt) as Hdow;
    pose proof (toordinal_range dt Hv) as Hr;
    cbn [previous_loop]; destruct (day_of_week dt =? w) eqn:E; cbn [negb];
    bool_to_prop.
  - rewrite E, Z.sub_diag. change (- (0 mod 7)) with 0.
    symmetry. now apply add_days_zero.
  - exfalso. zdiv.
  - rewrite E, Z.sub_diag. change (- (0 mod 7)) with 0.
    symmetry. now apply add_days_zero.
  - rewrite (subtract_days_only dt 1 Hv).
    assert (Hj : 1 <= (day_of_week dt - w) mod 7 <= 6) by zdiv.
    destruct (Z.le_gt_cases 1 (Datetime.toordinal dt + - (1))) as [Hin | Hout].
    + destruct (add_days_ok dt (- (1)) ltac:(lia)) as (dt' & -> & V' & O').
      cbn [bind].
      assert (Ej : (day_of_week dt' - w) mod 7
                   = (day_of_week dt - w) mod 7 - 1).
      { rewrite !day_of_week_ordinal in *. rewrite O'. zdiv. }
      rewrite IH by (try assumption; lia).
      apply add_days_ext. lia.
    + rewrite (add_days_overflow dt (- (1))) by lia. cbn [bind].
      symmetry. apply add_days_overflow. lia.
Qed.

(** [Date.previous] in closed form. *)
Lemma previous_closed fuel d w :
  Datetime.valid d = true -> 0 <= w <= 6 -> (6 <= fuel)%nat ->
  previous fuel d (Some w)
  = Datetime.add_days d (- ((day_of_week d - w - 1) mod 7 + 1)).
Proof.
  intros Hv Hw Hf. unfold previous, SUNDAY, SATURDAY. cbn [or_else].
  replace ((w <? 0) || (w >? 6)) with false.
  2:{ symmetry. apply orb_false_iff. rewrite Z.gtb_ltb.
      split; apply Z.ltb_ge; lia. }
  rewrite (subtract_days_only d 1 Hv).
  pose proof (toordinal_range d Hv) as Hr.
  destruct (Z.le_gt_cases 1 (Datetime.toordinal d + - (1))) as [Hin | Hout].
  - destruct (add_days_ok d (- (1)) ltac:(lia)) as (dt & -> & V & O).
    cbn [bind].
    assert (Ej : (day_of_week dt - w) mod 7 = (day_of_week d - w - 1) mod 7).
    { rewrite !day_of_week_ordinal. rewrite O. zdiv. }
    rewrite previous_loop_spec; try assumption.
    + apply add_days_ext. lia.
    + rewrite Ej. assert ((day_of_week d - w - 1) mod 7 <= 6) by zdiv. lia.
  - rewrite (add_days_overflow d (- (1))) by lia. cbn [bind].
    symmetry. apply add_days_overflow.
    assert (0 <= (day_of_week d - w - 1) mod 7) by zdiv. lia.
Qed.

(** ** C5: [next] *)

(** C5, amended for the range of [date]: with [k] the distance in 1..7 to
    the next day of weekday [w], [next] returns the date [k] days after [d]
    when that date is not past December 31, 9999: it is strictly after [d],
    has weekday [w], is the earliest such date, and is [d] plus 7 days when
    [w] is the weekday of [d]; otherwise [next] raises an
    [OverflowError]. *)
Theorem next_is_next_weekday (fuel : nat) (d : Date) (w : Z) :
  Datetime.valid d = true -> 0 <= w <= 6 -> (6 <= fuel)%nat ->
  let k := (w - day_of_week d - 1) mod 7 + 1 in
  1 <= k <= 7
  /\ (Datetime.toordinal d + k <= Datetime.MAXORDINAL ->
      exists r,
        next fuel d (Some w) = Ok r
        /\ Datetime.valid r = true
        /\ Datetime.ltb d r = true
        /\ day_of_week r = w
        /\ Datetime.toordinal r = Datetime.toordinal d + k
        /\ (forall x, Datetime.valid x = true -> Datetime.ltb d x = true ->
                      day_of_week x = w -> Datetime.leb r x = true)
        /\ (w = day_of_week d -> k = 7 /\ add d 0 0 0 7 = Ok r))
  /\ (Datetime.MAXORDINAL < Datetime.toordinal d + k ->
      next fuel d (Some w) = Raise OverflowError).
Proof.
  intros Hv Hw Hf k. pose proof (toordinal_range d Hv) as Hr.
  assert (Hk : 1 <= k <= 7) by (subst k; zdiv).
  rewrite (next_closed fuel d w Hv Hw Hf). fold k.
  split; [exact Hk | ]. split.
  - intros Hin. destruct (add_days_ok d k ltac:(lia)) as (r & Er & Vr & Or).
    exists r. split; [exact Er | ]. split; [exact Vr | ].
    split; [apply (toordinal_ltb_iff d r Hv Vr); lia | ].
    split; [rewrite day_of_week_ordinal, Or; subst k;
            rewrite day_of_week_ordinal; zdiv | ].
    split; [exact Or | ]. split.
    + intros x Vx Hlt Hx. apply (toordinal_leb_iff r x Vr Vx).
      apply (toordinal_ltb_iff d x Hv Vx) in Hlt.
      rewrite Or. subst k. rewrite day_of_week_ordinal in *. zdiv.
    + intros E. assert (E7 : k = 7) by (subst k; rewrite E; zdiv).
      split; [exact E7 | ].
      rewrite (add_days_only d 7 Hv), <- E7. exact Er.
  - intros Hout. apply add_days_overflow. lia.
Qed.

Lemma next_is_next_weekday_witness :
  exists r,
    next 6 (mkDate 2024 2 1) (Some THURSDAY) = Ok r
    /\ Datetime.ltb (mkDate 2024 2 1) r = true
    /\ day_of_week r = THURSDAY
    /\ add (mkDate 2024 2 1) 0 0 0 7 = Ok r.
Proof.
  destruct (next_is_next_weekday 6 (mkDate 2024 2 1) THURSDAY eq_refl
              ltac:(unfold THURSDAY; lia) (le_n 6))
    as (_ & H & _).
  destruct H as (r & E & _ & L & W & _ & _ & S).
  - vm_compute. discriminate.
  - exists r. destruct (S eq_refl) as [_ A]. auto.
Defined.

(** C5 as stated fails on the last [date]: December 31, 9999 is a Friday,
    and [next] raises for every weekday, its own included. *)
Lemma next_raises_on_last_day :
  Datetime.valid (mkDate 9999 12 31) = true
  /\ day_of_week (mkDate 9999 12 31) = FRIDAY
  /\ forall fuel, next fuel (mkDate 9999 12 31) (Some FRIDAY)
                  = Raise OverflowError.
Proof. repeat split. Qed.

(** ** C6: [start_of] and [end_of] *)

Lemma leb_iff a b :
  Datetime.leb a b = true <->
  year a < year b
  \/ (year a = year b
      /\ (month a < month b \/ (month a = month b /\ day a <= day b))).
Proof.
  unfold Datetime.leb, Datetime.ltb, Datetime.eqb.
  rewrite !orb_true_iff, !andb_true_iff, !orb_true_iff, !andb_true_iff,
    !Z.ltb_lt, !Z.eqb_eq. lia.
Qed.

Lemma leb_refl a : Datetime.leb a a = true.
Proof. apply leb_iff. lia. Qed.

Lemma date_inv y m d s :
  Datetime.date y m d = Ok s ->
  s = mkDate y m d /\ Datetime.valid_ymd y m d = true.
Proof.
  unfold Datetime.date. destruct (negb _); [discriminate | ].
  destruct (Datetime.valid_ymd y m d); [ | discriminate].
  intros [= <-]. auto.
Qed.

Lemma date_not_out_of_fuel y m d : Datetime.date y m d <> OutOfFuel.
Proof.
  unfold Datetime.date. destruct (negb _); [discriminate | ].
  destruct (Datetime.valid_ymd y m d); discriminate.
Qed.

Lemma add_days_not_out_of_fuel dt k : Datetime.add_days dt k <> OutOfFuel.
Proof.
  unfold Datetime.add_days. cbv zeta. destruct (_ && _); discriminate.
Qed.

Lemma bind_ret {A : Type} (c : outcome A) : (x <- c ;; Ok x) = c.
Proof. now destruct c. Qed.

(** [_start_of_week] in closed form: the days back to the anchor. *)
Lemma start_of_week_closed fuel ws d :
  Datetime.valid d = true -> 0 <= ws <= 6 -> (6 <= fuel)%nat ->
  _start_of_week fuel ws d
  = Datetime.add_days d (- ((day_of_week d - ws) mod 7)).
Proof.
  intros Hv Hw Hf. unfold _start_of_week, _start_of_day. rewrite bind_ret.
  pose proof (day_of_week_range d) as Hd.
  destruct (day_of_week d =? ws) eqn:E; cbn [negb]; bool_to_prop.
  - rewrite E, Z.sub_diag. change (- (0 mod 7)) with 0.
    symmetry. now apply add_days_zero.
  - rewrite (previous_closed fuel d ws Hv Hw Hf). f_equal. zdiv.
Qed.

(** [_end_of_week] in closed form: the days forward to the anchor. *)
Lemma end_of_week_closed fuel we d :
  Datetime.valid d = true -> 0 <= we <= 6 -> (6 <= fuel)%nat ->
  _end_of_week fuel we d = Datetime.add_days d ((we - day_of_week d) mod 7).
Proof.
  intros Hv Hw Hf. unfold _end_of_week, _end_of_day. rewrite bind_ret.
  pose proof (day_of_week_range d) as Hd.
  destruct (day_of_week d =? we) eqn:E; cbn [negb]; bool_to_prop.
  - rewrite E, Z.sub_diag. change (0 mod 7) with 0.
    symmetry. now apply add_days_zero.
  - rewrite (next_closed fuel d we Hv Hw Hf). f_equal. zdiv.
Qed.

Lemma end_of_month_closed d :
  Datetime.valid d = true ->
  _end_of_month d
  = Ok (mkDate (year d) (month d) (Datetime.days_in_month (year d) (month d))).
Proof.
  intros Hv. apply valid_iff in Hv. destruct Hv as (Hy & Hm & Hd).
  unfold _end_of_month, days_in_month, set, replace.
  destruct (monthrange_ok (year d) (month d) Hm) as [w ->].
  cbn [bind snd or_else]. apply date_valid, valid_ymd_iff. lia.
Qed.

Lemma start_le_self fuel ws d u s :
  Datetime.valid d = true -> 0 <= ws <= 6 -> (6 <= fuel)%nat ->
  In u _MODIFIERS_VALID_UNITS ->
  start_of fuel ws d u = Ok s -> Datetime.leb s d = true.
Proof.
  intros Hv Hw Hf Hu. pose proof Hv as Hv'. apply valid_iff in Hv'.
  destruct Hv' as (Hy & Hm & Hd).
  cbn in Hu. destruct Hu as [<- | [<- | [<- | [<- | [<- | [<- | []]]]]]].
  - change (start_of fuel ws d "day") with (_start_of_day d).
    intros [= <-]. apply leb_refl.
  - change (start_of fuel ws d "week") with (_start_of_week fuel ws d).
    rewrite (start_of_week_closed fuel ws d Hv Hw Hf). intros E.
    apply add_days_inv in E. destruct E as [Vs Os].
    apply (toordinal_leb_iff s d Vs Hv). zdiv.
  - change (start_of fuel ws d "month") with (_start_of_month d).
    intros E. apply date_inv in E. destruct E as [-> _].
    apply leb_iff. cbn [year month day or_else]. lia.
  - change (start_of fuel ws d "year") with (_start_of_year d).
    intros E. apply date_inv in E. destruct E as [-> _].
    apply leb_iff. cbn [year month day or_else]. lia.
  - change (start_of fuel ws d "decade") with (_start_of_decade d).
    intros E. apply date_inv in E. destruct E as [-> _].
    apply leb_iff. cbn [year month day or_else]. unfold YEARS_PER_DECADE. zdiv.
  - change (start_of fuel ws d "century") with (_start_of_century d).
    intros E. apply date_inv in E. destruct E as [-> _].
    apply leb_iff. cbn [year month day or_else]. unfold YEARS_PER_CENTURY. zdiv.
Qed.

Lemma self_le_end fuel we d u e :
  Datetime.valid d = true -> 0 <= we <= 6 -> (6 <= fuel)%nat ->
  In u _MODIFIERS_VALID_UNITS ->
  end_of fuel we d u = Ok e -> Datetime.leb d e = true.
Proof.
  intros Hv Hw Hf Hu. pose proof Hv as Hv'. apply valid_iff in Hv'.
  destruct Hv' as (Hy & Hm & Hd).
  pose proof (days_in_month_bounds (year d) (month d) Hm) as Hb.
  cbn in Hu. destruct Hu as [<- | [<- | [<- | [<- | [<- | [<- | []]]]]]].
  - change (end_of fuel we d "day") with (_end_of_day d).
    intros [= <-]. apply leb_refl.
  - change (end_of fuel we d "week") with (_end_of_week fuel we d).
    rewrite (end_of_week_closed fuel we d Hv Hw Hf). intros E.
    apply add_days_inv in E. destruct E as [Ve Oe].
    apply (toordinal_leb_iff d e Hv Ve). zdiv.
  - change (end_of fuel we d "month") with (_end_of_month d).
    rewrite (end_of_month_closed d Hv). intros [= <-].
    apply leb_iff. cbn [year month day]. lia.
  - change (end_of fuel we d "year") with (_end_of_year d).
    intros E. apply date_inv in E. destruct E as [-> _].
    apply leb_iff. cbn [year month day or_else]. lia.
  - change (end_of fuel we d "decade") with (_end_of_decade d).
    intros E. apply date_inv in E. destruct E as [-> _].
    apply leb_iff. cbn [year month day or_else]. unfold YEARS_PER_DECADE. zdiv.
  - change (end_of fuel we d "century") with (_end_of_century d).
    intros E. apply date_inv in E. destruct E as [-> _].
    apply leb_iff. cbn [year month day or_else]. unfold YEARS_PER_CENTURY. zdiv.
Qed.

Lemma ordinal_margin d :
  Datetime.valid d = true -> 10 <= year d <= 9900 ->
  7 < Datetime.toordinal d /\ Datetime.toordinal d + 7 <= Datetime.MAXORDINAL.
Proof.
  intros Hv Hy. destruct (toordinal_bounds d Hv) as [Hlo Hhi].
  pose proof (days_before_year_mono 10 (year d) ltac:(lia)) as M1.
  pose proof (days_before_year_mono (year d + 1) 9901 ltac:(lia)) as M2.
  change (Datetime.days_before_year 10) with 3287 in M1.
  change (Datetime.days_before_year 9901) with 3615900 in M2.
  unfold Datetime.MAXORDINAL. lia.
Qed.

(** [start_of] returns exactly when the start of the unit is a date, and
    raises otherwise: a [ValueError] from the constructor for the decade, an
    [OverflowError] from the day steps for the week. *)
Lemma start_exact fuel ws d u :
  Datetime.valid d = true -> 0 <= ws <= 6 -> (6 <= fuel)%nat ->
  In u _MODIFIERS_VALID_UNITS ->
  (start_representable ws d u = true -> exists s, start_of fuel ws d u = Ok s)
  /\ (start_representable ws d u = false ->
      start_of fuel ws d u
      = Raise (if String.eqb u "week" then OverflowError else ValueError)).
Proof.
  intros Hv Hw Hf Hu. pose proof Hv as Hv'. apply valid_iff in Hv'.
  destruct Hv' as (Hy & Hm & Hd).
  pose proof (days_in_month_bounds (year d) (month d) Hm) as Hb.
  pose proof (toordinal_range d Hv) as Rd.
  cbn in Hu. destruct Hu as [<- | [<- | [<- | [<- | [<- | [<- | []]]]]]].
  - split; [intros _; eexists; reflexivity | discriminate].
  - change (start_of fuel ws d "week") with (_start_of_week fuel ws d).
    change (start_representable ws d "week")
      with (1 <=? Datetime.toordinal d - (day_of_week d - ws) mod 7).
    rewrite (start_of_week_closed fuel ws d Hv Hw Hf).
    assert (0 <= (day_of_week d - ws) mod 7 <= 6) by zdiv.
    split; intros E; bool_to_prop.
    + destruct (add_days_ok d (- ((day_of_week d - ws) mod 7)) ltac:(lia))
        as (s & -> & _). eauto.
    + apply add_days_overflow. lia.
  - change (start_of fuel ws d "month") with (_start_of_month d).
    split; [intros _ | discriminate].
    unfold _start_of_month, set, replace. cbn [or_else].
    rewrite date_valid; [eauto | apply valid_ymd_iff; lia].
  - change (start_of fuel ws d "year") with (_start_of_year d).
    split; [intros _ | discriminate].
    unfold _start_of_year, set, replace. cbn [or_else].
    rewrite date_valid; [eauto | ].
    apply valid_ymd_iff. change (Datetime.days_in_month (year d) 1) with 31. lia.
  - change (start_of fuel ws d "decade") with (_start_of_decade d).
    change (start_representable ws d "decade") with (10 <=? year d).
    unfold _start_of_decade, set, replace, YEARS_PER_DECADE. cbn [or_else].
    split; intros E; bool_to_prop.
    + rewrite date_valid; [eauto | ].
      apply valid_ymd_iff.
      change (Datetime.days_in_month (year d - year d mod 10) 1) with 31. zdiv.
    + apply date_invalid; [apply fits_c_int_small; zdiv | lia | lia | ].
      destruct (Datetime.valid_ymd _ 1 1) eqn:V; [ | reflexivity].
      apply valid_ymd_iff in V. exfalso. zdiv.
  - change (start_of fuel ws d "century") with (_start_of_century d).
    split; [intros _ | discriminate].
    unfold _start_of_century, set, replace, YEARS_PER_CENTURY. cbn [or_else].
    rewrite date_valid; [eauto | ].
    apply valid_ymd_iff.
    change (Datetime.days_in_month (year d - 1 - (year d - 1) mod 100 + 1) 1)
      with 31. zdiv.
Qed.

(** [end_of] returns exactly when the end of the unit is a date, and raises
    otherwise: a [ValueError] from the constructor for the century, an
    [OverflowError] from the day steps for the week. *)
Lemma end_exact fuel we d u :
  Datetime.valid d = true -> 0 <= we <= 6 -> (6 <= fuel)%nat ->
  In u _MODIFIERS_VALID_UNITS ->
  (end_representable we d u = true -> exists e, end_of fuel we d u = Ok e)
  /\ (end_representable we d u = false ->
      end_of fuel we d u
      = Raise (if String.eqb u "week" then OverflowError else ValueError)).
Proof.
  intros Hv Hw Hf Hu. pose proof Hv as Hv'. apply valid_iff in Hv'.
  destruct Hv' as (Hy & Hm & Hd).
  pose proof (toordinal_range d Hv) as Rd.
  cbn in Hu. destruct Hu as [<- | [<- | [<- | [<- | [<- | [<- | []]]]]]].
  - split; [intros _; eexists; reflexivity | discriminate].
  - change (end_of fuel we d "week") with (_end_of_week fuel we d).
    change (end_representable we d "week")
      with (Datetime.toordinal d + (we - day_of_week d) mod 7
            <=? Datetime.MAXORDINAL).
    rewrite (end_of_week_closed fuel we d Hv Hw Hf).
    assert (0 <= (we - day_of_week d) mod 7 <= 6) by zdiv.
    split; intros E; bool_to_prop.
    + destruct (add_days_ok d ((we - day_of_week d) mod 7) ltac:(lia))
        as (s & -> & _). eauto.
    + apply add_days_overflow. lia.
  - change (end_of fuel we d "month") with (_end_of_month d).
    split; [intros _ | discriminate].
    rewrite (end_of_month_closed d Hv). eauto.
  - change (end_of fuel we d "year") with (_end_of_year d).
    split; [intros _ | discriminate].
    unfold _end_of_year, set, replace. cbn [or_else].
    rewrite date_valid; [eauto | ].
    apply valid_ymd_iff. change (Datetime.days_in_month (year d) 12) with 31. lia.
  - change (end_of fuel we d "decade") with (_end_of_decade d).
    split; [intros _ | discriminate].
    unfold _end_of_decade, set, replace, YEARS_PER_DECADE. cbn [or_else].
    rewrite date_valid; [eauto | ].
    apply valid_ymd_iff.
    change (Datetime.days_in_month (year d - year d mod 10 + 10 - 1) 12)
      with 31. zdiv.
  - change (end_of fuel we d "century") with (_end_of_century d).
    change (end_representable we d "century") with (year d <=? 9900).
    unfold _end_of_century, set, replace, YEARS_PER_CENTURY. cbn [or_else].
    split; intros E; bool_to_prop.
    + rewrite date_valid; [eauto | ].
      apply valid_ymd_iff.
      change (Datetime.days_in_month
                (year d - 1 - (year d - 1) mod 100 + 100) 12) with 31. zdiv.
    + apply date_invalid; [apply fits_c_int_small; zdiv | lia | lia | ].
      destruct (Datetime.valid_ymd _ 12 31) eqn:V; [ | reflexivity].
      apply valid_ymd_iff in V. exfalso. zdiv.
Qed.

Lemma representable_inside d ws we u :
  Datetime.valid d = true -> 0 <= ws <= 6 -> 0 <= we <= 6 ->
  10 <= year d <= 9900 ->
  start_representable ws d u = true /\ end_representable we d u = true.
Proof.
  intros Hv Hws Hwe Hy. pose proof (ordinal_margin d Hv Hy) as [M1 M2].
  assert (0 <= (day_of_week d - ws) mod 7 <= 6) by zdiv.
  assert (0 <= (we - day_of_week d) mod 7 <= 6) by zdiv.
  unfold start_representable, end_representable.
  split.
  - destruct (String.eqb u "decade"); [apply Z.leb_le; lia | ].
    destruct (String.eqb u "week"); [apply Z.leb_le; lia | reflexivity].
  - destruct (String.eqb u "century"); [apply Z.leb_le; lia | ].
    destruct (String.eqb u "week"); [apply Z.leb_le; lia | reflexivity].
Qed.

(** C6, amended for the range of [date]: for each of the six units,
    [start_of] returns a date, not after [d], exactly when the start of the
    unit is a date from 0001-01-01 on, and [end_of] returns a date, not
    before [d], exactly when the end of the unit is a date up to 9999-12-31;
    otherwise the call raises (a [ValueError] for the decade of the years 1
    to 9 and the century of the years 9901 to 9999, an [OverflowError] for a
    week that reaches past the first or the last date).  Both return for the
    units day, month and year always, and for every unit when the year of
    [d] lies in 10..9900. *)
Theorem start_le_date_le_end (fuel : nat) (ws we : Z) (d : Date) (u : string) :
  Datetime.valid d = true ->
  0 <= ws <= 6 -> 0 <= we <= 6 -> (6 <= fuel)%nat ->
  In u _MODIFIERS_VALID_UNITS ->
  (start_representable ws d u = true ->
   exists s, start_of fuel ws d u = Ok s /\ Datetime.leb s d = true)
  /\ (start_representable ws d u = false ->
      start_of fuel ws d u
      = Raise (if String.eqb u "week" then OverflowError else ValueError))
  /\ (end_representable we d u = true ->
      exists e, end_of fuel we d u = Ok e /\ Datetime.leb d e = true)
  /\ (end_representable we d u = false ->
      end_of fuel we d u
      = Raise (if String.eqb u "week" then OverflowError else ValueError))
  /\ (forall s, start_of fuel ws d u = Ok s -> Datetime.leb s d = true)
  /\ (forall e, end_of fuel we d u = Ok e -> Datetime.leb d e = true)
  /\ (u = "day"%string \/ u = "month"%string \/ u = "year"%string
      \/ 10 <= year d <= 9900 ->
      start_representable ws d u = true /\ end_representable we d u = true).
Proof.
  intros Hv Hws Hwe Hf Hu.
  destruct (start_exact fuel ws d u Hv Hws Hf Hu) as [S1 S2].
  destruct (end_exact fuel we d u Hv Hwe Hf Hu) as [E1 E2].
  split.
  { intros H. destruct (S1 H) as [s Es]. exists s. split; [exact Es | ].
    now apply (start_le_self fuel ws d u s). }
  split; [exact S2 | ]. split.
  { intros H. destruct (E1 H) as [e Ee]. exists e. split; [exact Ee | ].
    now apply (self_le_end fuel we d u e). }
  split; [exact E2 | ].
  split; [intros s; apply start_le_self; assumption | ].
  split; [intros e; apply self_le_end; assumption | ].
  intros [-> | [-> | [-> | Hy]]]; try (split; reflexivity).
  now apply representable_inside.
Qed.

Lemma start_le_date_le_end_witness :
  (exists s, start_of 6 MONDAY (mkDate 2024 1 4) "week" = Ok s
             /\ Datetime.leb s (mkDate 2024 1 4) = true)
  /\ (exists e, end_of 6 SUNDAY (mkDate 2024 1 4) "week" = Ok e
                /\ Datetime.leb (mkDate 2024 1 4) e = true)
  /\ end_of 6 SUNDAY (mkDate 9999 12 30) "week" = Raise OverflowError
  /\ start_of 6 MONDAY (mkDate 5 6 15) "decade" = Raise ValueError.
Proof.
  destruct (start_le_date_le_end 6 MONDAY SUNDAY (mkDate 2024 1 4) "week"
              eq_refl ltac:(unfold MONDAY; lia) ltac:(unfold SUNDAY; lia)
              (le_n 6) ltac:(cbn; auto 10)) as (S & _ & E & _).
  destruct (start_le_date_le_end 6 MONDAY SUNDAY (mkDate 9999 12 30) "week"
              eq_refl ltac:(unfold MONDAY; lia) ltac:(unfold SUNDAY; lia)
              (le_n 6) ltac:(cbn; auto 10)) as (_ & _ & _ & EW & _).
  destruct (start_le_date_le_end 6 MONDAY SUNDAY (mkDate 5 6 15) "decade"
              eq_refl ltac:(unfold MONDAY; lia) ltac:(unfold SUNDAY; lia)
              (le_n 6) ltac:(cbn; auto 10)) as (_ & SD & _).
  split; [apply S; reflexivity | ]. split; [apply E; reflexivity | ].
  split; [apply EW; reflexivity | apply SD; reflexivity].
Defined.

(** C6 as stated fails at both ends of the range: the decade of year 5
    would start in year 0 and the century of year 9950 would end in year
    10000, which are not years of a [date]. *)
Lemma start_end_raise_at_range_ends :
  Datetime.valid (mkDate 5 6 15) = true
  /\ (forall fuel ws, start_of fuel ws (mkDate 5 6 15) "decade" = Raise ValueError)
  /\ Datetime.valid (mkDate 9950 6 15) = true
  /\ (forall fuel we, end_of fuel we (mkDate 9950 6 15) "century"
                      = Raise ValueError).
Proof. repeat split. Qed.

(** ** C7: the century *)

(** C7, amended for the range of [date]: with [N] the century of the year of
    [d], counted from 1 (years [100 * (N - 1) + 1] to [100 * N]),
    [start_of] gives January 1 of year [100 * (N - 1) + 1], and [end_of]
    gives December 31 of year [100 * N] when that year is at most 9999 and
    raises a [ValueError] otherwise. *)
Theorem century_bounds (fuel : nat) (ws we : Z) (d : Date) (N : Z) :
  Datetime.valid d = true ->
  100 * (N - 1) + 1 <= year d <= 100 * N ->
  start_of fuel ws d "century" = Ok (mkDate (100 * (N - 1) + 1) 1 1)
  /\ (100 * N <= 9999 ->
      end_of fuel we d "century" = Ok (mkDate (100 * N) 12 31))
  /\ (9999 < 100 * N -> end_of fuel we d "century" = Raise ValueError).
Proof.
  intros Hv HN. apply valid_iff in Hv. destruct Hv as (Hy & _ & _).
  change (start_of fuel ws d "century") with (_start_of_century d).
  change (end_of fuel we d "century") with (_end_of_century d).
  unfold _start_of_century, _end_of_century, set, replace, YEARS_PER_CENTURY.
  cbn [or_else].
  replace (year d - 1 - (year d - 1) mod 100 + 1) with (100 * (N - 1) + 1)
    by zdiv.
  replace (year d - 1 - (year d - 1) mod 100 + 100) with (100 * N) by zdiv.
  split; [ | split].
  - apply date_valid, valid_ymd_iff.
    change (Datetime.days_in_month (100 * (N - 1) + 1) 1) with 31. lia.
  - intros Hin. apply date_valid, valid_ymd_iff.
    change (Datetime.days_in_month (100 * N) 12) with 31. lia.
  - intros Hout.
    apply date_invalid; [apply fits_c_int_small; lia | lia | lia | ].
    destruct (Datetime.valid_ymd (100 * N) 12 31) eqn:V; [ | reflexivity].
    apply valid_ymd_iff in V. lia.
Qed.

Lemma century_bounds_witness :
  start_of 6 MONDAY (mkDate 2000 6 15) "century" = Ok (mkDate 1901 1 1)
  /\ end_of 6 SUNDAY (mkDate 2000 6 15) "century" = Ok (mkDate 2000 12 31).
Proof.
  destruct (century_bounds 6 MONDAY SUNDAY (mkDate 2000 6 15) 20 eq_refl)
    as (S & E & _).
  - cbn [year]. lia.
  - split; [exact S | apply E; lia].
Defined.

(** C7 as stated fails in the last century of the range: year 9999 lies in
    century 100, whose last year, 10000, is not a year of a [date]. *)
Lemma end_of_century_raises_in_last_century :
  Datetime.valid (mkDate 9999 12 31) = true
  /\ 100 * (100 - 1) + 1 <= year (mkDate 9999 12 31) <= 100 * 100
  /\ (forall fuel we, end_of fuel we (mkDate 9999 12 31) "century"
                      = Raise ValueError).
Proof.
  split; [reflexivity | ]. split; [cbn [year]; lia | ]. reflexivity.
Qed.

(** ** C8: [closest] and [farthest] *)

Lemma in_seconds_absolute d x :
  Datetime.valid d = true -> Datetime.valid x = true ->
  Period.in_seconds (Period.make d x true) = distance d x.
Proof.
  intros Hd Hx. unfold Period.in_seconds, Period.in_days, Period.make, distance.
  cbn [andb]. destruct (Datetime.ltb x d) eqn:E; cbn [Period.start Period.end_].
  - apply (toordinal_ltb_iff x d Hx Hd) in E. lia.
  - assert (~ Datetime.toordinal x < Datetime.toordinal d).
    { intros H. apply (toordinal_ltb_iff x d Hx Hd) in H. congruence. }
    lia.
Qed.

Lemma closest_closed d a b :
  Datetime.valid d = true -> Datetime.valid a = true ->
  Datetime.valid b = true ->
  closest d a b = Ok (if distance d a <? distance d b then a else b).
Proof.
  intros Hd Ha Hb. unfold closest, diff.
  rewrite (instance_valid a Ha). cbn [bind].
  rewrite (instance_valid b Hb). cbn [bind].
  rewrite (instance_valid a Ha). cbn [bind].
  rewrite (instance_valid b Hb). cbn [bind].
  rewrite !in_seconds_absolute by assumption.
  now destruct (distance d a <? distance d b).
Qed.

Lemma farthest_closed d a b :
  Datetime.valid d = true -> Datetime.valid a = true ->
  Datetime.valid b = true ->
  farthest d a b = Ok (if distance d a >? distance d b then a else b).
Proof.
  intros Hd Ha Hb. unfold farthest, diff.
  rewrite (instance_valid a Ha). cbn [bind].
  rewrite (instance_valid b Hb). cbn [bind].
  rewrite (instance_valid a Ha). cbn [bind].
  rewrite (instance_valid b Hb). cbn [bind].
  rewrite !in_seconds_absolute by assumption.
  now destruct (distance d a >? distance d b).
Qed.

(** C8: [closest] returns its first argument when that one is strictly
    nearer to [d] and its second argument otherwise; [farthest] returns its
    first argument when that one is strictly farther and its second argument
    otherwise; on a tie both return the second argument. *)
Theorem closest_farthest_strict (d a b : Date) :
  Datetime.valid d = true -> Datetime.valid a = true ->
  Datetime.valid b = true ->
  (distance d a < distance d b -> closest d a b = Ok a)
  /\ (distance d b <= distance d a -> closest d a b = Ok b)
  /\ (distance d b < distance d a -> farthest d a b = Ok a)
  /\ (distance d a <= distance d b -> farthest d a b = Ok b)
  /\ (distance d a = distance d b ->
      closest d a b = Ok b /\ farthest d a b = Ok b)
  /\ (a <> b ->
      (closest d a b = Ok a <-> distance d a < distance d b)
      /\ (farthest d a b = Ok a <-> distance d b < distance d a)).
Proof.
  intros Hd Ha Hb.
  rewrite (closest_closed d a b Hd Ha Hb), (farthest_closed d a b Hd Ha Hb).
  rewrite Z.gtb_ltb.
  destruct (distance d a <? distance d b) eqn:E1;
    destruct (distance d b <? distance d a) eqn:E2; bool_to_prop;
    repeat split; intros; try reflexivity; try lia; try congruence.
Qed.

Lemma closest_farthest_strict_witness :
  closest (mkDate 2024 1 10) (mkDate 2024 1 8) (mkDate 2024 1 12)
  = Ok (mkDate 2024 1 12)
  /\ farthest (mkDate 2024 1 10) (mkDate 2024 1 8) (mkDate 2024 1 12)
     = Ok (mkDate 2024 1 12).
Proof.
  destruct (closest_farthest_strict (mkDate 2024 1 10) (mkDate 2024 1 8)
              (mkDate 2024 1 12) eq_refl eq_refl eq_refl)
    as (_ & _ & _ & _ & T & _).
  apply T. reflexivity.
Defined.

(** ** C9: [average] *)

(** C9: the average of two dates of the calendar is [d] plus the half of the
    signed number of days from [d] to [other], the half cut toward zero; it
    always is a date, and for a negative odd difference it is one day nearer
    to [d] than the half rounded down would be. *)
Theorem average_truncates (d other : Date) :
  Datetime.valid d = true -> Datetime.valid other = true ->
  exists r,
    average d other = Ok r
    /\ Datetime.valid r = true
    /\ Datetime.toordinal r
       = Datetime.toordinal d + Z.quot (signed_days d other) 2
    /\ add d 0 0 0 (Z.quot (signed_days d other) 2) = Ok r
    /\ (signed_days d other < 0 -> Z.odd (signed_days d other) = true ->
        Z.quot (signed_days d other) 2 = signed_days d other / 2 + 1).
Proof.
  intros Hd Ho. unfold average, diff.
  rewrite (instance_valid other Ho). cbn [bind].
  unfold Period.in_days, Period.make. cbn [andb Period.start Period.end_].
  fold (signed_days d other).
  pose proof (toordinal_range d Hd) as Rd.
  pose proof (toordinal_range other Ho) as Ro.
  assert (Hq : 1 <= Datetime.toordinal d + Z.quot (signed_days d other) 2
               <= Datetime.MAXORDINAL).
  { unfold signed_days. zdiv. }
  rewrite (add_days_only d _ Hd).
  destruct (add_days_ok d _ Hq) as (r & E & V & O).
  exists r. split; [exact E | ]. split; [exact V | ]. split; [exact O | ].
  split; [exact E | ].
  intros Hneg Hodd. rewrite Zodd_mod in Hodd. apply Z.eqb_eq in Hodd. zdiv.
Qed.

Lemma average_truncates_witness :
  exists r,
    average (mkDate 2024 1 10) (mkDate 2024 1 7) = Ok r
    /\ Datetime.toordinal r = Datetime.toordinal (mkDate 2024 1 10) + (- 1).
Proof.
  destruct (average_truncates (mkDate 2024 1 10) (mkDate 2024 1 7)
              eq_refl eq_refl) as (r & E & _ & O & _).
  exists r. split; [exact E | exact O].
Defined.

(** ** C10 and C3: [nth_of] *)

Lemma first_of_month_none d :
  Datetime.valid d = true ->
  first_of d "month" None = Ok (mkDate (year d) (month d) 1).
Proof.
  intros Hv. apply valid_iff in Hv. destruct Hv as (Hy & Hm & Hd).
  change (first_of d "month" None) with (set d None None (Some 1)).
  unfold set, replace. cbn [or_else]. apply date_valid, valid_ymd_iff.
  pose proof (days_in_month_bounds (year d) (month d) Hm). lia.
Qed.

(** C10: an occurrence count of zero, or below, is not rejected: the loop of
    [_nth_of_month] runs no round, the label test passes, and the first day
    of the month of [d] is returned whatever the weekday asked for. *)
Theorem nth_of_month_nonpositive (fuel : nat) (d : Date) (n w : Z) :
  Datetime.valid d = true -> n <= 0 ->
  nth_of fuel d "month" n (Some w) = Ok (mkDate (year d) (month d) 1).
Proof.
  intros Hv Hn.
  change (nth_of fuel d "month" n (Some w))
    with (r <- _nth_of_month fuel d n (Some w) ;;
          match r with
          | Some dt => Ok dt
          | None => if existsb (Z.eqb w) _days then Raise DateTimeException
                    else Raise KeyError
          end).
  unfold _nth_of_month.
  replace (n =? 1) with false by (symmetry; apply Z.eqb_neq; lia).
  rewrite (first_of_month_none d Hv). cbn [bind].
  replace (rounds n (mkDate (year d) (month d) 1) (Some w)) with 0%nat.
  2:{ unfold rounds. destruct (dow_matches _ _); lia. }
  cbn [next_times bind]. unfold label_eqb, format_YYYY_MM. cbn [fst snd].
  rewrite !Z.eqb_refl. cbn [andb day].
  change (set d None None (Some 1)) with (first_of d "month" None).
  rewrite (first_of_month_none d Hv). reflexivity.
Qed.

Lemma nth_of_month_nonpositive_witness :
  nth_of 6 (mkDate 2024 2 15) "month" 0 (Some MONDAY) = Ok (mkDate 2024 2 1)
  /\ day_of_week (mkDate 2024 2 1) <> MONDAY.
Proof.
  split.
  - apply (nth_of_month_nonpositive 6 (mkDate 2024 2 15) 0 MONDAY eq_refl).
    lia.
  - vm_compute. discriminate.
Defined.

Lemma next_from fuel d w k r :
  (6 <= fuel)%nat ->
  Datetime.valid d = true -> 0 <= w <= 6 ->
  (w - day_of_week d - 1) mod 7 + 1 = k ->
  Datetime.add_days d k = Ok r ->
  next fuel d (Some w) = Ok r.
Proof.
  intros Hf Hv Hw Hk Hr. rewrite (next_closed fuel d w Hv Hw Hf), Hk. exact Hr.
Qed.

(** C3, amended: February 2024 begins on a Thursday and has five of them, so
    the fifth Thursday is found, on February 29; the fifth Friday is not
    found, and [nth_of] raises the [DateTimeException]. *)
Theorem nth_of_february_2024 (fuel : nat) :
  (6 <= fuel)%nat ->
  nth_of fuel (mkDate 2024 2 1) "month" 5 (Some THURSDAY)
  = Ok (mkDate 2024 2 29)
  /\ nth_of fuel (mkDate 2024 2 1) "month" 5 (Some FRIDAY)
     = Raise DateTimeException.
Proof.
  intros Hf.
  assert (N : forall d w k r,
             Datetime.valid d = true -> 0 <= w <= 6 ->
             (w - day_of_week d - 1) mod 7 + 1 = k ->
             Datetime.add_days d k = Ok r -> next fuel d (Some w) = Ok r)
    by (intros; eapply next_from; eassumption).
  split.
  - change (nth_of fuel (mkDate 2024 2 1) "month" 5 (Some THURSDAY))
      with (r <- (dt <- next_times fuel 4 (mkDate 2024 2 1) (Some 4) ;;
                  if label_eqb (format_YYYY_MM dt) (2024, 2)
                  then r <- set (mkDate 2024 2 1) None None (Some (day dt)) ;;
                       Ok (Some r)
                  else Ok None) ;;
            match r with
            | Some dt => Ok dt
            | None => Raise DateTimeException
            end).
    cbn [next_times].
    rewrite (N (mkDate 2024 2 1) 4 7 (mkDate 2024 2 8)) by (reflexivity || lia).
    cbn [bind].
    rewrite (N (mkDate 2024 2 8) 4 7 (mkDate 2024 2 15)) by (reflexivity || lia).
    cbn [bind].
    rewrite (N (mkDate 2024 2 15) 4 7 (mkDate 2024 2 22)) by (reflexivity || lia).
    cbn [bind].
    rewrite (N (mkDate 2024 2 22) 4 7 (mkDate 2024 2 29)) by (reflexivity || lia).
    reflexivity.
  - change (nth_of fuel (mkDate 2024 2 1) "month" 5 (Some FRIDAY))
      with (r <- (dt <- next_times fuel 5 (mkDate 2024 2 1) (Some 5) ;;
                  if label_eqb (format_YYYY_MM dt) (2024, 2)
                  then r <- set (mkDate 2024 2 1) None None (Some (day dt)) ;;
                       Ok (Some r)
                  else Ok None) ;;
            match r with
            | Some dt => Ok dt
            | None => Raise DateTimeException
            end).
    cbn [next_times].
    rewrite (N (mkDate 2024 2 1) 5 1 (mkDate 2024 2 2)) by (reflexivity || lia).
    cbn [bind].
    rewrite (N (mkDate 2024 2 2) 5 7 (mkDate 2024 2 9)) by (reflexivity || lia).
    cbn [bind].
    rewrite (N (mkDate 2024 2 9) 5 7 (mkDate 2024 2 16)) by (reflexivity || lia).
    cbn [bind].
    rewrite (N (mkDate 2024 2 16) 5 7 (mkDate 2024 2 23)) by (reflexivity || lia).
    cbn [bind].
    rewrite (N (mkDate 2024 2 23) 5 7 (mkDate 2024 3 1)) by (reflexivity || lia).
    reflexivity.
Qed.

Lemma nth_of_february_2024_witness :
  nth_of 6 (mkDate 2024 2 1) "month" 5 (Some THURSDAY) = Ok (mkDate 2024 2 29)
  /\ nth_of 6 (mkDate 2024 2 1) "month" 5 (Some FRIDAY)
     = Raise DateTimeException.
Proof. apply (nth_of_february_2024 6). apply le_n. Defined.

(** C3 as stated fails: the call returns February 29, 2024 and raises
    nothing. *)
Lemma fifth_thursday_of_february_2024_found :
  nth_of 6 (mkDate 2024 2 1) "month" 5 (Some THURSDAY) = Ok (mkDate 2024 2 29)
  /\ ~ raises (nth_of 6 (mkDate 2024 2 1) "month" 5 (Some THURSDAY))
  /\ map (fun dd => day_of_week (mkDate 2024 2 dd)) [1; 8; 15; 22; 29]
     = [THURSDAY; THURSDAY; THURSDAY; THURSDAY; THURSDAY].
Proof.
  split; [vm_compute; reflexivity | ]. split; [ | vm_compute; reflexivity].
  intros [e He]. vm_compute in He. discriminate.
Qed.

(** ** Scenarios of the specification *)

Example scenario_first_of_quarter :
  first_of (mkDate 2024 3 15) "quarter" None = Ok (mkDate 2024 1 1).
Proof. vm_compute. reflexivity. Qed.

Example scenario_first_friday_of_march_2024 :
  first_of (mkDate 2024 3 1) "month" (Some FRIDAY) = Ok (mkDate 2024 3 1).
Proof. vm_compute. reflexivity. Qed.

Example scenario_end_of_decade :
  end_of 6 SUNDAY (mkDate 2024 1 1) "decade" = Ok (mkDate 2029 12 31).
Proof. vm_compute. reflexivity. Qed.

Example scenario_week_of_2024_01_04 :
  start_of 6 MONDAY (mkDate 2024 1 4) "week" = Ok (mkDate 2024 1 1)
  /\ end_of 6 SUNDAY (mkDate 2024 1 4) "week" = Ok (mkDate 2024 1 7).
Proof. split; vm_compute; reflexivity. Qed.

Example scenario_nth_is_first :
  nth_of 6 (mkDate 2024 3 20) "month" 1 (Some FRIDAY)
  = first_of (mkDate 2024 3 20) "month" (Some FRIDAY).
Proof. vm_compute. reflexivity. Qed.

Example scenario_third_monday_of_quarter :
  nth_of 6 (mkDate 2024 5 20) "quarter" 3 (Some MONDAY) = Ok (mkDate 2024 4 15).
Proof. vm_compute. reflexivity. Qed.

(** * Further properties of the code *)

(** ** [previous] *)

(** [previous] mirrors [next]: with [k] the distance in 1..7 back to the last
    day of weekday [w] before [d], it returns the date [k] days before [d]
    when that date is not before January 1 of year 1: strictly before [d], of
    weekday [w], the latest such date, and [d] minus 7 days when [w] is the
    weekday of [d]; otherwise it raises an [OverflowError]. *)
Theorem previous_is_previous_weekday (fuel : nat) (d : Date) (w : Z) :
  Datetime.valid d = true -> 0 <= w <= 6 -> (6 <= fuel)%nat ->
  let k := (day_of_week d - w - 1) mod 7 + 1 in
  1 <= k <= 7
  /\ (1 <= Datetime.toordinal d - k ->
      exists r,
        previous fuel d (Some w) = Ok r
        /\ Datetime.valid r = true
        /\ Datetime.ltb r d = true
        /\ day_of_week r = w
        /\ Datetime.toordinal r = Datetime.toordinal d - k
        /\ (forall x, Datetime.valid x = true -> Datetime.ltb x d = true ->
                      day_of_week x = w -> Datetime.leb x r = true)
        /\ (w = day_of_week d -> k = 7 /\ subtract d 0 0 0 7 = Ok r))
  /\ (Datetime.toordinal d - k < 1 ->
      previous fuel d (Some w) = Raise OverflowError).
Proof.
  intros Hv Hw Hf k. pose proof (toordinal_range d Hv) as Hr.
  assert (Hk : 1 <= k <= 7) by (subst k; zdiv).
  rewrite (previous_closed fuel d w Hv Hw Hf). fold k.
  split; [exact Hk | ]. split.
  - intros Hin. destruct (add_days_ok d (- k) ltac:(lia)) as (r & Er & Vr & Or).
    exists r. split; [exact Er | ]. split; [exact Vr | ].
    split; [apply (toordinal_ltb_iff r d Vr Hv); lia | ].
    split; [rewrite day_of_week_ordinal, Or; subst k;
            rewrite day_of_week_ordinal; zdiv | ].
    split; [lia | ]. split.
    + intros x Vx Hlt Hx. apply (toordinal_leb_iff x r Vx Vr).
      apply (toordinal_ltb_iff x d Vx Hv) in Hlt.
      rewrite Or. subst k. rewrite day_of_week_ordinal in *. zdiv.
    + intros E. assert (E7 : k = 7) by (subst k; rewrite E; zdiv).
      split; [exact E7 | ].
      rewrite (subtract_days_only d 7 Hv), <- E7. exact Er.
  - intros Hout. apply add_days_overflow. lia.
Qed.

Lemma previous_is_previous_weekday_witness :
  exists r,
    previous 6 (mkDate 2024 2 1) (Some THURSDAY) = Ok r
    /\ Datetime.ltb r (mkDate 2024 2 1) = true
    /\ day_of_week r = THURSDAY
    /\ subtract (mkDate 2024 2 1) 0 0 0 7 = Ok r.
Proof.
  destruct (previous_is_previous_weekday 6 (mkDate 2024 2 1) THURSDAY eq_refl
              ltac:(unfold THURSDAY; lia) (le_n 6))
    as (_ & H & _).
  destruct H as (r & E & _ & L & W & _ & _ & S).
  - vm_compute. discriminate.
  - exists r. destruct (S eq_refl) as [_ A]. auto.
Defined.

(** ** [add] and [subtract] *)

(** [subtract] is [add] of the opposite delta. *)
Theorem subtract_is_add_opposite (d : Date) (years months weeks days : Z) :
  Datetime.valid d = true ->
  subtract d years months weeks days
  = add d (- years) (- months) (- weeks) (- days).
Proof.
  intros Hv.
  destruct (Z.lt_ge_cases (Z.abs months) Relativedelta.FLOAT_LIMIT) as [H | H].
  - rewrite (subtract_spec d _ _ _ _ Hv H).
    rewrite (add_spec d _ _ _ _ Hv) by (rewrite Z.abs_opp; exact H).
    replace (12 * - years + - months) with (- (12 * years + months)) by lia.
    replace (- days + - weeks * 7) with (- (days + weeks * 7)) by lia.
    reflexivity.
  - rewrite (subtract_overflow d _ _ _ _ H).
    symmetry. apply add_overflow. rewrite Z.abs_opp. exact H.
Qed.

Lemma subtract_is_add_opposite_witness :
  subtract (mkDate 2024 3 31) 0 1 0 3 = add (mkDate 2024 3 31) 0 (- 1) 0 (- 3).
Proof.
  replace (add (mkDate 2024 3 31) 0 (- 1) 0 (- 3))
    with (add (mkDate 2024 3 31) (- 0) (- 1) (- 0) (- 3)) by reflexivity.
  apply (subtract_is_add_opposite (mkDate 2024 3 31) 0 1 0 3). reflexivity.
Defined.

(** Years count as twelve months and weeks as seven days: with months that a
    float holds, so that the delta is built, a delta acts through its months
    total and its days total only. *)
Theorem add_folds_units (d : Date) (years months weeks days : Z) :
  Datetime.valid d = true ->
  Z.abs months < Relativedelta.FLOAT_LIMIT ->
  add d years months weeks days
  = add d 0 (12 * years + months) 0 (7 * weeks + days).
Proof.
  intros Hv Hlim.
  rewrite (add_spec d _ _ _ _ Hv Hlim), (add_months_days d _ _ _ Hv).
  replace (7 * weeks + days + 0 * 7) with (days + weeks * 7) by lia.
  reflexivity.
Qed.

Lemma add_folds_units_witness :
  add (mkDate 2024 1 31) 1 1 1 1 = add (mkDate 2024 1 31) 0 13 0 8.
Proof.
  apply (add_folds_units (mkDate 2024 1 31) 1 1 1 1); vm_compute; reflexivity.
Defined.

Lemma delta_outcome_returns d shift flat :
  Datetime.valid d = true ->
  let ty := fst (target_year_month d shift) in
  let o := Datetime.toordinal (clamped_target d shift) + flat in
  (1 <= ty <= 9999 -> 1 <= o <= Datetime.MAXORDINAL ->
   exists r, delta_outcome d shift flat = Ok r
             /\ Datetime.valid r = true /\ Datetime.toordinal r = o)
  /\ (~ (1 <= ty <= 9999 /\ 1 <= o <= Datetime.MAXORDINAL) ->
      raises (delta_outcome d shift flat)).
Proof.
  intros Hv ty o. split.
  - intros Hty Ho. rewrite (delta_outcome_in_range d shift flat Hty).
    now apply add_days_ok.
  - intros Hno.
    destruct (Z.le_gt_cases 1 ty) as [H1 | H1];
      [destruct (Z.le_gt_cases ty 9999) as [H2 | H2] | ].
    + rewrite (delta_outcome_in_range d shift flat ltac:(subst ty; lia)).
      exists OverflowError. apply add_days_overflow. fold o. lia.
    + rewrite (delta_outcome_out_of_range d shift flat ltac:(subst ty; lia)).
      destruct (Datetime.fits_c_int _); eexists; reflexivity.
    + rewrite (delta_outcome_out_of_range d shift flat ltac:(subst ty; lia)).
      destruct (Datetime.fits_c_int _); eexists; reflexivity.
Qed.

(** With months that a float holds, [add] returns a date exactly when the
    target year lies in 1..9999 and the day [days + 7 * weeks] days after
    the cut target is a date from 0001-01-01 to 9999-12-31; it returns that
    day, and raises otherwise.  [subtract] does the same with the opposite
    shifts. *)
Theorem add_subtract_give_dates (d : Date) (years months weeks days : Z) :
  Datetime.valid d = true ->
  Z.abs months < Relativedelta.FLOAT_LIMIT ->
  let shift := 12 * years + months in
  let flat := days + weeks * 7 in
  let o := Datetime.toordinal (clamped_target d shift) + flat in
  let o' := Datetime.toordinal (clamped_target d (- shift)) - flat in
  (1 <= fst (target_year_month d shift) <= 9999 ->
   1 <= o <= Datetime.MAXORDINAL ->
   exists r, add d years months weeks days = Ok r
             /\ Datetime.valid r = true /\ Datetime.toordinal r = o)
  /\ (~ (1 <= fst (target_year_month d shift) <= 9999
         /\ 1 <= o <= Datetime.MAXORDINAL) ->
      raises (add d years months weeks days))
  /\ (1 <= fst (target_year_month d (- shift)) <= 9999 ->
      1 <= o' <= Datetime.MAXORDINAL ->
      exists r, subtract d years months weeks days = Ok r
                /\ Datetime.valid r = true /\ Datetime.toordinal r = o')
  /\ (~ (1 <= fst (target_year_month d (- shift)) <= 9999
         /\ 1 <= o' <= Datetime.MAXORDINAL) ->
      raises (subtract d years months weeks days)).
Proof.
  intros Hv Hlim shift flat o o'.
  rewrite (add_spec d _ _ _ _ Hv Hlim), (subtract_spec d _ _ _ _ Hv Hlim).
  fold shift flat.
  destruct (delta_outcome_returns d shift flat Hv) as [A1 A2].
  destruct (delta_outcome_returns d (- shift) (- flat) Hv) as [S1 S2].
  replace (Datetime.toordinal (clamped_target d (- shift)) + - flat)
    with o' in * by (subst o'; lia).
  auto.
Qed.

Lemma add_subtract_give_dates_witness :
  exists r, add (mkDate 2024 1 31) 0 1 0 3 = Ok r
            /\ Datetime.valid r = true
            /\ Datetime.toordinal r
               = Datetime.toordinal (mkDate 2024 2 29) + (3 + 0 * 7).
Proof.
  apply (proj1 (add_subtract_give_dates (mkDate 2024 1 31) 0 1 0 3 eq_refl
                  ltac:(vm_compute; reflexivity)));
    vm_compute; split; discriminate.
Defined.

(** Day shifts compose: adding [a] days and then [b] days is adding [a + b]
    days, when the date in between is in range. *)
Theorem add_days_compose (d r : Date) (a b : Z) :
  Datetime.valid d = true ->
  add d 0 0 0 a = Ok r ->
  add r 0 0 0 b = add d 0 0 0 (a + b).
Proof.
  intros Hv E. rewrite (add_days_only d a Hv) in E.
  apply add_days_inv in E. destruct E as [Vr Or].
  rewrite (add_days_only r b Vr), (add_days_only d (a + b) Hv).
  apply add_days_ext. lia.
Qed.

Lemma add_days_compose_witness :
  add (mkDate 2024 3 1) 0 0 0 40 = add (mkDate 2024 2 20) 0 0 0 (10 + 40).
Proof.
  apply (add_days_compose (mkDate 2024 2 20) (mkDate 2024 3 1) 10 40);
    reflexivity.
Defined.

(** Adding [k] days moves the weekday by [k] modulo 7. *)
Theorem add_days_shifts_weekday (d r : Date) (k : Z) :
  Datetime.valid d = true ->
  add d 0 0 0 k = Ok r ->
  day_of_week r = (day_of_week d + k) mod 7
  /\ Datetime.toordinal r = Datetime.toordinal d + k.
Proof.
  intros Hv E. rewrite (add_days_only d k Hv) in E.
  apply add_days_inv in E. destruct E as [Vr Or].
  split; [ | exact Or]. rewrite !day_of_week_ordinal, Or. zdiv.
Qed.

Lemma add_days_shifts_weekday_witness :
  day_of_week (mkDate 2024 3 1) = (day_of_week (mkDate 2024 2 20) + 10) mod 7
  /\ Datetime.toordinal (mkDate 2024 3 1)
     = Datetime.toordinal (mkDate 2024 2 20) + 10.
Proof.
  apply (add_days_shifts_weekday (mkDate 2024 2 20) (mkDate 2024 3 1) 10);
    reflexivity.
Defined.

(** ** [day_of_year] within a year *)

Lemma day_of_year_days_before d :
  1 <= month d <= 12 ->
  day_of_year d
  = Datetime.days_before_month (year d) (month d) + day d.
Proof.
  intros Hm. unfold day_of_year, is_leap_year, Datetime.days_before_month.
  rewrite isleap_is_leap. destruct d as [y m dd]. cbn [year month day] in *.
  month_cases m; destruct (Datetime.is_leap y); month_tests; zdiv.
Qed.

(** [day_of_year] runs from 1 on January 1 to 365, or 366 in a leap year, on
    December 31, and follows the order of the dates of a year. *)
Theorem day_of_year_range (d : Date) :
  Datetime.valid d = true ->
  1 <= day_of_year d <= 365 + (if is_leap_year d then 1 else 0)
  /\ (day_of_year d = 1 <-> month d = 1 /\ day d = 1)
  /\ (day_of_year d = 365 + (if is_leap_year d then 1 else 0)
      <-> month d = 12 /\ day d = 31)
  /\ (forall x, Datetime.valid x = true -> year x = year d ->
                (day_of_year x < day_of_year d <-> Datetime.ltb x d = true)).
Proof.
  intros Hv. pose proof Hv as Hv'. apply valid_iff in Hv'.
  destruct Hv' as (Hy & Hm & Hd).
  rewrite (day_of_year_days_before d Hm).
  unfold is_leap_year. rewrite isleap_is_leap.
  assert (Hshape :
    1 <= Datetime.days_before_month (year d) (month d) + day d
      <= 365 + (if Datetime.is_leap (year d) then 1 else 0)
    /\ (Datetime.days_before_month (year d) (month d) + day d = 1
        <-> month d = 1 /\ day d = 1)
    /\ (Datetime.days_before_month (year d) (month d) + day d
        = 365 + (if Datetime.is_leap (year d) then 1 else 0)
        <-> month d = 12 /\ day d = 31)).
  { revert Hd. rewrite days_in_month_table. unfold Datetime.days_before_month.
    destruct d as [y m dd]. cbn [year month day] in *.
    month_cases m; destruct (Datetime.is_leap y); month_tests; lia. }
  destruct Hshape as (H1 & H2 & H3).
  split; [exact H1 | ]. split; [exact H2 | ]. split; [exact H3 | ].
  intros x Vx Hyx. pose proof Vx as Vx'. apply valid_iff in Vx'.
  destruct Vx' as (_ & Hmx & _).
  rewrite (day_of_year_days_before x Hmx), Hyx.
  rewrite (toordinal_ltb_iff x d Vx Hv). unfold Datetime.toordinal.
  rewrite Hyx. lia.
Qed.

Lemma day_of_year_range_witness :
  1 <= day_of_year (mkDate 2024 12 31) <= 366
  /\ day_of_year (mkDate 2024 12 31) = 366.
Proof.
  destruct (day_of_year_range (mkDate 2024 12 31) eq_refl) as (B & _ & L & _).
  split; [exact B | ]. apply L. split; reflexivity.
Defined.

(** ** [start_of] and [end_of] as projections *)

Lemma start_valid fuel ws d u s :
  Datetime.valid d = true -> 0 <= ws <= 6 -> (6 <= fuel)%nat ->
  start_of fuel ws d u = Ok s -> Datetime.valid s = true.
Proof.
  intros Hv Hw Hf. unfold start_of.
  destruct (negb (unit_in u _MODIFIERS_VALID_UNITS)); [discriminate | ].
  destruct (String.eqb u "day"); [intros [= <-]; exact Hv | ].
  destruct (String.eqb u "week").
  { rewrite (start_of_week_closed fuel ws d Hv Hw Hf).
    intros E. now apply add_days_inv in E. }
  destruct (String.eqb u "month");
    [intros E; apply date_inv in E; now destruct E as [-> E] | ].
  destruct (String.eqb u "year");
    [intros E; apply date_inv in E; now destruct E as [-> E] | ].
  destruct (String.eqb u "decade");
    intros E; apply date_inv in E; now destruct E as [-> E].
Qed.

Lemma end_valid fuel we d u e :
  Datetime.valid d = true -> 0 <= we <= 6 -> (6 <= fuel)%nat ->
  end_of fuel we d u = Ok e -> Datetime.valid e = true.
Proof.
  intros Hv Hw Hf. unfold end_of.
  destruct (negb (unit_in u _MODIFIERS_VALID_UNITS)); [discriminate | ].
  destruct (String.eqb u "day"); [intros [= <-]; exact Hv | ].
  destruct (String.eqb u "week").
  { rewrite (end_of_week_closed fuel we d Hv Hw Hf).
    intros E. now apply add_days_inv in E. }
  destruct (String.eqb u "month").
  { rewrite (end_of_month_closed d Hv). intros [= <-].
    apply valid_iff in Hv. destruct Hv as (Hy & Hm & Hd).
    apply valid_iff. cbn [year month day].
    pose proof (days_in_month_bounds (year d) (month d) Hm). lia. }
  destruct (String.eqb u "year");
    [intros E; apply date_inv in E; now destruct E as [-> E] | ].
  destruct (String.eqb u "decade");
    intros E; apply date_inv in E; now destruct E as [-> E].
Qed.

(** [start_of] and [end_of] are idempotent: the start of a unit is its own
    start, and the end of a unit is its own end. *)
Theorem start_end_idempotent
  (fuel : nat) (ws we : Z) (d : Date) (u : string) :
  Datetime.valid d = true ->
  0 <= ws <= 6 -> 0 <= we <= 6 -> (6 <= fuel)%nat ->
  (forall s, start_of fuel ws d u = Ok s -> start_of fuel ws s u = Ok s)
  /\ (forall e, end_of fuel we d u = Ok e -> end_of fuel we e u = Ok e).
Proof.
  intros Hv Hws Hwe Hf. split.
  - intros s Es. pose proof (start_valid fuel ws d u s Hv Hws Hf Es) as Vs.
    revert Es. unfold start_of.
    destruct (negb (unit_in u _MODIFIERS_VALID_UNITS)); [discriminate | ].
    destruct (String.eqb u "day"); [reflexivity | ].
    destruct (String.eqb u "week").
    { rewrite (start_of_week_closed fuel ws d Hv Hws Hf).
      rewrite (start_of_week_closed fuel ws s Vs Hws Hf).
      intros E. apply add_days_inv in E. destruct E as [_ Os].
      replace ((day_of_week s - ws) mod 7) with 0.
      - now apply add_days_zero.
      - rewrite (day_of_week_ordinal s), Os, day_of_week_ordinal. zdiv. }
    destruct (String.eqb u "month").
    { intros E. apply date_inv in E. destruct E as [-> E].
      unfold _start_of_month, set, replace. cbn [or_else year month].
      now apply date_valid. }
    destruct (String.eqb u "year").
    { intros E. apply date_inv in E. destruct E as [-> E].
      unfold _start_of_year, set, replace. cbn [or_else year month].
      now apply date_valid. }
    destruct (String.eqb u "decade").
    { intros E. apply date_inv in E. destruct E as [-> E].
      unfold _start_of_decade, set, replace, YEARS_PER_DECADE in *.
      cbn [or_else year month] in *.
      replace (year d - year d mod 10 - (year d - year d mod 10) mod 10)
        with (year d - year d mod 10) by zdiv.
      now apply date_valid. }
    intros E. apply date_inv in E. destruct E as [-> E].
    unfold _start_of_century, set, replace, YEARS_PER_CENTURY in *.
    cbn [or_else year month] in *.
    set (y := year d - 1 - (year d - 1) mod 100 + 1) in *.
    replace (y - 1 - (y - 1) mod 100 + 1) with y by (subst y; zdiv).
    now apply date_valid.
  - intros e Ee. pose proof (end_valid fuel we d u e Hv Hwe Hf Ee) as Ve.
    revert Ee. unfold end_of.
    destruct (negb (unit_in u _MODIFIERS_VALID_UNITS)); [discriminate | ].
    destruct (String.eqb u "day"); [reflexivity | ].
    destruct (String.eqb u "week").
    { rewrite (end_of_week_closed fuel we d Hv Hwe Hf).
      rewrite (end_of_week_closed fuel we e Ve Hwe Hf).
      intros E. apply add_days_inv in E. destruct E as [_ Oe].
      replace ((we - day_of_week e) mod 7) with 0.
      - now apply add_days_zero.
      - rewrite (day_of_week_ordinal e), Oe, day_of_week_ordinal. zdiv. }
    destruct (String.eqb u "month").
    { rewrite (end_of_month_closed d Hv), (end_of_month_closed e Ve).
      now intros [= <-]. }
    destruct (String.eqb u "year").
    { intros E. apply date_inv in E. destruct E as [-> E].
      unfold _end_of_year, set, replace. cbn [or_else year month].
      now apply date_valid. }
    destruct (String.eqb u "decade").
    { intros E. apply date_inv in E. destruct E as [-> E].
      unfold _end_of_decade, set, replace, YEARS_PER_DECADE in *.
      cbn [or_else year month] in *.
      set (y := year d - year d mod 10 + 10 - 1) in *.
      replace (y - y mod 10 + 10 - 1) with y by (subst y; zdiv).
      now apply date_valid. }
    intros E. apply date_inv in E. destruct E as [-> E].
    unfold _end_of_century, set, replace, YEARS_PER_CENTURY in *.
    cbn [or_else year month] in *.
    set (y := year d - 1 - (year d - 1) mod 100 + 100) in *.
    replace (y - 1 - (y - 1) mod 100 + 100) with y by (subst y; zdiv).
    now apply date_valid.
Qed.

Lemma start_end_idempotent_witness :
  start_of 6 MONDAY (mkDate 2024 1 1) "week" = Ok (mkDate 2024 1 1)
  /\ end_of 6 SUNDAY (mkDate 2029 12 31) "decade" = Ok (mkDate 2029 12 31).
Proof.
  split.
  - apply (proj1 (start_end_idempotent 6 MONDAY SUNDAY (mkDate 2024 1 4) "week"
                    eq_refl ltac:(unfold MONDAY; lia) ltac:(unfold SUNDAY; lia)
                    (le_n 6))).
    vm_compute. reflexivity.
  - apply (proj2 (start_end_idempotent 6 MONDAY SUNDAY (mkDate 2024 1 4) "decade"
                    eq_refl ltac:(unfold MONDAY; lia) ltac:(unfold SUNDAY; lia)
                    (le_n 6))).
    vm_compute. reflexivity.
Defined.

(** ** The week and the month as blocks of days *)

(** With anchors that satisfy [week_ends_at = (week_starts_at + 6) mod 7], the
    week of [d] runs over seven days from a day of weekday [week_starts_at]
    to a day of weekday [week_ends_at], [d] among them. *)
Theorem week_spans_seven_days (fuel : nat) (ws we : Z) (d s e : Date) :
  Datetime.valid d = true ->
  0 <= ws <= 6 -> we = (ws + 6) mod 7 -> (6 <= fuel)%nat ->
  start_of fuel ws d "week" = Ok s ->
  end_of fuel we d "week" = Ok e ->
  Datetime.toordinal e - Datetime.toordinal s = 6
  /\ day_of_week s = ws /\ day_of_week e = we
  /\ Datetime.toordinal s <= Datetime.toordinal d <= Datetime.toordinal e.
Proof.
  intros Hv Hws Hwe Hf.
  assert (Hwe' : 0 <= we <= 6) by (subst we; zdiv).
  change (start_of fuel ws d "week") with (_start_of_week fuel ws d).
  change (end_of fuel we d "week") with (_end_of_week fuel we d).
  rewrite (start_of_week_closed fuel ws d Hv Hws Hf).
  rewrite (end_of_week_closed fuel we d Hv Hwe' Hf).
  intros Es Ee. apply add_days_inv in Es. apply add_days_inv in Ee.
  destruct Es as [Vs Os], Ee as [Ve Oe].
  rewrite (day_of_week_ordinal s), (day_of_week_ordinal e), Os, Oe.
  rewrite day_of_week_ordinal. subst we. zdiv.
Qed.

Lemma week_spans_seven_days_witness :
  Datetime.toordinal (mkDate 2024 1 7) - Datetime.toordinal (mkDate 2024 1 1) = 6
  /\ day_of_week (mkDate 2024 1 1) = MONDAY
  /\ day_of_week (mkDate 2024 1 7) = SUNDAY
  /\ Datetime.toordinal (mkDate 2024 1 1) <= Datetime.toordinal (mkDate 2024 1 4)
     <= Datetime.toordinal (mkDate 2024 1 7).
Proof.
  apply (week_spans_seven_days 6 MONDAY SUNDAY (mkDate 2024 1 4)
           (mkDate 2024 1 1) (mkDate 2024 1 7) eq_refl
           ltac:(unfold MONDAY; lia) eq_refl (le_n 6));
    vm_compute; reflexivity.
Defined.

Lemma toordinal_next_month y m :
  1 <= m <= 12 ->
  Datetime.toordinal
    (mkDate (fst (target_year_month (mkDate y m 1) 1))
            (snd (target_year_month (mkDate y m 1) 1)) 1)
  = Datetime.toordinal (mkDate y m (Datetime.days_in_month y m)) + 1.
Proof.
  intros Hm. unfold target_year_month, Datetime.toordinal.
  cbn [fst snd year month day].
  destruct (Z.eq_dec m 12) as [-> | Hne].
  - replace ((y * 12 + (12 - 1) + 1) / 12) with (y + 1) by zdiv.
    replace ((y * 12 + (12 - 1) + 1) mod 12 + 1) with 1 by zdiv.
    rewrite days_before_year_succ, days_in_month_table.
    unfold Datetime.days_before_month.
    destruct (Datetime.is_leap y), (Datetime.is_leap (y + 1));
      month_tests; lia.
  - replace ((y * 12 + (m - 1) + 1) / 12) with y by zdiv.
    replace ((y * 12 + (m - 1) + 1) mod 12 + 1) with (m + 1) by zdiv.
    rewrite days_before_month_succ by lia. lia.
Qed.

(** The day after the end of the month of [d] is the first day of the
    following month (January of the next year after December), unless that
    month is past the year 9999. *)
Theorem day_after_end_of_month (fuel : nat) (we : Z) (d e : Date) :
  Datetime.valid d = true ->
  end_of fuel we d "month" = Ok e ->
  fst (target_year_month d 1) <= 9999 ->
  add e 0 0 0 1
  = Ok (mkDate (fst (target_year_month d 1)) (snd (target_year_month d 1)) 1).
Proof.
  intros Hv. pose proof Hv as Hv'. apply valid_iff in Hv'.
  destruct Hv' as (Hy & Hm & Hd).
  change (end_of fuel we d "month") with (_end_of_month d).
  rewrite (end_of_month_closed d Hv). intros [= <-] Hty.
  pose proof (days_in_month_bounds (year d) (month d) Hm) as Hb.
  assert (Ve : Datetime.valid
                 (mkDate (year d) (month d)
                         (Datetime.days_in_month (year d) (month d))) = true)
    by (apply valid_iff; cbn [year month day]; lia).
  rewrite (add_days_only _ 1 Ve).
  assert (Et : target_year_month d 1
               = target_year_month (mkDate (year d) (month d) 1) 1)
    by reflexivity.
  rewrite Et in *.
  pose proof (toordinal_next_month (year d) (month d) Hm) as Ho.
  pose proof (target_month_range (mkDate (year d) (month d) 1) 1) as Htm.
  set (ty := fst (target_year_month (mkDate (year d) (month d) 1) 1)) in *.
  set (tm := snd (target_year_month (mkDate (year d) (month d) 1) 1)) in *.
  assert (Hty1 : 1 <= ty)
    by (subst ty; unfold target_year_month; cbn [fst year month]; zdiv).
  assert (Vt : Datetime.valid (mkDate ty tm 1) = true).
  { apply valid_iff. cbn [year month day].
    pose proof (days_in_month_bounds ty tm Htm). lia. }
  pose proof (toordinal_range _ Vt) as Rt.
  destruct (add_days_ok
              (mkDate (year d) (month d)
                      (Datetime.days_in_month (year d) (month d))) 1
              ltac:(lia)) as (r & -> & Vr & Or).
  f_equal. apply toordinal_inj; [assumption .. | lia].
Qed.

Lemma day_after_end_of_month_witness :
  add (mkDate 2024 2 29) 0 0 0 1 = Ok (mkDate 2024 3 1).
Proof.
  apply (day_after_end_of_month 6 SUNDAY (mkDate 2024 2 10) (mkDate 2024 2 29)
           eq_refl).
  - vm_compute. reflexivity.
  - vm_compute. discriminate.
Defined.

(** ** [average] between its arguments *)

Lemma average_closed d other :
  Datetime.valid d = true -> Datetime.valid other = true ->
  average d other
  = Datetime.add_days d (Z.quot (signed_days d other) 2).
Proof.
  intros Hd Ho. unfold average, diff.
  rewrite (instance_valid other Ho). cbn [bind].
  unfold Period.in_days, Period.make. cbn [andb Period.start Period.end_].
  fold (signed_days d other). now apply add_days_only.
Qed.

(** The average of two dates lies between them, is [d] itself when the two
    are equal or one day apart, and is never farther from [d] than from
    [other]. *)
Theorem average_between (d other : Date) :
  Datetime.valid d = true -> Datetime.valid other = true ->
  exists r,
    average d other = Ok r
    /\ (Datetime.leb d other = true ->
        Datetime.leb d r = true /\ Datetime.leb r other = true)
    /\ (Datetime.leb other d = true ->
        Datetime.leb other r = true /\ Datetime.leb r d = true)
    /\ (Z.abs (signed_days d other) <= 1 -> r = d)
    /\ Z.abs (signed_days d r) <= Z.abs (signed_days r other).
Proof.
  intros Hd Ho. rewrite (average_closed d other Hd Ho).
  pose proof (toordinal_range d Hd) as Rd.
  pose proof (toordinal_range other Ho) as Ro.
  assert (Hq : 1 <= Datetime.toordinal d + Z.quot (signed_days d other) 2
               <= Datetime.MAXORDINAL) by (unfold signed_days; zdiv).
  destruct (add_days_ok d _ Hq) as (r & E & V & O).
  exists r. split; [exact E | ].
  rewrite (toordinal_leb_iff d other Hd Ho), (toordinal_leb_iff other d Ho Hd),
    (toordinal_leb_iff d r Hd V), (toordinal_leb_iff r other V Ho),
    (toordinal_leb_iff other r Ho V), (toordinal_leb_iff r d V Hd).
  unfold signed_days in *. rewrite O.
  split; [zdiv | ]. split; [zdiv | ]. split; [ | zdiv].
  intros H1. apply toordinal_inj; [assumption .. | ]. rewrite O. zdiv.
Qed.

Lemma average_between_witness :
  exists r,
    average (mkDate 2024 1 10) (mkDate 2024 1 20) = Ok r
    /\ Datetime.leb (mkDate 2024 1 10) r = true
    /\ Datetime.leb r (mkDate 2024 1 20) = true.
Proof.
  destruct (average_between (mkDate 2024 1 10) (mkDate 2024 1 20)
              eq_refl eq_refl) as (r & E & B & _).
  exists r. split; [exact E | ]. apply B. reflexivity.
Defined.

(** ** The ISO week *)

Lemma toordinal_jan1 y :
  Datetime.toordinal (mkDate y 1 1) = Datetime.days_before_year y + 1.
Proof.
  unfold Datetime.toordinal, Datetime.days_before_month. cbn [year month day].
  month_tests. change (2 <? 1) with false. cbn [andb]. lia.
Qed.

(** The first ISO week of a year starts on a Monday at most three days away
    from January 1. *)
Lemma isoweek1monday_spec y :
  Isocalendar.isoweek1monday y mod 7 = 1
  /\ Datetime.days_before_year y - 2 <= Isocalendar.isoweek1monday y
     <= Datetime.days_before_year y + 4
  /\ (Isocalendar.isoweek1monday y <= Datetime.days_before_year y + 1
      <-> (Datetime.days_before_year y + 7) mod 7 <= 3).
Proof.
  unfold Isocalendar.isoweek1monday. cbv zeta. rewrite toordinal_jan1.
  rewrite Z.gtb_ltb.
  destruct (3 <? (Datetime.days_before_year y + 1 + 6) mod 7) eqn:E;
    bool_to_prop; zdiv.
Qed.

(** The ISO calendar of a date: the ISO year is the year of the date or a
    neighbour, the week lies in 1..53, the day is the ISO weekday, and the
    three locate the date from the Monday of ISO week 1. *)
Theorem isocalendar_locates (d : Date) :
  Datetime.valid d = true ->
  let iy := fst (fst (Isocalendar.isocalendar d)) in
  let wd := snd (Isocalendar.isocalendar d) in
  year d - 1 <= iy <= year d + 1
  /\ 1 <= week_of_year d <= 53
  /\ wd = Datetime.isoweekday d
  /\ Datetime.toordinal d
     = Isocalendar.isoweek1monday iy + 7 * (week_of_year d - 1) + (wd - 1).
Proof.
  intros Hv iy wd. subst iy wd. unfold week_of_year.
  destruct (toordinal_bounds d Hv) as [Hlo Hhi].
  rewrite days_before_year_succ in Hhi.
  pose proof (isoweek1monday_spec (year d)) as (C0 & B0 & _).
  pose proof (isoweek1monday_spec (year d - 1)) as (Cp & Bp & _).
  pose proof (isoweek1monday_spec (year d + 1)) as (Cn & Bn & _).
  pose proof (days_before_year_succ (year d - 1)) as Sp.
  replace (year d - 1 + 1) with (year d) in Sp by lia.
  rewrite days_before_year_succ in Bn.
  unfold Datetime.isoweekday. cbv zeta.
  unfold Isocalendar.isocalendar. cbv zeta.
  set (t := Datetime.toordinal d) in *.
  set (m0 := Isocalendar.isoweek1monday (year d)) in *.
  set (mp := Isocalendar.isoweek1monday (year d - 1)) in *.
  set (mn := Isocalendar.isoweek1monday (year d + 1)) in *.
  set (b := Datetime.days_before_year (year d)) in *.
  set (bp := Datetime.days_before_year (year d - 1)) in *.
  assert (L0 : 0 <= (if Datetime.is_leap (year d) then 1 else 0) <= 1)
    by (destruct (Datetime.is_leap (year d)); lia).
  assert (Lp : 0 <= (if Datetime.is_leap (year d - 1) then 1 else 0) <= 1)
    by (destruct (Datetime.is_leap (year d - 1)); lia).
  destruct ((t - m0) / 7 <? 0) eqn:E1.
  - cbn [fst snd]. bool_to_prop.
    destruct (t mod 7 =? 0) eqn:E7; bool_to_prop; zdiv.
  - rewrite Z.geb_leb, Z.geb_leb.
    destruct ((52 <=? (t - m0) / 7) && (mn <=? t)) eqn:E2; cbn [fst snd];
      [ | apply andb_false_iff in E2; destruct E2 as [E2 | E2]];
      bool_to_prop; destruct (t mod 7 =? 0) eqn:E7; bool_to_prop; zdiv.
Qed.

Lemma isocalendar_locates_witness :
  1 <= week_of_year (mkDate 2021 1 1) <= 53
  /\ Isocalendar.isocalendar (mkDate 2021 1 1) = (2020, 53, 5).
Proof.
  destruct (isocalendar_locates (mkDate 2021 1 1) eq_refl) as (_ & W & _).
  split; [exact W | reflexivity].
Defined.

(** A year is long, with 53 ISO weeks, exactly when its January 1 is a
    Thursday, or a Wednesday in a leap year. *)
Theorem is_long_year_iff (d : Date) :
  Datetime.valid d = true ->
  exists b,
    is_long_year d = Ok b
    /\ (b = true <->
        day_of_week (mkDate (year d) 1 1) = THURSDAY
        \/ (is_leap_year d = true
            /\ day_of_week (mkDate (year d) 1 1) = WEDNESDAY)).
Proof.
  intros Hv. apply valid_iff in Hv. destruct Hv as (Hy & _ & _).
  unfold is_long_year. rewrite date_valid.
  2:{ apply valid_ymd_iff.
      change (Datetime.days_in_month (year d) 12) with 31. lia. }
  cbn [bind]. eexists. split; [reflexivity | ].
  rewrite Z.eqb_eq, day_of_week_ordinal, toordinal_jan1.
  unfold is_leap_year, THURSDAY, WEDNESDAY. rewrite isleap_is_leap.
  unfold Isocalendar.isocalendar. cbv zeta. cbn [year].
  assert (Et : Datetime.toordinal (mkDate (year d) 12 28)
               = Datetime.days_before_year (year d) + 362
                 + (if Datetime.is_leap (year d) then 1 else 0)).
  { unfold Datetime.toordinal, Datetime.days_before_month.
    cbn [year month day]. month_tests. change (2 <? 12) with true.
    cbn [andb]. lia. }
  rewrite Et.
  pose proof (isoweek1monday_spec (year d)) as (C0 & B0 & F0).
  pose proof (isoweek1monday_spec (year d + 1)) as (Cn & Bn & _).
  rewrite days_before_year_succ in Bn.
  set (m0 := Isocalendar.isoweek1monday (year d)) in *.
  set (mn := Isocalendar.isoweek1monday (year d + 1)) in *.
  set (b := Datetime.days_before_year (year d)) in *.
  destruct (Datetime.is_leap (year d));
    (destruct ((b + 362 + _ - m0) / 7 <? 0) eqn:E1;
     [exfalso; bool_to_prop; zdiv | ]);
    rewrite Z.geb_leb, Z.geb_leb;
    (destruct ((52 <=? (b + 362 + _ - m0) / 7) && (mn <=? b + 362 + _)) eqn:E2;
     cbn [fst snd];
     [exfalso | apply andb_false_iff in E2; destruct E2 as [E2 | E2]];
     bool_to_prop; zdiv).
Qed.

Lemma is_long_year_iff_witness :
  exists b,
    is_long_year (mkDate 2020 6 1) = Ok b
    /\ (b = true <->
        day_of_week (mkDate 2020 1 1) = THURSDAY
        \/ (is_leap_year (mkDate 2020 6 1) = true
            /\ day_of_week (mkDate 2020 1 1) = WEDNESDAY)).
Proof. exact (is_long_year_iff (mkDate 2020 6 1) eq_refl). Defined.

(** ** [quarter], [week_of_month] and the units without a weekday *)

(** The quarter of a date lies in 1..4 and holds its month; without a
    weekday, [first_of] and [last_of] give the first and the last day of the
    quarter, which enclose the date. *)
Theorem quarter_block (d : Date) :
  Datetime.valid d = true ->
  let q := quarter d in
  1 <= q <= 4
  /\ 3 * q - 2 <= month d <= 3 * q
  /\ first_of d "quarter" None = Ok (mkDate (year d) (3 * q - 2) 1)
  /\ last_of d "quarter" None
     = Ok (mkDate (year d) (3 * q)
                  (Datetime.days_in_month (year d) (3 * q)))
  /\ Datetime.leb (mkDate (year d) (3 * q - 2) 1) d = true
  /\ Datetime.leb d (mkDate (year d) (3 * q)
                            (Datetime.days_in_month (year d) (3 * q))) = true.
Proof.
  intros Hv q. apply valid_iff in Hv. destruct Hv as (Hy & Hm & Hd).
  assert (Hq : 1 <= q <= 4 /\ 3 * q - 2 <= month d <= 3 * q)
    by (subst q; unfold quarter; zdiv).
  destruct Hq as [Hq1 Hq2].
  pose proof (days_in_month_bounds (year d) (3 * q) ltac:(lia)) as Hb.
  split; [exact Hq1 | ]. split; [exact Hq2 | ].
  split; [ | split; [ | split; apply leb_iff; cbn [year month day]]].
  4:{ destruct (Z.eq_dec (month d) (3 * q)) as [E | E];
        [rewrite <- E; lia | lia]. }
  3:{ lia. }
  - change (first_of d "quarter" None) with (_first_of_quarter d None).
    unfold _first_of_quarter, set, replace. cbn [or_else]. fold q.
    replace (q * 3 - 2) with (3 * q - 2) by lia.
    rewrite date_valid.
    2:{ apply valid_ymd_iff.
        pose proof (days_in_month_bounds (year d) (3 * q - 2) ltac:(lia)). lia. }
    cbn [bind _first_of_month]. unfold set, replace.
    cbn [or_else year month day]. apply date_valid, valid_ymd_iff.
    pose proof (days_in_month_bounds (year d) (3 * q - 2) ltac:(lia)). lia.
  - change (last_of d "quarter" None) with (_last_of_quarter d None).
    unfold _last_of_quarter, set, replace. cbn [or_else]. fold q.
    replace (q * 3) with (3 * q) by lia.
    rewrite date_valid by (apply valid_ymd_iff; lia).
    cbn [bind _last_of_month]. unfold days_in_month. cbn [year month day].
    destruct (monthrange_ok (year d) (3 * q) ltac:(lia)) as [w ->].
    cbn [bind snd]. unfold set, replace. cbn [or_else year month day].
    apply date_valid, valid_ymd_iff. lia.
Qed.

Lemma quarter_block_witness :
  first_of (mkDate 2024 5 20) "quarter" None = Ok (mkDate 2024 4 1)
  /\ last_of (mkDate 2024 5 20) "quarter" None = Ok (mkDate 2024 6 30).
Proof.
  destruct (quarter_block (mkDate 2024 5 20) eq_refl) as (_ & _ & F & L & _).
  split; [exact F | exact L].
Defined.

(** The week of the month lies in 1..5, and week [k] holds the days
    [7 * (k - 1) + 1] to [7 * k]. *)
Theorem week_of_month_range (d : Date) :
  Datetime.valid d = true ->
  1 <= week_of_month d <= 5
  /\ 7 * (week_of_month d - 1) < day d <= 7 * week_of_month d.
Proof.
  intros Hv. apply valid_iff in Hv. destruct Hv as (Hy & Hm & Hd).
  pose proof (days_in_month_bounds (year d) (month d) Hm).
  unfold week_of_month, DAYS_PER_WEEK. zdiv.
Qed.

Lemma week_of_month_range_witness :
  1 <= week_of_month (mkDate 2024 2 29) <= 5
  /\ 7 * (week_of_month (mkDate 2024 2 29) - 1) < 29
     <= 7 * week_of_month (mkDate 2024 2 29).
Proof. apply (week_of_month_range (mkDate 2024 2 29)). reflexivity. Defined.

(** Without a weekday, [first_of] and [last_of] for the month and the year
    are [start_of] and [end_of] for the same unit. *)
Theorem first_last_without_weekday (fuel : nat) (ws we : Z) (d : Date) :
  Datetime.valid d = true ->
  first_of d "month" None = start_of fuel ws d "month"
  /\ last_of d "month" None = end_of fuel we d "month"
  /\ first_of d "year" None = start_of fuel ws d "year"
  /\ last_of d "year" None = end_of fuel we d "year".
Proof.
  intros Hv. pose proof Hv as Hv'. apply valid_iff in Hv'.
  destruct Hv' as (Hy & Hm & Hd).
  pose proof (days_in_month_bounds (year d) (month d) Hm) as Hb.
  split; [reflexivity | ]. split; [reflexivity | ]. split.
  - change (first_of d "year" None) with (_first_of_year d None).
    change (start_of fuel ws d "year") with (_start_of_year d).
    unfold _first_of_year, _start_of_year, set, replace. cbn [or_else].
    rewrite date_valid.
    2:{ apply valid_ymd_iff.
        change (Datetime.days_in_month (year d) 1) with 31. lia. }
    reflexivity.
  - change (last_of d "year" None) with (_last_of_year d None).
    change (end_of fuel we d "year") with (_end_of_year d).
    unfold _last_of_year, _end_of_year, set, replace, MONTHS_PER_YEAR.
    cbn [or_else].
    rewrite date_valid.
    2:{ apply valid_ymd_iff.
        change (Datetime.days_in_month (year d) 12) with 31. lia. }
    cbn [bind _last_of_month]. unfold days_in_month. cbn [year month day].
    destruct (monthrange_ok (year d) 12 ltac:(lia)) as [w ->].
    cbn [bind snd]. unfold set, replace. cbn [or_else year month day].
    reflexivity.
Qed.

Lemma first_last_without_weekday_witness :
  first_of (mkDate 2024 5 20) "year" None
  = start_of 6 MONDAY (mkDate 2024 5 20) "year"
  /\ last_of (mkDate 2024 5 20) "year" None
     = end_of 6 SUNDAY (mkDate 2024 5 20) "year".
Proof.
  destruct (first_last_without_weekday 6 MONDAY SUNDAY (mkDate 2024 5 20)
              eq_refl) as (_ & _ & F & L).
  split; [exact F | exact L].
Defined.

(** ** [first_of] and [last_of] with a weekday *)

Lemma monthrange_in_range y m :
  1 <= y <= 9999 -> 1 <= m <= 12 ->
  Calendar.monthrange y m
  = Ok (Datetime.weekday (mkDate y m 1), Datetime.days_in_month y m).
Proof.
  intros Hy Hm. unfold Calendar.monthrange.
  replace ((1 <=? m) && (m <=? 12)) with true
    by (symmetry; apply andb_true_iff; split; apply Z.leb_le; lia).
  cbn [negb]. unfold Calendar.weekday, Datetime.MINYEAR, Datetime.MAXYEAR.
  rewrite (in_range_true y Hy). rewrite date_valid.
  - cbn [bind]. now rewrite isleap_is_leap, days_in_month_table.
  - apply valid_ymd_iff. pose proof (days_in_month_bounds y m Hm). lia.
Qed.

Lemma monthcalendar_grid y m :
  1 <= y <= 9999 -> 1 <= m <= 12 ->
  Calendar.monthcalendar y m
  = Ok (month_grid (Datetime.weekday (mkDate y m 1))
                   (Datetime.days_in_month y m)).
Proof.
  intros Hy Hm. unfold Calendar.monthcalendar, Calendar.itermonthdays.
  rewrite (monthrange_in_range y m Hy Hm). reflexivity.
Qed.

Lemma picks_ok_all n : 0 <= n < 196 -> picks_ok n = true.
Proof.
  intros Hn. apply (forallb_below picks_ok 196); [ | lia].
  vm_compute. reflexivity.
Qed.

Lemma picks_spec day1 ndays c :
  0 <= day1 <= 6 -> 28 <= ndays <= 31 -> 0 <= c <= 6 ->
  1 <= first_pick (month_grid day1 ndays) c <= 7
  /\ (day1 + first_pick (month_grid day1 ndays) c - 1) mod 7 = c
  /\ ndays - 6 <= last_pick (month_grid day1 ndays) c <= ndays
  /\ (day1 + last_pick (month_grid day1 ndays) c - 1) mod 7 = c.
Proof.
  intros H1 Hn Hc.
  pose proof (picks_ok_all (day1 + 7 * (ndays - 28) + 28 * c) ltac:(lia)) as H.
  unfold picks_ok in H. cbv zeta in H.
  replace ((day1 + 7 * (ndays - 28) + 28 * c) mod 7) with day1 in H by zdiv.
  replace (28 + (day1 + 7 * (ndays - 28) + 28 * c) / 7 mod 4) with ndays in H
    by zdiv.
  replace ((day1 + 7 * (ndays - 28) + 28 * c) / 28) with c in H by zdiv.
  bool_to_prop. lia.
Qed.

Lemma first_of_month_weekday x w :
  Datetime.valid x = true ->
  exists f,
    _first_of_month x (Some w) = Ok (mkDate (year x) (month x) f)
    /\ 1 <= f <= 7
    /\ day_of_week (mkDate (year x) (month x) f) = w mod 7
    /\ f = 1 + (w - day_of_week (mkDate (year x) (month x) 1)) mod 7.
Proof.
  intros Hv. apply valid_iff in Hv. destruct Hv as (Hy & Hm & Hd).
  pose proof (days_in_month_bounds (year x) (month x) Hm) as Hb.
  unfold _first_of_month. rewrite (monthcalendar_grid _ _ Hy Hm). cbn [bind].
  set (day1 := Datetime.weekday (mkDate (year x) (month x) 1)).
  assert (H1 : 0 <= day1 <= 6) by (subst day1; unfold Datetime.weekday; zdiv).
  assert (Hc : 0 <= (w - 1) mod 7 <= 6) by zdiv.
  destruct (picks_spec day1 _ _ H1 Hb Hc) as (Hf & Cf & _).
  fold (first_pick (month_grid day1 (Datetime.days_in_month (year x) (month x)))
                   ((w - 1) mod 7)).
  set (f := first_pick _ _) in *. exists f.
  unfold set, replace. cbn [or_else].
  rewrite date_valid by (apply valid_ymd_iff; lia).
  split; [reflexivity | ]. split; [exact Hf | ].
  rewrite !day_of_week_ordinal. unfold Datetime.toordinal. cbn [year month day].
  subst day1. unfold Datetime.weekday, Datetime.toordinal in Cf.
  cbn [year month day] in Cf. split; zdiv.
Qed.

Lemma last_of_month_weekday x w :
  Datetime.valid x = true ->
  exists l,
    _last_of_month x (Some w) = Ok (mkDate (year x) (month x) l)
    /\ Datetime.days_in_month (year x) (month x) - 6 <= l
       <= Datetime.days_in_month (year x) (month x)
    /\ day_of_week (mkDate (year x) (month x) l) = w mod 7.
Proof.
  intros Hv. apply valid_iff in Hv. destruct Hv as (Hy & Hm & Hd).
  pose proof (days_in_month_bounds (year x) (month x) Hm) as Hb.
  unfold _last_of_month. rewrite (monthcalendar_grid _ _ Hy Hm). cbn [bind].
  set (day1 := Datetime.weekday (mkDate (year x) (month x) 1)).
  assert (H1 : 0 <= day1 <= 6) by (subst day1; unfold Datetime.weekday; zdiv).
  assert (Hc : 0 <= (w - 1) mod 7 <= 6) by zdiv.
  destruct (picks_spec day1 _ _ H1 Hb Hc) as (_ & _ & Hl & Cl).
  fold (last_pick (month_grid day1 (Datetime.days_in_month (year x) (month x)))
                  ((w - 1) mod 7)).
  set (l := last_pick _ _) in *. exists l.
  unfold set, replace. cbn [or_else].
  rewrite date_valid by (apply valid_ymd_iff; lia).
  split; [reflexivity | ]. split; [exact Hl | ].
  rewrite !day_of_week_ordinal. unfold Datetime.toordinal. cbn [year month day].
  subst day1. unfold Datetime.weekday, Datetime.toordinal in Cl.
  cbn [year month day] in Cl. zdiv.
Qed.

(** With a weekday, [first_of] gives the day of that weekday among the first
    seven days of the month and [last_of] the one among the last seven days;
    the weekday is not checked, any integer counts modulo 7. *)
Theorem first_last_of_month_weekday (d : Date) (w : Z) :
  Datetime.valid d = true ->
  exists f l,
    first_of d "month" (Some w) = Ok (mkDate (year d) (month d) f)
    /\ last_of d "month" (Some w) = Ok (mkDate (year d) (month d) l)
    /\ 1 <= f <= 7
    /\ Datetime.days_in_month (year d) (month d) - 6 <= l
       <= Datetime.days_in_month (year d) (month d)
    /\ day_of_week (mkDate (year d) (month d) f) = w mod 7
    /\ day_of_week (mkDate (year d) (month d) l) = w mod 7.
Proof.
  intros Hv.
  destruct (first_of_month_weekday d w Hv) as (f & Ef & Hf & Wf & _).
  destruct (last_of_month_weekday d w Hv) as (l & El & Hl & Wl).
  exists f, l. repeat split; try assumption; lia.
Qed.

Lemma first_last_of_month_weekday_witness :
  exists f l,
    first_of (mkDate 2024 2 15) "month" (Some FRIDAY) = Ok (mkDate 2024 2 f)
    /\ last_of (mkDate 2024 2 15) "month" (Some FRIDAY) = Ok (mkDate 2024 2 l)
    /\ 1 <= f <= 7
    /\ Datetime.days_in_month 2024 2 - 6 <= l <= Datetime.days_in_month 2024 2
    /\ day_of_week (mkDate 2024 2 f) = FRIDAY mod 7
    /\ day_of_week (mkDate 2024 2 l) = FRIDAY mod 7.
Proof. exact (first_last_of_month_weekday (mkDate 2024 2 15) FRIDAY eq_refl). Defined.

(** For the year and the quarter, [first_of] looks in the first month of the
    unit and [last_of] in its last month, whatever the day of [d]. *)
Theorem first_last_of_year_quarter (d : Date) (w : option Z) :
  Datetime.valid d = true ->
  first_of d "year" w = first_of (mkDate (year d) 1 1) "month" w
  /\ last_of d "year" w = last_of (mkDate (year d) 12 1) "month" w
  /\ first_of d "quarter" w
     = first_of (mkDate (year d) (3 * quarter d - 2) 1) "month" w
  /\ last_of d "quarter" w
     = last_of (mkDate (year d) (3 * quarter d) 1) "month" w.
Proof.
  intros Hv. apply valid_iff in Hv. destruct Hv as (Hy & Hm & Hd).
  pose proof (days_in_month_bounds (year d) (month d) Hm) as Hb.
  assert (Hq : 1 <= quarter d <= 4) by (unfold quarter; zdiv).
  change (first_of d "year" w) with (_first_of_year d w).
  change (last_of d "year" w) with (_last_of_year d w).
  change (first_of d "quarter" w) with (_first_of_quarter d w).
  change (last_of d "quarter" w) with (_last_of_quarter d w).
  change (first_of (mkDate (year d) 1 1) "month" w)
    with (_first_of_month (mkDate (year d) 1 1) w).
  change (last_of (mkDate (year d) 12 1) "month" w)
    with (_last_of_month (mkDate (year d) 12 1) w).
  change (first_of (mkDate (year d) (3 * quarter d - 2) 1) "month" w)
    with (_first_of_month (mkDate (year d) (3 * quarter d - 2) 1) w).
  change (last_of (mkDate (year d) (3 * quarter d) 1) "month" w)
    with (_last_of_month (mkDate (year d) (3 * quarter d) 1) w).
  unfold _first_of_year, _last_of_year, _first_of_quarter, _last_of_quarter,
    set, replace, MONTHS_PER_YEAR.
  cbn [or_else].
  replace (quarter d * 3 - 2) with (3 * quarter d - 2) by lia.
  replace (quarter d * 3) with (3 * quarter d) by lia.
  rewrite !date_valid.
  - cbn [bind]. repeat split; destruct w; reflexivity.
  - apply valid_ymd_iff.
    pose proof (days_in_month_bounds (year d) (3 * quarter d) ltac:(lia)). lia.
  - apply valid_ymd_iff.
    pose proof (days_in_month_bounds (year d) (3 * quarter d - 2) ltac:(lia)).
    lia.
  - apply valid_ymd_iff.
    change (Datetime.days_in_month (year d) 12) with 31. lia.
  - apply valid_ymd_iff.
    change (Datetime.days_in_month (year d) 1) with 31. lia.
Qed.

Lemma first_last_of_year_quarter_witness :
  first_of (mkDate 2024 5 31) "year" (Some MONDAY)
  = first_of (mkDate 2024 1 1) "month" (Some MONDAY).
Proof.
  apply (first_last_of_year_quarter (mkDate 2024 5 31) (Some MONDAY)).
  reflexivity.
Defined.

(** ** [nth_of] in a month *)

Lemma next_times_closed fuel k :
  forall dt w,
    Datetime.valid dt = true -> 0 <= w <= 6 -> (6 <= fuel)%nat ->
    next_times fuel (S k) dt (Some w)
    = Datetime.add_days
        dt ((w - day_of_week dt - 1) mod 7 + 1 + 7 * Z.of_nat k).
Proof.
  induction k as [ | k IH]; intros dt w Hv Hw Hf;
    pose proof (toordinal_range dt Hv) as Hr;
    assert (Hk : 1 <= (w - day_of_week dt - 1) mod 7 + 1 <= 7) by zdiv.
  - cbn [next_times]. rewrite (next_closed fuel dt w Hv Hw Hf).
    rewrite bind_ret. f_equal. lia.
  - change (next_times fuel (S (S k)) dt (Some w))
      with (dt' <- next fuel dt (Some w) ;; next_times fuel (S k) dt' (Some w)).
    rewrite (next_closed fuel dt w Hv Hw Hf).
    destruct (Z.le_gt_cases
                (Datetime.toordinal dt + ((w - day_of_week dt - 1) mod 7 + 1))
                Datetime.MAXORDINAL) as [Hin | Hout].
    + destruct (add_days_ok dt ((w - day_of_week dt - 1) mod 7 + 1)
                  ltac:(lia)) as (dt' & -> & V' & O').
      cbn [bind]. rewrite (IH dt' w V' Hw Hf). apply add_days_ext.
      assert (Ew : day_of_week dt' = w).
      { rewrite !day_of_week_ordinal in *. rewrite O'. zdiv. }
      rewrite Ew, O'. zdiv.
    + rewrite (add_days_overflow dt ((w - day_of_week dt - 1) mod 7 + 1))
        by lia.
      cbn [bind]. symmetry. apply add_days_overflow. lia.
Qed.

Lemma weekday_in_days w : 0 <= w <= 6 -> existsb (Z.eqb w) _days = true.
Proof.
  intros H.
  assert (C : w = 0 \/ w = 1 \/ w = 2 \/ w = 3 \/ w = 4 \/ w = 5 \/ w = 6) by lia.
  repeat (destruct C as [-> | C]; [reflexivity | ]). now subst w.
Qed.

(** For [n >= 1], [nth_of] in a month returns the [n]-th day of weekday [w]
    of the month of [d], seven days apart from the first one, and raises the
    [DateTimeException] when the month has fewer than [n] such days (an
    [OverflowError] when the search runs past the last [date]). *)
Theorem nth_of_month_occurrence (fuel : nat) (d : Date) (n w : Z) :
  Datetime.valid d = true -> 0 <= w <= 6 -> 1 <= n -> (6 <= fuel)%nat ->
  let first := mkDate (year d) (month d) 1 in
  let dd := 1 + (w - day_of_week first) mod 7 + 7 * (n - 1) in
  (dd <= Datetime.days_in_month (year d) (month d) ->
   nth_of fuel d "month" n (Some w) = Ok (mkDate (year d) (month d) dd)
   /\ day_of_week (mkDate (year d) (month d) dd) = w)
  /\ (Datetime.days_in_month (year d) (month d) < dd ->
      Datetime.toordinal first + dd - 1 <= Datetime.MAXORDINAL ->
      nth_of fuel d "month" n (Some w) = Raise DateTimeException)
  /\ (Datetime.MAXORDINAL < Datetime.toordinal first + dd - 1 ->
      nth_of fuel d "month" n (Some w) = Raise OverflowError).
Proof.
  intros Hv Hw Hn Hf first dd.
  pose proof Hv as Hv'. apply valid_iff in Hv'. destruct Hv' as (Hy & Hm & Hd).
  pose proof (days_in_month_bounds (year d) (month d) Hm) as Hb.
  assert (Vf : Datetime.valid first = true)
    by (apply valid_iff; cbn [first year month day]; lia).
  pose proof (toordinal_range first Vf) as Rf.
  pose proof (day_of_week_range first) as Hdf.
  assert (Hdd : 1 <= dd) by (subst dd; zdiv).
  assert (Wdd : day_of_week (mkDate (year d) (month d) dd) = w).
  { rewrite day_of_week_ordinal. subst dd.
    rewrite day_of_week_ordinal. unfold first, Datetime.toordinal.
    cbn [year month day]. zdiv. }
  assert (Odd : Datetime.toordinal (mkDate (year d) (month d) dd)
                = Datetime.toordinal first + dd - 1)
    by (unfold first, Datetime.toordinal; cbn [year month day]; lia).
  change (nth_of fuel d "month" n (Some w))
    with (r <- _nth_of_month fuel d n (Some w) ;;
          match r with
          | Some dt => Ok dt
          | None => if existsb (Z.eqb w) _days then Raise DateTimeException
                    else Raise KeyError
          end).
  rewrite (weekday_in_days w Hw). unfold _nth_of_month.
  destruct (n =? 1) eqn:En; bool_to_prop.
  - (* the first occurrence is read in the calendar of the month *)
    subst n. change (first_of d "month" (Some w)) with (_first_of_month d (Some w)).
    destruct (first_of_month_weekday d w Hv) as (f & -> & Hf7 & _ & Ef).
    fold first in Ef. cbn [bind].
    assert (Edd : f = dd) by (subst dd; lia). rewrite Edd.
    assert (Vd : Datetime.valid (mkDate (year d) (month d) dd) = true)
      by (apply valid_iff; cbn [year month day]; lia).
    pose proof (toordinal_range _ Vd) as Rd. rewrite Odd in Rd.
    split; [intros _; split; [reflexivity | exact Wdd]
           | split; intros; exfalso; lia].
  - rewrite (first_of_month_none d Hv). fold first. cbn [bind].
    assert (Er : exists k,
               rounds n first (Some w) = S k
               /\ (w - day_of_week first - 1) mod 7 + 1 + 7 * Z.of_nat k
                  = dd - 1).
    { unfold rounds, dow_matches. subst dd.
      destruct (day_of_week first =? w) eqn:E; bool_to_prop.
      - exists (Z.to_nat (n - 2)). split; [lia | ]. rewrite E. zdiv.
      - exists (Z.to_nat (n - 1)). split; [lia | zdiv]. }
    destruct Er as (k & -> & Ek).
    rewrite (next_times_closed fuel k first w Vf Hw Hf), Ek.
    split; [ | split].
    + intros Hin.
      assert (Vd : Datetime.valid (mkDate (year d) (month d) dd) = true)
        by (apply valid_iff; cbn [year month day]; lia).
      pose proof (toordinal_range _ Vd) as Rd.
      destruct (add_days_ok first (dd - 1) ltac:(lia)) as (r & -> & Vr & Or).
      assert (r = mkDate (year d) (month d) dd)
        by (apply toordinal_inj; [assumption .. | lia]).
      subst r. cbn [bind]. unfold label_eqb, format_YYYY_MM.
      cbn [fst snd year month day first]. rewrite !Z.eqb_refl. cbn [andb].
      unfold set, replace. cbn [or_else].
      rewrite date_valid by (apply valid_ymd_iff; lia).
      split; [reflexivity | exact Wdd].
    + intros Hout Hmax.
      destruct (add_days_ok first (dd - 1) ltac:(lia)) as (r & -> & Vr & Or).
      cbn [bind]. unfold label_eqb, format_YYYY_MM.
      cbn [fst snd year month first].
      destruct ((year r =? year d) && (month r =? month d)) eqn:El;
        [ | reflexivity].
      exfalso. bool_to_prop. apply valid_iff in Vr.
      destruct Vr as (_ & _ & Hdr).
      revert Or. unfold first, Datetime.toordinal. cbn [year month day].
      replace (year r) with (year d) in *. replace (month r) with (month d) in *.
      lia.
    + intros Hover.
      rewrite (add_days_overflow first (dd - 1)) by lia. reflexivity.
Qed.

Lemma nth_of_month_occurrence_witness :
  nth_of 6 (mkDate 2024 5 20) "month" 3 (Some MONDAY) = Ok (mkDate 2024 5 20)
  /\ day_of_week (mkDate 2024 5 20) = MONDAY.
Proof.
  apply (proj1 (nth_of_month_occurrence 6 (mkDate 2024 5 20) 3 MONDAY eq_refl
                  ltac:(unfold MONDAY; lia) ltac:(lia) (le_n 6))).
  vm_compute. discriminate.
Defined.

(** ** [nth_of] in a year and in a quarter *)

(** The loop of [_nth_of_*] from the first day [s0] of a unit: it ends on the
    [n]-th day of weekday [w] counted from [s0]. *)
Lemma nth_steps fuel s0 n w :
  Datetime.valid s0 = true -> 0 <= w <= 6 -> 2 <= n -> (6 <= fuel)%nat ->
  next_times fuel (rounds n s0 (Some w)) s0 (Some w)
  = Datetime.add_days s0 ((w - day_of_week s0) mod 7 + 7 * (n - 1)).
Proof.
  intros Hv Hw Hn Hf. pose proof (day_of_week_range s0) as Hd.
  assert (Er : exists k,
             rounds n s0 (Some w) = S k
             /\ (w - day_of_week s0 - 1) mod 7 + 1 + 7 * Z.of_nat k
                = (w - day_of_week s0) mod 7 + 7 * (n - 1)).
  { unfold rounds, dow_matches.
    destruct (day_of_week s0 =? w) eqn:E; bool_to_prop.
    - exists (Z.to_nat (n - 2)). split; [lia | ]. rewrite E. zdiv.
    - exists (Z.to_nat (n - 1)). split; [lia | zdiv]. }
  destruct Er as (k & -> & Ek).
  now rewrite (next_times_closed fuel k s0 w Hv Hw Hf), Ek.
Qed.

Lemma year_of_ordinal r y :
  Datetime.valid r = true ->
  Datetime.days_before_year y < Datetime.toordinal r
  <= Datetime.days_before_year (y + 1) ->
  year r = y.
Proof.
  intros Vr Ho. destruct (toordinal_bounds r Vr) as [Hlo Hhi].
  destruct (Z.lt_trichotomy (year r) y) as [H | [H | H]]; [ | exact H | ].
  - pose proof (days_before_year_mono (year r + 1) y ltac:(lia)). lia.
  - pose proof (days_before_year_mono (y + 1) (year r) ltac:(lia)). lia.
Qed.

Lemma set_same_year d r :
  Datetime.valid r = true -> year r = year d ->
  set d (Some (year d)) (Some (month r)) (Some (day r)) = Ok r.
Proof.
  intros Vr Ey. unfold set, replace. cbn [or_else]. rewrite <- Ey.
  now apply date_of_valid.
Qed.

(** For [n >= 1], [nth_of] in a year returns the [n]-th day of weekday [w] of
    the year of [d]: its day of the year is the one of the first such day
    plus [7 * (n - 1)]; past the end of the year the [DateTimeException] is
    raised (an [OverflowError] past the last [date]). *)
Theorem nth_of_year_occurrence (fuel : nat) (d : Date) (n w : Z) :
  Datetime.valid d = true -> 0 <= w <= 6 -> 1 <= n -> (6 <= fuel)%nat ->
  let jan1 := mkDate (year d) 1 1 in
  let doy := 1 + (w - day_of_week jan1) mod 7 + 7 * (n - 1) in
  let len := 365 + (if is_leap_year d then 1 else 0) in
  (doy <= len ->
   exists r,
     nth_of fuel d "year" n (Some w) = Ok r
     /\ Datetime.valid r = true /\ year r = year d
     /\ day_of_year r = doy /\ day_of_week r = w)
  /\ (len < doy ->
      Datetime.toordinal jan1 + doy - 1 <= Datetime.MAXORDINAL ->
      nth_of fuel d "year" n (Some w) = Raise DateTimeException)
  /\ (Datetime.MAXORDINAL < Datetime.toordinal jan1 + doy - 1 ->
      nth_of fuel d "year" n (Some w) = Raise OverflowError).
Proof.
  intros Hv Hw Hn Hf jan1 doy len.
  pose proof Hv as Hv'. apply valid_iff in Hv'. destruct Hv' as (Hy & Hm & Hd).
  pose proof (days_in_month_bounds (year d) (month d) Hm) as Hb.
  assert (Vj : Datetime.valid jan1 = true).
  { apply valid_iff. unfold jan1. cbn [year month day].
    change (Datetime.days_in_month (year d) 1) with 31. lia. }
  pose proof (toordinal_range jan1 Vj) as Rj.
  pose proof (toordinal_jan1 (year d)) as Oj. fold jan1 in Oj.
  pose proof (day_of_week_range jan1) as Hdj.
  pose proof (days_before_year_succ (year d)) as Sy.
  assert (El : len = 365 + (if Datetime.is_leap (year d) then 1 else 0))
    by reflexivity.
  pose proof (days_before_year_mono (year d + 1) 10000 ltac:(lia)) as Mx.
  change (Datetime.days_before_year 10000) with Datetime.MAXORDINAL in Mx.
  assert (Hdoy : 1 <= doy) by (subst doy; zdiv).
  assert (Hlen : 365 <= len <= 366)
    by (rewrite El; destruct (Datetime.is_leap (year d)); lia).
  (* the date the search ends on, when it is one *)
  assert (Hfound : forall r,
             Datetime.valid r = true ->
             Datetime.toordinal r = Datetime.toordinal jan1 + (doy - 1) ->
             doy <= len ->
             year r = year d /\ day_of_year r = doy /\ day_of_week r = w).
  { intros r Vr Or Hin.
    assert (Ey : year r = year d) by (apply year_of_ordinal; [exact Vr | lia]).
    split; [exact Ey | ]. split.
    - pose proof Vr as Vr'. apply valid_iff in Vr'.
      rewrite (day_of_year_days_before r (proj1 (proj2 Vr'))).
      revert Or. unfold Datetime.toordinal at 1. rewrite Ey. lia.
    - rewrite day_of_week_ordinal, Or. subst doy.
      rewrite day_of_week_ordinal. zdiv. }
  change (nth_of fuel d "year" n (Some w))
    with (r <- _nth_of_year fuel d n (Some w) ;;
          match r with
          | Some dt => Ok dt
          | None => if existsb (Z.eqb w) _days then Raise DateTimeException
                    else Raise KeyError
          end).
  rewrite (weekday_in_days w Hw). unfold _nth_of_year.
  destruct (n =? 1) eqn:En; bool_to_prop.
  - subst n.
    change (first_of d "year" (Some w)) with (_first_of_year d (Some w)).
    unfold _first_of_year, set, replace. cbn [or_else].
    rewrite date_valid.
    2:{ apply valid_ymd_iff.
        change (Datetime.days_in_month (year d) 1) with 31. lia. }
    cbn [bind].
    assert (Vx : Datetime.valid (mkDate (year d) 1 (day d)) = true).
    { apply valid_iff. cbn [year month day].
      change (Datetime.days_in_month (year d) 1) with 31. lia. }
    destruct (first_of_month_weekday _ w Vx) as (f & -> & Hf7 & _ & Ef).
    cbn [year month day] in *. fold jan1 in Ef. cbn [bind].
    assert (Edoy : doy = f) by (subst doy; lia).
    assert (Vr : Datetime.valid (mkDate (year d) 1 f) = true).
    { apply valid_iff. cbn [year month day].
      change (Datetime.days_in_month (year d) 1) with 31. lia. }
    assert (Or : Datetime.toordinal (mkDate (year d) 1 f)
                 = Datetime.toordinal jan1 + (doy - 1))
      by (rewrite Edoy; unfold jan1, Datetime.toordinal; cbn [year month day];
          lia).
    pose proof (toordinal_range _ Vr) as Rr.
    split; [ | split; intros; exfalso; lia].
    intros Hin. exists (mkDate (year d) 1 f).
    split; [reflexivity | ]. split; [exact Vr | ]. now apply Hfound.
  - change (first_of d "year" None) with (_first_of_year d None).
    unfold _first_of_year, set, replace. cbn [or_else].
    rewrite date_valid.
    2:{ apply valid_ymd_iff.
        change (Datetime.days_in_month (year d) 1) with 31. lia. }
    cbn [bind _first_of_month]. unfold set, replace.
    cbn [or_else year month day]. fold jan1.
    change (Datetime.date (year d) 1 1)
      with (Datetime.date (year jan1) (month jan1) (day jan1)).
    rewrite (date_of_valid jan1 Vj). cbn [bind].
    rewrite (nth_steps fuel jan1 n w Vj Hw ltac:(lia) Hf).
    replace ((w - day_of_week jan1) mod 7 + 7 * (n - 1)) with (doy - 1)
      by (subst doy; lia).
    split; [ | split].
    + intros Hin.
      destruct (add_days_ok jan1 (doy - 1) ltac:(lia)) as (r & -> & Vr & Or).
      cbn [bind]. destruct (Hfound r Vr Or Hin) as (Ey & Edoy & Ew).
      cbn [year jan1]. rewrite Ey, Z.eqb_refl. cbn [negb].
      change (Datetime.date (year d) (month r) (day r))
        with (set d (Some (year d)) (Some (month r)) (Some (day r))).
      rewrite (set_same_year d r Vr Ey). cbn [bind].
      exists r. auto.
    + intros Hout Hmax.
      destruct (add_days_ok jan1 (doy - 1) ltac:(lia)) as (r & -> & Vr & Or).
      cbn [bind]. cbn [year jan1].
      destruct (year d =? year r) eqn:Ey; [ | reflexivity].
      exfalso. bool_to_prop. destruct (toordinal_bounds r Vr) as [_ Hhi].
      rewrite <- Ey in Hhi. lia.
    + intros Hover.
      rewrite (add_days_overflow jan1 (doy - 1)) by lia. reflexivity.
Qed.

Lemma nth_of_year_occurrence_witness :
  exists r,
    nth_of 6 (mkDate 2024 5 20) "year" 10 (Some MONDAY) = Ok r
    /\ Datetime.valid r = true /\ year r = 2024
    /\ day_of_year r = 64 /\ day_of_week r = MONDAY.
Proof.
  apply (proj1 (nth_of_year_occurrence 6 (mkDate 2024 5 20) 10 MONDAY eq_refl
                  ltac:(unfold MONDAY; lia) ltac:(lia) (le_n 6))).
  vm_compute. discriminate.
Defined.

Lemma quarter_range d : 1 <= month d <= 12 -> 1 <= quarter d <= 4.
Proof. intros H. unfold quarter. zdiv. Qed.

Lemma quarter_first_valid d :
  Datetime.valid d = true ->
  Datetime.valid (mkDate (year d) (3 * quarter d - 2) 1) = true.
Proof.
  intros Hv. apply valid_iff in Hv. destruct Hv as (Hy & Hm & _).
  pose proof (quarter_range d Hm). apply valid_iff. cbn [year month day].
  pose proof (days_in_month_bounds (year d) (3 * quarter d - 2) ltac:(lia)). lia.
Qed.

Lemma quarter_last_valid d :
  Datetime.valid d = true ->
  Datetime.valid
    (mkDate (year d) (3 * quarter d)
            (Datetime.days_in_month (year d) (3 * quarter d))) = true.
Proof.
  intros Hv. apply valid_iff in Hv. destruct Hv as (Hy & Hm & _).
  pose proof (quarter_range d Hm). apply valid_iff. cbn [year month day].
  pose proof (days_in_month_bounds (year d) (3 * quarter d) ltac:(lia)). lia.
Qed.

(** The containment test of [_nth_of_quarter] on a date not before the first
    day of the quarter: it passes exactly up to the last day of the
    quarter. *)
Lemma in_quarter_test d r :
  Datetime.valid d = true -> Datetime.valid r = true ->
  Datetime.toordinal (mkDate (year d) (3 * quarter d - 2) 1)
  <= Datetime.toordinal r ->
  ((3 * quarter d <? month r) || negb (year d =? year r) = false
   <-> Datetime.toordinal r
       <= Datetime.toordinal
            (mkDate (year d) (3 * quarter d)
                    (Datetime.days_in_month (year d) (3 * quarter d)))).
Proof.
  intros Hv Vr Hlo.
  pose proof (quarter_first_valid d Hv) as V1.
  pose proof (quarter_last_valid d Hv) as V2.
  rewrite <- (toordinal_leb_iff _ _ V1 Vr) in Hlo.
  rewrite <- (toordinal_leb_iff _ _ Vr V2).
  rewrite leb_iff in *. cbn [year month day] in *.
  apply valid_iff in Vr. destruct Vr as (_ & _ & Hdr).
  rewrite orb_false_iff, negb_false_iff, Z.ltb_ge, Z.eqb_eq. split.
  - intros [Hmr Eyr]. right. split; [lia | ].
    destruct (Z.eq_dec (month r) (3 * quarter d)) as [E | E]; [ | lia].
    right. split; [exact E | ]. rewrite <- E, Eyr. lia.
  - intros H. lia.
Qed.

(** For [n >= 1], [nth_of] in a quarter returns the [n]-th day of weekday [w]
    counted from the first day of the quarter of [d], when it is not after
    the last day of the quarter; otherwise the [DateTimeException] is raised
    (an [OverflowError] past the last [date]). *)
Theorem nth_of_quarter_occurrence (fuel : nat) (d : Date) (n w : Z) :
  Datetime.valid d = true -> 0 <= w <= 6 -> 1 <= n -> (6 <= fuel)%nat ->
  let q1 := mkDate (year d) (3 * quarter d - 2) 1 in
  let qend := mkDate (year d) (3 * quarter d)
                     (Datetime.days_in_month (year d) (3 * quarter d)) in
  let t := Datetime.toordinal q1 + (w - day_of_week q1) mod 7 + 7 * (n - 1) in
  (t <= Datetime.toordinal qend ->
   exists r,
     nth_of fuel d "quarter" n (Some w) = Ok r
     /\ Datetime.valid r = true
     /\ Datetime.toordinal r = t /\ day_of_week r = w
     /\ Datetime.leb q1 r = true /\ Datetime.leb r qend = true)
  /\ (Datetime.toordinal qend < t -> t <= Datetime.MAXORDINAL ->
      nth_of fuel d "quarter" n (Some w) = Raise DateTimeException)
  /\ (Datetime.MAXORDINAL < t ->
      nth_of fuel d "quarter" n (Some w) = Raise OverflowError).
Proof.
  intros Hv Hw Hn Hf q1 qend t.
  pose proof Hv as Hv'. apply valid_iff in Hv'. destruct Hv' as (Hy & Hm & Hd).
  pose proof (quarter_range d Hm) as Hq.
  pose proof (quarter_first_valid d Hv) as V1. fold q1 in V1.
  pose proof (quarter_last_valid d Hv) as V2. fold qend in V2.
  pose proof (toordinal_range q1 V1) as R1.
  pose proof (toordinal_range qend V2) as R2.
  pose proof (day_of_week_range q1) as Hd1.
  assert (Hshift : 0 <= (w - day_of_week q1) mod 7 <= 6) by zdiv.
  assert (Wt : forall r, Datetime.toordinal r = t -> day_of_week r = w).
  { intros r Or. rewrite day_of_week_ordinal, Or. subst t.
    rewrite day_of_week_ordinal. zdiv. }
  assert (Hfound : forall r,
             Datetime.valid r = true -> Datetime.toordinal r = t ->
             t <= Datetime.toordinal qend ->
             Datetime.leb q1 r = true /\ Datetime.leb r qend = true).
  { intros r Vr Or Hin.
    rewrite (toordinal_leb_iff q1 r V1 Vr), (toordinal_leb_iff r qend Vr V2).
    lia. }
  change (nth_of fuel d "quarter" n (Some w))
    with (r <- _nth_of_quarter fuel d n (Some w) ;;
          match r with
          | Some dt => Ok dt
          | None => if existsb (Z.eqb w) _days then Raise DateTimeException
                    else Raise KeyError
          end).
  rewrite (weekday_in_days w Hw). unfold _nth_of_quarter.
  destruct (n =? 1) eqn:En; bool_to_prop.
  - subst n.
    change (first_of d "quarter" (Some w)) with (_first_of_quarter d (Some w)).
    unfold _first_of_quarter, set, replace. cbn [or_else].
    replace (quarter d * 3 - 2) with (3 * quarter d - 2) by lia.
    change (Datetime.date (year d) (3 * quarter d - 2) 1)
      with (Datetime.date (year q1) (month q1) (day q1)).
    rewrite (date_of_valid q1 V1). cbn [bind].
    destruct (first_of_month_weekday q1 w V1) as (f & -> & Hf7 & _ & Ef).
    cbn [q1 year month day] in *. fold q1 in Ef. cbn [bind].
    pose proof (days_in_month_bounds (year d) (3 * quarter d - 2) ltac:(lia)).
    assert (Vr : Datetime.valid (mkDate (year d) (3 * quarter d - 2) f) = true)
      by (apply valid_iff; cbn [year month day]; lia).
    assert (Or : Datetime.toordinal (mkDate (year d) (3 * quarter d - 2) f) = t)
      by (subst t; unfold q1 at 1, Datetime.toordinal; cbn [year month day];
          lia).
    assert (Hin : t <= Datetime.toordinal qend).
    { rewrite <- Or. apply (toordinal_leb_iff _ _ Vr V2). apply leb_iff.
      cbn [qend year month day]. lia. }
    pose proof (toordinal_range _ Vr) as Rr.
    split; [ | split; intros; exfalso; lia].
    intros _. exists (mkDate (year d) (3 * quarter d - 2) f).
    split; [reflexivity | ]. split; [exact Vr | ]. split; [exact Or | ].
    split; [now apply Wt | now apply Hfound].
  - unfold replace. cbn [or_else].
    replace (quarter d * 3) with (3 * quarter d) by lia.
    rewrite date_valid.
    2:{ apply valid_ymd_iff.
        pose proof (days_in_month_bounds (year d) (3 * quarter d) ltac:(lia)).
        lia. }
    cbn [bind year month].
    change (first_of (mkDate (year d) (3 * quarter d) 1) "quarter" None)
      with (_first_of_quarter (mkDate (year d) (3 * quarter d) 1) None).
    unfold _first_of_quarter, set, replace. cbn [or_else year month day].
    replace (quarter (mkDate (year d) (3 * quarter d) 1) * 3 - 2)
      with (3 * quarter d - 2) by (unfold quarter; cbn [month]; zdiv).
    change (Datetime.date (year d) (3 * quarter d - 2) 1)
      with (Datetime.date (year q1) (month q1) (day q1)).
    rewrite (date_of_valid q1 V1). cbn [bind _first_of_month].
    unfold set, replace. cbn [or_else].
    change (Datetime.date (year q1) (month q1) 1)
      with (Datetime.date (year q1) (month q1) (day q1)).
    rewrite (date_of_valid q1 V1). cbn [bind].
    rewrite (nth_steps fuel q1 n w V1 Hw ltac:(lia) Hf).
    replace (Datetime.add_days q1 ((w - day_of_week q1) mod 7 + 7 * (n - 1)))
      with (Datetime.add_days q1 (t - Datetime.toordinal q1))
      by (f_equal; subst t; lia).
    split; [ | split].
    + intros Hin.
      destruct (add_days_ok q1 (t - Datetime.toordinal q1) ltac:(lia))
        as (r & -> & Vr & Or).
      replace (Datetime.toordinal q1 + (t - Datetime.toordinal q1)) with t
        in Or by lia.
      cbn [bind].
      replace ((3 * quarter d <? month r) || negb (year d =? year r))
        with false.
      2:{ symmetry. apply (in_quarter_test d r Hv Vr); fold q1; fold qend; lia. }
      assert (Ey : year r = year d).
      { pose proof (proj2 (in_quarter_test d r Hv Vr ltac:(fold q1; lia))
                      ltac:(fold qend; lia)) as H.
        apply orb_false_iff in H. destruct H as [_ H].
        apply negb_false_iff, Z.eqb_eq in H. now symmetry. }
      change (Datetime.date (year d) (month r) (day r))
        with (set d (Some (year d)) (Some (month r)) (Some (day r))).
      rewrite (set_same_year d r Vr Ey). cbn [bind].
      exists r. split; [reflexivity | ]. split; [exact Vr | ].
      split; [exact Or | ]. split; [now apply Wt | now apply Hfound].
    + intros Hout Hmax.
      destruct (add_days_ok q1 (t - Datetime.toordinal q1) ltac:(lia))
        as (r & -> & Vr & Or).
      replace (Datetime.toordinal q1 + (t - Datetime.toordinal q1)) with t
        in Or by lia.
      cbn [bind].
      destruct ((3 * quarter d <? month r) || negb (year d =? year r)) eqn:Et;
        [reflexivity | ].
      exfalso. apply (in_quarter_test d r Hv Vr) in Et; fold q1; fold qend;
        fold qend in Et; lia.
    + intros Hover.
      rewrite (add_days_overflow q1 (t - Datetime.toordinal q1)) by lia.
      reflexivity.
Qed.

Lemma nth_of_quarter_occurrence_witness :
  exists r,
    nth_of 6 (mkDate 2024 5 20) "quarter" 3 (Some MONDAY) = Ok r
    /\ Datetime.valid r = true
    /\ Datetime.toordinal r
       = Datetime.toordinal (mkDate 2024 4 1)
         + (MONDAY - day_of_week (mkDate 2024 4 1)) mod 7 + 7 * (3 - 1)
    /\ day_of_week r = MONDAY
    /\ Datetime.leb (mkDate 2024 4 1) r = true
    /\ Datetime.leb r (mkDate 2024 6 30) = true.
Proof.
  apply (proj1 (nth_of_quarter_occurrence 6 (mkDate 2024 5 20) 3 MONDAY eq_refl
                  ltac:(unfold MONDAY; lia) ltac:(lia) (le_n 6))).
  vm_compute. discriminate.
Defined.

(** ** More on deltas and weekday steps *)

Lemma add_months_only d a r :
  Datetime.valid d = true ->
  add d 0 a 0 0 = Ok r ->
  r = clamped_target d a /\ Datetime.valid r = true
  /\ 1 <= fst (target_year_month d a) <= 9999.
Proof.
  intros Hv. rewrite (add_months_days d a 0 0 Hv). change (0 + 0 * 7) with 0.
  intros E. apply delta_outcome_inv in E. destruct E as [Hin E].
  pose proof (clamped_target_valid d a Hv Hin) as Vc.
  rewrite (add_days_zero _ Vc) in E. injection E as <-. auto.
Qed.

(** Month shifts compose as long as the first one cut no day: adding [a]
    months and then [b] months is adding [a + b] months. *)
Theorem add_months_compose (d r : Date) (a b : Z) :
  Datetime.valid d = true ->
  add d 0 a 0 0 = Ok r ->
  day r = day d ->
  add r 0 b 0 0 = add d 0 (a + b) 0 0.
Proof.
  intros Hv E Hday.
  destruct (add_months_only d a r Hv E) as (Er & Vr & Hin).
  rewrite (add_months_days r b 0 0 Vr), (add_months_days d (a + b) 0 0 Hv).
  assert (Et : target_year_month r b = target_year_month d (a + b)).
  { rewrite Er. unfold clamped_target, target_year_month.
    cbn [year month day]. f_equal; zdiv. }
  unfold delta_outcome, clamped_target. rewrite Et, Hday. reflexivity.
Qed.

Lemma add_months_compose_witness :
  add (mkDate 2024 2 28) 0 2 0 0 = add (mkDate 2024 1 28) 0 (1 + 2) 0 0.
Proof.
  apply (add_months_compose (mkDate 2024 1 28) (mkDate 2024 2 28) 1 2);
    reflexivity.
Defined.

(** [previous] undoes [next]: from the date [next] returns, the previous day
    of the weekday of [d] is [d]; and [next] undoes [previous]. *)
Theorem next_previous_round_trip (fuel : nat) (d r : Date) (w : Z) :
  Datetime.valid d = true -> 0 <= w <= 6 -> (6 <= fuel)%nat ->
  (next fuel d (Some w) = Ok r ->
   previous fuel r (Some (day_of_week d)) = Ok d)
  /\ (previous fuel d (Some w) = Ok r ->
      next fuel r (Some (day_of_week d)) = Ok d).
Proof.
  intros Hv Hw Hf. pose proof (day_of_week_range d) as Hd. split.
  - rewrite (next_closed fuel d w Hv Hw Hf). intros E.
    apply add_days_inv in E. destruct E as [Vr Or].
    rewrite (previous_closed fuel r _ Vr Hd Hf).
    rewrite <- (add_days_zero d Hv). apply add_days_ext.
    rewrite (day_of_week_ordinal r), Or, !day_of_week_ordinal. zdiv.
  - rewrite (previous_closed fuel d w Hv Hw Hf). intros E.
    apply add_days_inv in E. destruct E as [Vr Or].
    rewrite (next_closed fuel r _ Vr Hd Hf).
    rewrite <- (add_days_zero d Hv). apply add_days_ext.
    rewrite (day_of_week_ordinal r), Or, !day_of_week_ordinal. zdiv.
Qed.

Lemma next_previous_round_trip_witness :
  previous 6 (mkDate 2024 2 5) (Some (day_of_week (mkDate 2024 2 1)))
  = Ok (mkDate 2024 2 1).
Proof.
  apply (proj1 (next_previous_round_trip 6 (mkDate 2024 2 1) (mkDate 2024 2 5)
                  MONDAY eq_refl ltac:(unfold MONDAY; lia) (le_n 6))).
  vm_compute. reflexivity.
Defined.

(** The weekday given to [nth_of] is checked only when the search loop runs:
    for a number outside 0..6, the second and later occurrences raise a
    [ValueError] from [next], while the first occurrence is read in the
    calendar with the weekday taken modulo 7. *)
Theorem nth_of_unchecked_weekday (fuel : nat) (d : Date) (n w : Z) :
  Datetime.valid d = true -> ~ (0 <= w <= 6) ->
  (2 <= n -> nth_of fuel d "month" n (Some w) = Raise ValueError)
  /\ exists f,
       nth_of fuel d "month" 1 (Some w) = Ok (mkDate (year d) (month d) f)
       /\ 1 <= f <= 7
       /\ day_of_week (mkDate (year d) (month d) f) = w mod 7.
Proof.
  intros Hv Hw. split.
  - intros Hn.
    change (nth_of fuel d "month" n (Some w))
      with (r <- _nth_of_month fuel d n (Some w) ;;
            match r with
            | Some dt => Ok dt
            | None => if existsb (Z.eqb w) _days then Raise DateTimeException
                      else Raise KeyError
            end).
    unfold _nth_of_month.
    replace (n =? 1) with false by (symmetry; apply Z.eqb_neq; lia).
    rewrite (first_of_month_none d Hv). cbn [bind].
    pose proof (day_of_week_range (mkDate (year d) (month d) 1)) as Hd.
    assert (Er : rounds n (mkDate (year d) (month d) 1) (Some w)
                 = S (Z.to_nat (n - 1))).
    { unfold rounds, dow_matches.
      replace (day_of_week (mkDate (year d) (month d) 1) =? w) with false
        by (symmetry; apply Z.eqb_neq; lia).
      lia. }
    rewrite Er. cbn [next_times]. unfold next, SUNDAY, SATURDAY.
    cbn [or_else].
    replace ((w <? 0) || (w >? 6)) with true; [reflexivity | ].
    symmetry. apply orb_true_iff. rewrite Z.gtb_ltb, !Z.ltb_lt. lia.
  - destruct (first_of_month_weekday d w Hv) as (f & Ef & Hf7 & Wf & _).
    exists f. split; [ | split; assumption].
    change (nth_of fuel d "month" 1 (Some w))
      with (r <- (dt <- _first_of_month d (Some w) ;; Ok (Some dt)) ;;
            match r with
            | Some dt => Ok dt
            | None => if existsb (Z.eqb w) _days then Raise DateTimeException
                      else Raise KeyError
            end).
    rewrite Ef. reflexivity.
Qed.

Lemma nth_of_unchecked_weekday_witness :
  nth_of 6 (mkDate 2024 2 15) "month" 2 (Some 7) = Raise ValueError
  /\ exists f,
       nth_of 6 (mkDate 2024 2 15) "month" 1 (Some 7) = Ok (mkDate 2024 2 f)
       /\ 1 <= f <= 7
       /\ day_of_week (mkDate 2024 2 f) = 7 mod 7.
Proof.
  destruct (nth_of_unchecked_weekday 6 (mkDate 2024 2 15) 2 7 eq_refl
              ltac:(lia)) as [R F].
  split; [apply R; lia | exact F].
Defined.
